(** * Difference Machine add-on: the CLI wrapper and its operators

    A shallow embedding of the parts of the Blender add-on that encode the
    contract with the external [forester] command-line tool:

    - [utils/helpers.py]       : [normalize_commit_hash]
    - [utils/forester_cli.py]  : [ForesterCLI] (argv construction, output parsers)
    - [operators/*.py]         : the switch-branch, delete-branch, delete-commit,
                                 garbage-collect and stash-and-checkout operators

    Python [str] values are modelled as [string]; a character is an 8-bit code
    point (the Latin-1 range), and the character classes of Python
    ([str.isspace], [str.lower]) are the restrictions of the Unicode ones to
    that range.  The external world (the CLI process, the clock, the random
    generator, nested Blender operators) is an oracle that answers from the
    history of events, and every effect of an operator is appended to that
    history. *)

From Stdlib Require Import String Ascii List Bool Arith ZArith Lia.
From Stdlib Require Import Numbers.DecimalString.
From Stdlib Require Numbers.DecimalPos Numbers.DecimalFacts.
Import ListNotations.
Open Scope string_scope.
Open Scope list_scope.
Open Scope nat_scope.

(* ===================================================================== *)
(** ** Python string primitives *)
(* ===================================================================== *)

Module Py.

(** [c.isspace()] on code points below 256: TAB..CR, FS..US, SPACE, NEL, NBSP. *)
Definition isspace (c : ascii) : bool :=
  let n := nat_of_ascii c in
  ((9 <=? n) && (n <=? 13)) || ((28 <=? n) && (n <=? 32))
  || (n =? 133) || (n =? 160).

(** [c.lower()] on code points below 256: A..Z and the Latin-1 capitals
    (U+00C0..U+00DE without the multiplication sign) move up by 32. *)
Definition lower_char (c : ascii) : ascii :=
  let n := nat_of_ascii c in
  if ((65 <=? n) && (n <=? 90))
     || ((192 <=? n) && (n <=? 222) && negb (n =? 215))
  then ascii_of_nat (n + 32) else c.

Fixpoint lower (s : string) : string :=
  match s with
  | EmptyString => EmptyString
  | String c s' => String (lower_char c) (lower s')
  end.

(** Truthiness of a [str]: non-empty. *)
Definition truthy (s : string) : bool :=
  match s with EmptyString => false | String _ _ => true end.

(** [a or b] on strings. *)
Definition or_else (a b : string) : string := if truthy a then a else b.

(** [all(p(c) for c in s)] and [c in chars]. *)
Fixpoint all_chars (p : ascii -> bool) (s : string) : bool :=
  match s with
  | EmptyString => true
  | String c s' => p c && all_chars p s'
  end.

Fixpoint char_in (c : ascii) (chars : string) : bool :=
  match chars with
  | EmptyString => false
  | String d r => Ascii.eqb c d || char_in c r
  end.

(** [s.lstrip()], [s.rstrip()], [s.strip()]. *)
Fixpoint lstrip (s : string) : string :=
  match s with
  | EmptyString => EmptyString
  | String c s' => if isspace c then lstrip s' else s
  end.

Fixpoint rstrip (s : string) : string :=
  match s with
  | EmptyString => EmptyString
  | String c s' =>
      let r := rstrip s' in
      if isspace c && negb (truthy r) then EmptyString else String c r
  end.

Definition strip (s : string) : string := rstrip (lstrip s).

(** [s.split(sep)] for a one-character separator: never an empty list. *)
Fixpoint split_on (sep : ascii) (s : string) : list string :=
  match s with
  | EmptyString => [EmptyString]
  | String c s' =>
      if Ascii.eqb c sep then EmptyString :: split_on sep s'
      else match split_on sep s' with
           | [] => [String c EmptyString]
           | w :: ws => String c w :: ws
           end
  end.

Definition newline : ascii := ascii_of_nat 10.

Definition lines (s : string) : list string := split_on newline s.

(** [s.split()]: the maximal runs of non-whitespace characters. [cur] is the
    run being read. *)
Fixpoint split_ws_from (cur : string) (s : string) : list string :=
  match s with
  | EmptyString => if truthy cur then [cur] else []
  | String c s' =>
      if isspace c
      then (if truthy cur then cur :: split_ws_from EmptyString s'
            else split_ws_from EmptyString s')
      else split_ws_from (cur ++ String c EmptyString)%string s'
  end.

Definition split_ws (s : string) : list string := split_ws_from EmptyString s.

(** [''.join(parts)]. *)
Definition join_empty (parts : list string) : string :=
  fold_right append EmptyString parts.

(** [s.startswith(p)]. *)
Definition startswith (p s : string) : bool := String.prefix p s.

(** [sub in s]. *)
Fixpoint contains (sub s : string) : bool :=
  String.prefix sub s ||
  match s with
  | EmptyString => false
  | String _ s' => contains sub s'
  end.

(** [s[n:]] and [s[:n]] for a non-negative [n]. *)
Fixpoint drop (n : nat) (s : string) : string :=
  match n, s with
  | O, _ => s
  | S _, EmptyString => EmptyString
  | S k, String _ s' => drop k s'
  end.

Fixpoint take (n : nat) (s : string) : string :=
  match n, s with
  | O, _ => EmptyString
  | S _, EmptyString => EmptyString
  | S k, String c s' => String c (take k s')
  end.

(** [s[i:j]] for non-negative [i], [j]. *)
Definition slice (i j : nat) (s : string) : string := take (j - i) (drop i s).

(** [s.replace(old, new)]: the non-overlapping occurrences of [old], found
    left to right, are replaced.  [skip] counts the characters of the
    occurrence just matched that are still to be passed over. *)
Fixpoint replace_from (old new : string) (skip : nat) (s : string) : string :=
  match s with
  | EmptyString => EmptyString
  | String c s' =>
      match skip with
      | S k => replace_from old new k s'
      | O =>
          if String.prefix old s
          then (new ++ replace_from old new (String.length old - 1) s')%string
          else String c (replace_from old new 0 s')
      end
  end.

(** With an empty [old], Python inserts [new] around every character. *)
Fixpoint intersperse (new s : string) : string :=
  match s with
  | EmptyString => new
  | String c s' => (new ++ String c (intersperse new s'))%string
  end.

Definition replace (old new s : string) : string :=
  if truthy old then replace_from old new 0 s else intersperse new s.

(** [s.find(c)] for a one-character needle: the index, or -1. *)
Fixpoint find_char (c : ascii) (s : string) : Z :=
  match s with
  | EmptyString => (-1)%Z
  | String d s' =>
      if Ascii.eqb d c then 0%Z
      else let r := find_char c s' in if (r <? 0)%Z then (-1)%Z else (r + 1)%Z
  end.

(** The decimal text of an integer: its digits, after a minus sign for a
    negative one. *)
Definition decimal (n : Z) : string := NilZero.string_of_int (Z.to_int n).

(** [sys.get_int_max_str_digits()]: 4300 unless the interpreter is started
    with another limit. *)
Definition INT_MAX_STR_DIGITS : nat := 4300.

(** The number of decimal digits in [s]. *)
Fixpoint count_digits (s : string) : nat :=
  match s with
  | EmptyString => 0
  | String c s' =>
      (if char_in c "0123456789" then 1 else 0) + count_digits s'
  end.

(** [str(n)] for an [int]: the decimal text, or [ValueError] ([None]) for a
    number of more digits than the limit. *)
Definition str_of_int (n : Z) : option string :=
  if count_digits (decimal n) <=? INT_MAX_STR_DIGITS then Some (decimal n)
  else None.

(** [l[:n]] on a list, for any integer [n]: a negative [n] counts from the
    end. *)
Definition slice_to {A} (n : Z) (l : list A) : list A :=
  if (n <? 0)%Z then firstn (length l - Z.to_nat (- n)) l
  else firstn (Z.to_nat n) l.

End Py.

(* ===================================================================== *)
(** ** utils/helpers.py *)
(* ===================================================================== *)

Definition COMMIT_HASH_LENGTH : nat := 64.

(** [c in '0123456789abcdefABCDEF'] *)
Definition is_hex_any_case (c : ascii) : bool :=
  Py.char_in c "0123456789abcdefABCDEF".

(** [normalize_commit_hash(commit_hash: Optional[str]) -> Optional[str]].
    The two [logger.warning] calls have no effect on the result. *)
Definition normalize_commit_hash (commit_hash : option string) : option string :=
  match commit_hash with
  | None => None
  | Some h =>
      if negb (Py.truthy h) then None
      else
        let hash_str := Py.join_empty (Py.split_ws (Py.strip h)) in
        if negb (Py.truthy hash_str) then None
        else if negb (Py.all_chars is_hex_any_case hash_str) then None
        else
          let normalized := Py.lower hash_str in
          if negb (String.length normalized =? COMMIT_HASH_LENGTH) then None
          else Some normalized
  end.

(** [find_repository_root(start_path)]. A path is the list of its components
    under the root, innermost first, so that the parent of a path is its
    tail and the root, the path that is its own parent, is the empty list;
    [has_dfm current] is [(current / ".DFM").exists() and
    (current / ".DFM").is_dir()]. *)
Fixpoint find_repository_root (has_dfm : list string -> bool)
  (current : list string) : option (list string) :=
  if has_dfm current then Some current
  else match current with
       | [] => None
       | _ :: parent => find_repository_root has_dfm parent
       end.

(* ===================================================================== *)
(** ** The world outside the add-on *)
(* ===================================================================== *)

(** What [_execute_command] gives back: the triple of [subprocess.run], or a
    [ForesterCLIError] (path not configured or invalid, time-out, failure to
    start the process). *)
Inductive cli_reply : Type :=
| CliRaised (msg : string)
| CliExited (exit_code : Z) (stdout stderr : string).

Record command : Type := Command {
  argv : list string;
  cwd : string;
  timeout : Z
}.

Inductive report_level : Type := INFO | WARNING | ERROR.

(** The set an operator returns: [{'FINISHED'}] or [{'CANCELLED'}]. *)
Inductive op_result : Type := FINISHED | CANCELLED.

(** A call [bpy.ops.df.<name>(...)] returns a result set or raises
    [RuntimeError]. *)
Inductive op_reply : Type :=
| OpReturned (r : op_result)
| OpRuntimeError (msg : string).

Inductive kwarg : Type :=
| KStr (s : string)
| KBool (b : bool).

(** [get_repository_path()]: the three ways it ends. *)
Inductive repo_lookup : Type :=
| RepoFound (p : string)
| RepoUnsaved
| RepoMissing.

Inductive event : Type :=
| EvExec (c : command)                               (* _execute_command *)
| EvReport (lvl : report_level) (msg : string)       (* self.report *)
| EvOp (idname : string) (kwargs : list (string * kwarg))  (* a nested bpy.ops.df call *)
| EvNow                                              (* datetime.now() *)
| EvRandint (lo hi : Z)                              (* random.randint *)
| EvGcLastRun.                                       (* prefs.gc_last_run = time.time() *)

(** The world answers from the history of events, the asking event included;
    any deterministic environment is such an oracle. *)
Record World : Type := MkWorld {
  cli_oracle : list event -> cli_reply;
  clock_oracle : list event -> string;
  entropy_oracle : list event -> Z;
  ops_oracle : list event -> op_reply;
  repo_oracle : list event -> repo_lookup;
  history : list event
}.

Definition record_event (e : event) (w : World) : World :=
  MkWorld (cli_oracle w) (clock_oracle w) (entropy_oracle w) (ops_oracle w)
          (repo_oracle w) (history w ++ [e]).

(** State passing over the world. *)
Definition M (A : Type) : Type := World -> A * World.

Definition ret {A} (a : A) : M A := fun w => (a, w).

Definition bind {A B} (m : M A) (k : A -> M B) : M B :=
  fun w => let (a, w') := m w in k a w'.

Declare Scope py_scope.
Delimit Scope py_scope with py.
Notation "x <- m ;; k" := (bind m (fun x => k))
  (at level 61, m at next level, right associativity) : py_scope.
Notation "' pat <- m ;; k" := (bind m (fun x => match x with pat => k end))
  (at level 61, pat pattern, m at next level, right associativity) : py_scope.
Notation "m ;;; k" := (bind m (fun _ => k))
  (at level 61, right associativity) : py_scope.
Open Scope py_scope.

Definition emit (e : event) : M unit := fun w => (tt, record_event e w).

(** [self.report({level}, msg)] *)
Definition report (lvl : report_level) (msg : string) : M unit :=
  emit (EvReport lvl msg).

(** [subprocess.run] behind [_execute_command]. *)
Definition _execute_command (cmd : list string) (dir : string) (tmo : Z)
  : M cli_reply :=
  fun w => let w' := record_event (EvExec (Command cmd dir tmo)) w in
           (cli_oracle w' (history w'), w').

(** [datetime.now().strftime("%Y-%m-%d %H:%M:%S.%f")] *)
Definition now_strftime : M string :=
  fun w => let w' := record_event EvNow w in (clock_oracle w' (history w'), w').

(** [random.randint(lo, hi)]: some integer of [lo..hi]. *)
Definition randint (lo hi : Z) : M Z :=
  fun w => let w' := record_event (EvRandint lo hi) w in
           ((lo + (entropy_oracle w' (history w')) mod (hi - lo + 1))%Z, w').

(** [bpy.ops.df.<idname>] called with keyword arguments.  The call is one
    event of the history of the caller and the world answers with what the
    nested operator returns.  What the nested operator does in turn (the
    refresh operators list branches, commits and stashes through the CLI) is
    its own run: it is not part of the trace of the caller, which holds what
    the caller does itself. *)
Definition call_op (idname : string) (kwargs : list (string * kwarg))
  : M op_reply :=
  fun w => let w' := record_event (EvOp idname kwargs) w in
           (ops_oracle w' (history w'), w').

(** [get_repository_path() -> (repo_path, error_message)] *)
Definition get_repository_path : M (option string * option string) :=
  fun w => (match repo_oracle w (history w) with
            | RepoFound p => (Some p, None)
            | RepoUnsaved => (None, Some "Please save the Blender file first")
            | RepoMissing => (None, Some "Not a Forester repository")
            end, w).

(** The events an operator adds to the world it starts in. *)
Definition commands_of (l : list event) : list command :=
  flat_map (fun e => match e with EvExec c => [c] | _ => [] end) l.

Definition reports_of (l : list event) : list (report_level * string) :=
  flat_map (fun e => match e with EvReport lvl m => [(lvl, m)] | _ => [] end) l.

(** What a report shows for an optional message. *)
Definition shown (m : option string) : string :=
  match m with Some s => s | None => "None" end.

(* ===================================================================== *)
(** ** utils/forester_cli.py : output parsers *)
(* ===================================================================== *)

Module ForesterCLI.

(** The dictionary built by [_parse_status_output]. *)
Record status_data : Type := StatusData {
  st_branch : string;
  st_head : option string;
  st_modified : list string;
  st_deleted : list string;
  st_untracked : list string;
  st_clean : bool
}.

(** The keys [current_section] ranges over. *)
Inductive section : Type := SecModified | SecDeleted | SecUntracked.

(** [status[current_section].append(file_path)] *)
Definition status_append (sec : section) (file_path : string) (s : status_data)
  : status_data :=
  match sec with
  | SecModified =>
      StatusData (st_branch s) (st_head s) (st_modified s ++ [file_path])
                 (st_deleted s) (st_untracked s) (st_clean s)
  | SecDeleted =>
      StatusData (st_branch s) (st_head s) (st_modified s)
                 (st_deleted s ++ [file_path]) (st_untracked s) (st_clean s)
  | SecUntracked =>
      StatusData (st_branch s) (st_head s) (st_modified s)
                 (st_deleted s) (st_untracked s ++ [file_path]) (st_clean s)
  end.

Definition is_some {A} (o : option A) : bool :=
  match o with Some _ => true | None => false end.

(** One turn of the loop of [_parse_status_output]: the [elif] chain. *)
Definition status_line (acc : status_data * option section) (raw : string)
  : status_data * option section :=
  let (status, current_section) := acc in
  let line := Py.strip raw in
  if negb (Py.truthy line) then acc
  else if Py.startswith "On branch " line then
    (StatusData (Py.strip (Py.replace "On branch " "" line)) (st_head status)
                (st_modified status) (st_deleted status) (st_untracked status)
                (st_clean status), current_section)
  else if Py.startswith "HEAD: " line then
    (StatusData (st_branch status) (Some (Py.strip (Py.replace "HEAD: " "" line)))
                (st_modified status) (st_deleted status) (st_untracked status)
                (st_clean status), current_section)
  else if (line =? "Nothing to commit, working tree clean")%string then
    (StatusData (st_branch status) (st_head status)
                (st_modified status) (st_deleted status) (st_untracked status)
                true, current_section)
  else if (line =? "No commits yet")%string then
    (StatusData (st_branch status) None
                (st_modified status) (st_deleted status) (st_untracked status)
                (st_clean status), current_section)
  else if (line =? "Modified files:")%string then (status, Some SecModified)
  else if (line =? "Deleted files:")%string then (status, Some SecDeleted)
  else if (line =? "Untracked files:")%string then (status, Some SecUntracked)
  else if Py.startswith "  " line && is_some current_section then
    let file_path := Py.strip line in
    match current_section with
    | Some sec =>
        if Py.truthy file_path then (status_append sec file_path status, current_section)
        else acc
    | None => acc
    end
  else acc.

Definition initial_status : status_data :=
  StatusData "main" None [] [] [] false.

Definition _parse_status_output (output : string) : status_data :=
  fst (fold_left status_line (Py.lines output) (initial_status, None)).

(** An element of the list built by [_parse_branch_list_output]. *)
Record branch_entry : Type := BranchEntry {
  br_name : string;
  br_is_current : bool
}.

(** One turn of the loop of [_parse_branch_list_output]: what it appends. *)
Definition branch_line (raw : string) : list branch_entry :=
  let line := Py.strip raw in
  if negb (Py.truthy line) then []
  else
    let is_current := Py.startswith "* " line in
    let branch_name := Py.strip (Py.replace "  " "" (Py.replace "* " "" line)) in
    if Py.truthy branch_name then [BranchEntry branch_name is_current] else [].

Definition _parse_branch_list_output (output : string) : list branch_entry :=
  flat_map branch_line (Py.lines output).

(** The dictionary built by [_parse_show_output]. *)
Record commit_data : Type := CommitData {
  cd_hash : option string;
  cd_author : option string;
  cd_date : option string;
  cd_message : option string;
  cd_parent : option string;
  cd_tree : option string;
  cd_type : option string;
  cd_files : list string
}.

Definition show_prefixes : list string :=
  ["commit "; "Author:"; "Date:"; "Parent:"; "Tree:"; "Type:"; "Files:"].

(** One turn of the loop of [_parse_show_output]; [in_files] is
    [current_section == "files"]. *)
Definition show_line (acc : commit_data * bool) (raw : string)
  : commit_data * bool :=
  let (d, in_files) := acc in
  let line := Py.strip raw in
  let field (p : string) := Some (Py.strip (Py.replace p "" line)) in
  if negb (Py.truthy line) then acc
  else if Py.startswith "commit " line then
    (CommitData (field "commit ") (cd_author d) (cd_date d) (cd_message d)
                (cd_parent d) (cd_tree d) (cd_type d) (cd_files d), in_files)
  else if Py.startswith "Author: " line then
    (CommitData (cd_hash d) (field "Author: ") (cd_date d) (cd_message d)
                (cd_parent d) (cd_tree d) (cd_type d) (cd_files d), in_files)
  else if Py.startswith "Date:   " line then
    (CommitData (cd_hash d) (cd_author d) (field "Date:   ") (cd_message d)
                (cd_parent d) (cd_tree d) (cd_type d) (cd_files d), in_files)
  else if Py.startswith "Parent: " line then
    (CommitData (cd_hash d) (cd_author d) (cd_date d) (cd_message d)
                (field "Parent: ") (cd_tree d) (cd_type d) (cd_files d), in_files)
  else if Py.startswith "Tree: " line then
    (CommitData (cd_hash d) (cd_author d) (cd_date d) (cd_message d)
                (cd_parent d) (field "Tree: ") (cd_type d) (cd_files d), in_files)
  else if Py.startswith "Type: " line then
    (CommitData (cd_hash d) (cd_author d) (cd_date d) (cd_message d)
                (cd_parent d) (cd_tree d) (field "Type: ") (cd_files d), in_files)
  else if (line =? "Files:")%string then (d, true)
  else if in_files then
    (CommitData (cd_hash d) (cd_author d) (cd_date d) (cd_message d)
                (cd_parent d) (cd_tree d) (cd_type d) (cd_files d ++ [line]), in_files)
  else if negb (is_some (cd_message d))
          && negb (existsb (fun p => Py.startswith p line) show_prefixes) then
    (CommitData (cd_hash d) (cd_author d) (cd_date d) (Some line)
                (cd_parent d) (cd_tree d) (cd_type d) (cd_files d), in_files)
  else acc.

Definition initial_commit_data : commit_data :=
  CommitData None None None None None None None [].

Definition _parse_show_output (output : string) : commit_data :=
  fst (fold_left show_line (Py.lines output) (initial_commit_data, false)).

(** [int(s)] in base 10: whitespace around, an optional sign, then digits
    that single underscores may separate, no more of them than the limit of
    [sys.get_int_max_str_digits()]; [None] is [ValueError]. *)
Definition digit_value (c : ascii) : option Z :=
  let n := nat_of_ascii c in
  if (48 <=? n) && (n <=? 57) then Some (Z.of_nat (n - 48)) else None.

Fixpoint int_digits (acc : Z) (after_digit : bool) (s : string) : option Z :=
  match s with
  | EmptyString => if after_digit then Some acc else None
  | String c s' =>
      match digit_value c with
      | Some d => int_digits (10 * acc + d)%Z true s'
      | None =>
          if Ascii.eqb c "_" && after_digit then int_digits acc false s'
          else None
      end
  end.

(** The whitespace [int] skips around a number: that of C (TAB..CR, SPACE)
    and, off the ASCII range, NEL and NBSP; not the separators FS..US that
    [str.strip] removes. *)
Definition int_space (c : ascii) : bool :=
  let n := nat_of_ascii c in
  ((9 <=? n) && (n <=? 13)) || (n =? 32) || (n =? 133) || (n =? 160).

Fixpoint int_lstrip (s : string) : string :=
  match s with
  | EmptyString => EmptyString
  | String c s' => if int_space c then int_lstrip s' else s
  end.

Fixpoint int_rstrip (s : string) : string :=
  match s with
  | EmptyString => EmptyString
  | String c s' =>
      let r := int_rstrip s' in
      if int_space c && negb (Py.truthy r) then EmptyString else String c r
  end.

(** The digits after the sign: [ValueError] when there are more of them
    than the limit, whatever they are. *)
Definition int_body (r : string) : option Z :=
  if Py.INT_MAX_STR_DIGITS <? Py.count_digits r then None
  else int_digits 0 false r.

Definition int_of_str (s : string) : option Z :=
  match int_rstrip (int_lstrip s) with
  | String "-" r => option_map Z.opp (int_body r)
  | String "+" r => int_body r
  | r => int_body r
  end.

(** The dictionary built by [_parse_gc_output]. *)
Record gc_stats : Type := GcStats {
  commits_deleted : Z;
  trees_deleted : Z;
  blobs_deleted : Z;
  meshes_deleted : Z
}.

(** [int(line.split(":")[-1].strip())], keeping [old] on [ValueError]. *)
Definition count_after_colon (line : string) (old : Z) : Z :=
  match int_of_str (Py.strip (last (Py.split_on ":" line) EmptyString)) with
  | Some n => n
  | None => old
  end.

Definition gc_line (stats : gc_stats) (raw : string) : gc_stats :=
  let line := Py.strip raw in
  if Py.contains "Commits deleted:" line then
    GcStats (count_after_colon line (commits_deleted stats)) (trees_deleted stats)
            (blobs_deleted stats) (meshes_deleted stats)
  else if Py.contains "Trees deleted:" line then
    GcStats (commits_deleted stats) (count_after_colon line (trees_deleted stats))
            (blobs_deleted stats) (meshes_deleted stats)
  else if Py.contains "Blobs deleted:" line then
    GcStats (commits_deleted stats) (trees_deleted stats)
            (count_after_colon line (blobs_deleted stats)) (meshes_deleted stats)
  else if Py.contains "Meshes deleted:" line then
    GcStats (commits_deleted stats) (trees_deleted stats)
            (blobs_deleted stats) (count_after_colon line (meshes_deleted stats))
  else stats.

Definition _parse_gc_output (output : string) : gc_stats :=
  fold_left gc_line (Py.lines output) (GcStats 0 0 0 0).

(** The first element a loop with [break] stops on. *)
Fixpoint first_some {A B} (f : A -> option B) (l : list A) : option B :=
  match l with
  | [] => None
  | x :: r => match f x with Some y => Some y | None => first_some f r end
  end.

(** [len(part) >= 8 and all(c in '0123456789abcdef' for c in part.lower())] *)
Definition hash_like (part : string) : bool :=
  (8 <=? String.length part)
  && Py.all_chars (fun c => Py.char_in c "0123456789abcdef") (Py.lower part).

(** The body of the loop that [commit] runs over the lines of stdout: the
    [[branch hash] message] form first, then any hash-like word. *)
Definition commit_hash_of_line (raw : string) : option string :=
  let line := Py.strip raw in
  if negb (Py.truthy line) then None
  else
    let bracketed :=
      if Py.startswith "[" line && Py.contains "]" line then
        let bracket_end := Py.find_char "]" line in
        if (0 <? bracket_end)%Z then
          match Py.split_ws (Py.slice 1 (Z.to_nat bracket_end) line) with
          | _ :: potential_hash :: _ =>
              if hash_like potential_hash then Some potential_hash else None
          | _ => None
          end
        else None
      else None in
    match bracketed with
    | Some h => Some h
    | None => first_some (fun part => if hash_like part then Some part else None)
                         (Py.split_ws line)
    end.

(** The loop of [stash] over the lines of a successful [stash save]. *)
Definition saved_stash_of_line (line : string) : option string :=
  if Py.contains "Saved stash" line then
    match Py.split_ws line with
    | _ :: _ :: h :: _ => Some h
    | _ => None
    end
  else None.

(** The loop of [stash] over the lines of [stash list]: [stash{hash}: message]. *)
Definition stash_list_line (raw : string) : list (string * string) :=
  let line := Py.strip raw in
  if Py.startswith "stash{" line then
    let hash_end := Py.find_char "}" line in
    if (0 <? hash_end)%Z then
      let e := Z.to_nat hash_end in
      [(Py.slice 6 e line,
        if e + 2 <? String.length line then Py.strip (Py.drop (e + 2) line)
        else EmptyString)]
    else []
  else [].

(* --------------------------------------------------------------------- *)
(** *** The methods of [ForesterCLI]

    A falsy [repo_path] argument ([None] or the empty string) is [None];
    every other one is the path it denotes. *)

(** [stderr.strip() or stdout.strip() or "Unknown error"] *)
Definition error_text (stdout stderr : string) : string :=
  Py.or_else (Py.strip stderr) (Py.or_else (Py.strip stdout) "Unknown error").

(** [status(repo_path) -> (success, status_data, error_message)] *)
Definition status (repo_path : string)
  : M (bool * option status_data * option string) :=
  r <- _execute_command ["status"] repo_path 30 ;;
  match r with
  | CliRaised e => ret (false, None, Some e)
  | CliExited exit_code stdout stderr =>
      if negb (exit_code =? 0)%Z then
        ret (false, None, Some (Py.or_else (Py.strip stderr) "Unknown error"))
      else ret (true, Some (_parse_status_output stdout), None)
  end.

(** [branch(repo_path, action, branch_name) -> (success, result, error_message)] *)
Definition branch (repo_path : option string) (action : string)
  (branch_name : option string)
  : M (bool * option (list branch_entry) * option string) :=
  match repo_path with
  | None => ret (false, None, Some "Repository path is required")
  | Some repo_path =>
      if negb (existsb (String.eqb action) ["list"; "create"; "delete"]) then
        ret (false, None,
             Some ("Invalid action: " ++ action
                   ++ ". Must be 'list', 'create', or 'delete'")%string)
      else if (action =? "list")%string then
        r <- _execute_command ["branch"] repo_path 30 ;;
        match r with
        | CliRaised e => ret (false, None, Some e)
        | CliExited exit_code stdout stderr =>
            if negb (exit_code =? 0)%Z then
              ret (false, None, Some (Py.or_else (Py.strip stderr) "Unknown error"))
            else ret (true, Some (_parse_branch_list_output stdout), None)
        end
      else
        (* "create" and "delete" differ by the [-d] of the argv only *)
        let flag := if (action =? "create")%string then [] else ["-d"] in
        match branch_name with
        | None => ret (false, None, Some "Branch name required")
        | Some branch_name =>
            if negb (Py.truthy branch_name) || negb (Py.truthy (Py.strip branch_name))
            then ret (false, None, Some "Branch name required")
            else
              r <- _execute_command (["branch"] ++ flag ++ [Py.strip branch_name])
                                    repo_path 30 ;;
              match r with
              | CliRaised e => ret (false, None, Some e)
              | CliExited exit_code stdout stderr =>
                  if (exit_code =? 0)%Z then ret (true, None, None)
                  else ret (false, None, Some (error_text stdout stderr))
              end
        end
  end.

(** [checkout(repo_path, branch_or_commit) -> (success, error_message)] *)
Definition checkout (repo_path : option string) (branch_or_commit : string)
  : M (bool * option string) :=
  match repo_path with
  | None => ret (false, Some "Repository path is required")
  | Some repo_path =>
      if negb (Py.truthy branch_or_commit)
         || negb (Py.truthy (Py.strip branch_or_commit))
      then ret (false, Some "Branch or commit name is required")
      else
        r <- _execute_command ["checkout"; Py.strip branch_or_commit] repo_path 30 ;;
        match r with
        | CliRaised e => ret (false, Some e)
        | CliExited exit_code stdout stderr =>
            if (exit_code =? 0)%Z then ret (true, None)
            else ret (false, Some (error_text stdout stderr))
        end
  end.

(** What [stash] returns in second place. *)
Inductive stash_data : Type :=
| StashHash (h : option string)
| StashList (l : list (string * string))
| StashNothing.

(** [stash(repo_path, action, message) -> (success, result_data, error_message)] *)
Definition stash (repo_path : string) (action : string) (message : option string)
  : M (bool * stash_data * option string) :=
  let with_message (cmd : list string) :=
    match message with
    | Some m => if Py.truthy m then cmd ++ [m] else cmd
    | None => cmd
    end in
  let cmd :=
    if (action =? "save")%string then Some (with_message ["stash"; "save"])
    else if (action =? "list")%string then Some ["stash"; "list"]
    else if existsb (String.eqb action) ["pop"; "apply"; "drop"]
    then Some (with_message ["stash"; action])
    else None in
  match cmd with
  | None => ret (false, StashNothing, Some ("Unknown stash action: " ++ action)%string)
  | Some cmd =>
      r <- _execute_command cmd repo_path 30 ;;
      match r with
      | CliRaised e => ret (false, StashNothing, Some e)
      | CliExited exit_code stdout stderr =>
          if (exit_code =? 0)%Z then
            if (action =? "save")%string then
              ret (true, StashHash (first_some saved_stash_of_line (Py.lines stdout)), None)
            else if (action =? "list")%string then
              ret (true, StashList (flat_map stash_list_line (Py.lines stdout)), None)
            else ret (true, StashNothing, None)
          else ret (false, StashNothing, Some (error_text stdout stderr))
      end
  end.

(** [commit(repo_path, message, author, tag, no_verify)
     -> (success, commit_hash, error_message)] *)
Definition commit (repo_path : option string) (message : string)
  (author tag : option string) (no_verify : bool)
  : M (bool * option string * option string) :=
  match repo_path with
  | None => ret (false, None, Some "Repository path is required")
  | Some repo_path =>
      if negb (Py.truthy message) || negb (Py.truthy (Py.strip message)) then
        ret (false, None, Some "Commit message cannot be empty")
      else
        let opt (flag : string) (v : option string) :=
          match v with
          | Some s => if Py.truthy s then [flag; s] else []
          | None => []
          end in
        let command :=
          ["commit"; "-m"; Py.strip message]
          ++ opt "--author" author ++ opt "--tag" tag
          ++ (if no_verify then ["--no-verify"] else []) in
        r <- _execute_command command repo_path 60 ;;
        match r with
        | CliRaised e => ret (false, None, Some e)
        | CliExited exit_code stdout stderr =>
            if (exit_code =? 0)%Z then
              ret (true, first_some commit_hash_of_line (Py.lines stdout), None)
            else ret (false, None, Some (error_text stdout stderr))
        end
  end.

(** [show(repo_path, commit_hash) -> (success, commit_data, error_message)] *)
Definition show (repo_path : option string) (commit_hash : string)
  : M (bool * option commit_data * option string) :=
  match repo_path with
  | None => ret (false, None, Some "Repository path is required")
  | Some repo_path =>
      if negb (Py.truthy commit_hash) || negb (Py.truthy (Py.strip commit_hash))
      then ret (false, None, Some "Commit hash is required")
      else
        r <- _execute_command ["show"; Py.strip commit_hash] repo_path 30 ;;
        match r with
        | CliRaised e => ret (false, None, Some e)
        | CliExited exit_code stdout stderr =>
            if negb (exit_code =? 0)%Z then
              ret (false, None, Some (Py.or_else (Py.strip stderr) "Unknown error"))
            else ret (true, Some (_parse_show_output stdout), None)
        end
  end.

(** The argv that [gc] builds; [None] when [str(reflog_expire_days)] raises
    [ValueError]. *)
Definition gc_command (dry_run : bool) (reflog_expire_days : Z)
  : option (list string) :=
  let command := ["gc"] ++ (if dry_run then ["--dry-run"] else []) in
  if negb (reflog_expire_days =? 90)%Z then
    match Py.str_of_int reflog_expire_days with
    | Some days => Some (command ++ ["--reflog-expire"; days])
    | None => None
    end
  else Some command.

(** [gc(repo_path, dry_run=False, reflog_expire_days=90)
     -> (success, stats, error_message)].  The [ValueError] of [str] is no
    [ForesterCLIError]: it leaves [gc], which then returns nothing ([None])
    and has run nothing. *)
Definition gc (repo_path : string) (dry_run : bool) (reflog_expire_days : Z)
  : M (option (bool * option gc_stats * option string)) :=
  match gc_command dry_run reflog_expire_days with
  | None => ret None
  | Some command =>
      r <- _execute_command command repo_path 300 ;;
      match r with
      | CliRaised e => ret (Some (false, None, Some e))
      | CliExited exit_code stdout stderr =>
          if negb (exit_code =? 0)%Z then
            ret (Some (false, None,
                       Some (Py.or_else (Py.strip stderr) "Unknown error")))
          else ret (Some (true, Some (_parse_gc_output stdout), None))
      end
  end.

(** [delete_commit(repo_path, commit_hash) -> (success, error_message)] *)
Definition delete_commit (repo_path : string) (commit_hash : string)
  : M (bool * option string) :=
  r <- _execute_command ["commit"; "--delete"; commit_hash] repo_path 30 ;;
  match r with
  | CliRaised e => ret (false, Some e)
  | CliExited exit_code stdout stderr =>
      if (exit_code =? 0)%Z then ret (true, None)
      else ret (false, Some (error_text stdout stderr))
  end.

(** [delete_tag(repo_path, tag_name) -> (success, error_message)] *)
Definition delete_tag (repo_path : string) (tag_name : string)
  : M (bool * option string) :=
  r <- _execute_command ["tag"; "--delete"; tag_name] repo_path 30 ;;
  match r with
  | CliRaised e => ret (false, Some e)
  | CliExited exit_code stdout stderr =>
      if (exit_code =? 0)%Z then ret (true, None)
      else ret (false, Some (error_text stdout stderr))
  end.

(* --------------------------------------------------------------------- *)
(** *** [log] and [list_tags] *)

(** An element of the list built by [_parse_log_output]. *)
Record log_entry : Type := LogEntry {
  lg_hash : string;
  lg_author : option string;
  lg_date : option string;
  lg_message : option string;
  lg_tag : option string;
  lg_is_head : bool
}.

(** The prefixes a message line must not begin with. *)
Definition log_prefixes : list string :=
  ["commit "; "Author:"; "Date:"; "Tag:"; "HEAD:"].

(** One turn of the loop of [_parse_log_output]: the commits closed so far
    and [current_commit]. *)
Definition log_line (acc : list log_entry * option log_entry) (raw : string)
  : list log_entry * option log_entry :=
  let (commits, current_commit) := acc in
  let line := Py.strip raw in
  let field (p : string) := Some (Py.strip (Py.replace p "" line)) in
  if Py.startswith "commit " line then
    (commits ++ match current_commit with Some c => [c] | None => [] end,
     Some (LogEntry (Py.strip (Py.replace "commit " "" line))
                    None None None None false))
  else
    match current_commit with
    | None => acc
    | Some c =>
        if Py.startswith "HEAD:" line then
          if Py.contains "true" (Py.lower line) then
            (commits, Some (LogEntry (lg_hash c) (lg_author c) (lg_date c)
                                     (lg_message c) (lg_tag c) true))
          else acc
        else if Py.startswith "Author: " line then
          (commits, Some (LogEntry (lg_hash c) (field "Author: ") (lg_date c)
                                   (lg_message c) (lg_tag c) (lg_is_head c)))
        else if Py.startswith "Date:   " line then
          (commits, Some (LogEntry (lg_hash c) (lg_author c) (field "Date:   ")
                                   (lg_message c) (lg_tag c) (lg_is_head c)))
        else if Py.startswith "Tag:    " line then
          (commits, Some (LogEntry (lg_hash c) (lg_author c) (lg_date c)
                                   (lg_message c) (field "Tag:    ") (lg_is_head c)))
        else if negb (is_some (lg_message c)) then
          if Py.truthy line
             && negb (existsb (fun p => Py.startswith p line) log_prefixes) then
            (commits, Some (LogEntry (lg_hash c) (lg_author c) (lg_date c)
                                     (Some (Py.strip line)) (lg_tag c) (lg_is_head c)))
          else acc
        else acc
    end.

Definition _parse_log_output (output : string) : list log_entry :=
  let (commits, current_commit) :=
    fold_left log_line (Py.lines output) ([], None) in
  commits ++ match current_commit with Some c => [c] | None => [] end.

(** [log(repo_path, branch=None, limit=100) -> (success, commits, error_message)] *)
Definition log (repo_path : string) (branch : option string) (limit : Z)
  : M (bool * option (list log_entry) * option string) :=
  let command :=
    ["log"] ++ match branch with
               | Some b => if Py.truthy b then [b] else []
               | None => []
               end in
  r <- _execute_command command repo_path 30 ;;
  match r with
  | CliRaised e => ret (false, None, Some e)
  | CliExited exit_code stdout stderr =>
      if negb (exit_code =? 0)%Z then
        ret (false, None, Some (Py.or_else (Py.strip stderr) "Unknown error"))
      else if Py.contains "No commits yet" stdout then ret (true, Some [], None)
      else ret (true, Some (Py.slice_to limit (_parse_log_output stdout)), None)
  end.

(** The loop of [list_tags] over [stdout.strip().split('\n')]. *)
Definition tags_of_output (stdout : string) : list string :=
  flat_map (fun raw => let line := Py.strip raw in
                       if Py.truthy line then [line] else [])
           (Py.lines (Py.strip stdout)).

(** [list_tags(repo_path) -> (success, tags_list, error_message)] *)
Definition list_tags (repo_path : string)
  : M (bool * option (list string) * option string) :=
  r <- _execute_command ["tag"] repo_path 30 ;;
  match r with
  | CliRaised e => ret (false, None, Some e)
  | CliExited exit_code stdout stderr =>
      if (exit_code =? 0)%Z then ret (true, Some (tags_of_output stdout), None)
      else ret (false, None, Some (error_text stdout stderr))
  end.

End ForesterCLI.

(* ===================================================================== *)
(** ** operators/*.py *)
(* ===================================================================== *)

(** How [execute] ends: with a result set, or with an exception nothing in
    the operator catches. *)
Inductive outcome : Type :=
| Returned (r : op_result)
| Uncaught (msg : string).

(** [bpy.ops.df.<idname>()] as a statement: a [RuntimeError] propagates. *)
Definition call_op_then (idname : string) (kwargs : list (string * kwarg))
  (k : M outcome) : M outcome :=
  r <- call_op idname kwargs ;;
  match r with
  | OpRuntimeError msg => ret (Uncaught msg)
  | OpReturned _ => k
  end.

(** [self.report({'ERROR'}, error_msg); return {'CANCELLED'}] *)
Definition cancel_with (lvl : report_level) (msg : string) : M outcome :=
  report lvl msg ;;; ret (Returned CANCELLED).

Module branch_operators.

Import ForesterCLI.

(** The test both [invoke] and [execute] of the switch operator make on the
    status dictionary. *)
Definition has_changes (s : status_data) : bool :=
  negb (st_clean s)
  || (0 <? length (st_modified s))
  || (0 <? length (st_deleted s))
  || (0 <? length (st_untracked s)).

(** The properties of [DF_OT_switch_branch]. *)
Record DF_OT_switch_branch : Type := SwitchBranch {
  sw_branch_name : string;
  skip_change_check : bool
}.

(** The part of [DF_OT_switch_branch.execute] after the change check. *)
Definition switch_checkout (self : DF_OT_switch_branch) (repo_path : string)
  : M outcome :=
  '(success, error_msg) <- checkout (Some repo_path) (sw_branch_name self) ;;
  if success then
    report INFO ("Switched to branch '" ++ sw_branch_name self ++ "'")%string ;;;
    call_op_then "refresh_branches" [] (ret (Returned FINISHED))
  else
    cancel_with ERROR ("Failed to switch branch: " ++ shown error_msg)%string.

(** [DF_OT_switch_branch.execute] *)
Definition switch_branch_execute (self : DF_OT_switch_branch) : M outcome :=
  if negb (Py.truthy (sw_branch_name self)) then
    cancel_with ERROR "Branch name required"
  else
    '(repo_path, error_msg) <- get_repository_path ;;
    match repo_path with
    | None => cancel_with ERROR (shown error_msg)
    | Some repo_path =>
        if negb (skip_change_check self) then
          '(success, status_data, _) <- status repo_path ;;
          match status_data with
          | Some sd =>
              if success && has_changes sd then
                cancel_with INFO
                  "Please use Stash button to save changes before switching branch"
              else switch_checkout self repo_path
          | None => switch_checkout self repo_path
          end
        else switch_checkout self repo_path
    end.

(** The properties of [DF_OT_delete_branch]. *)
Record DF_OT_delete_branch : Type := DeleteBranch {
  del_branch_name : string
}.

(** The loop of [DF_OT_delete_branch.execute] over the listed branches. *)
Definition listed_as_current (name : string) (branches : list branch_entry) : bool :=
  existsb (fun b => (br_name b =? name)%string && br_is_current b) branches.

(** [DF_OT_delete_branch.execute] *)
Definition delete_branch_execute (self : DF_OT_delete_branch) : M outcome :=
  if negb (Py.truthy (del_branch_name self)) then
    cancel_with ERROR "Branch name required"
  else
    '(repo_path, error_msg) <- get_repository_path ;;
    match repo_path with
    | None => cancel_with ERROR (shown error_msg)
    | Some repo_path =>
        '(success, branches, _) <- branch (Some repo_path) "list" None ;;
        if success
           && listed_as_current (del_branch_name self)
                (match branches with Some l => l | None => [] end)
        then
          cancel_with ERROR
            ("Cannot delete current branch '" ++ del_branch_name self
             ++ "'. Switch to another branch first.")%string
        else
          '(success, _, error_msg) <-
             branch (Some repo_path) "delete" (Some (del_branch_name self)) ;;
          if success then
            report INFO ("Deleted branch '" ++ del_branch_name self ++ "'")%string ;;;
            call_op_then "refresh_branches" [] (ret (Returned FINISHED))
          else
            cancel_with ERROR ("Failed to delete branch: " ++ shown error_msg)%string
    end.

(** The properties of [DF_OT_create_branch]. *)
Record DF_OT_create_branch : Type := CreateBranch {
  cr_branch_name : string
}.

(** [DF_OT_create_branch.execute] *)
Definition create_branch_execute (self : DF_OT_create_branch) : M outcome :=
  if negb (Py.truthy (cr_branch_name self))
     || negb (Py.truthy (Py.strip (cr_branch_name self))) then
    cancel_with ERROR "Branch name cannot be empty"
  else
    '(repo_path, error_msg) <- get_repository_path ;;
    match repo_path with
    | None => cancel_with ERROR (shown error_msg)
    | Some repo_path =>
        '(success, _, error_msg) <-
           branch (Some repo_path) "create" (Some (Py.strip (cr_branch_name self))) ;;
        if success then
          report INFO ("Created branch '" ++ cr_branch_name self ++ "'")%string ;;;
          call_op_then "refresh_branches" [] (ret (Returned FINISHED))
        else
          cancel_with ERROR ("Failed to create branch: " ++ shown error_msg)%string
    end.

End branch_operators.

Module gc_operators.

Import ForesterCLI.

(** The properties of [DF_OT_garbage_collect]. *)
Record DF_OT_garbage_collect : Type := GarbageCollect {
  dry_run : bool
}.

(** The message of the report: the three counts go through [str], whose
    [ValueError] nothing catches. *)
Definition deleted_message (st : gc_stats) : option string :=
  match Py.str_of_int (commits_deleted st), Py.str_of_int (trees_deleted st),
        Py.str_of_int (blobs_deleted st) with
  | Some commits, Some trees, Some blobs =>
      Some ("Deleted: " ++ commits ++ " commits, " ++ trees ++ " trees, "
            ++ blobs ++ " blobs")%string
  | _, _, _ => None
  end.

(** [DF_OT_garbage_collect.execute]: [self.dry_run] is not read. *)
Definition garbage_collect_execute (self : DF_OT_garbage_collect) : M outcome :=
  '(repo_path, error_msg) <- get_repository_path ;;
  match repo_path with
  | None => cancel_with ERROR (shown error_msg)
  | Some repo_path =>
      r <- gc repo_path false 90 ;;
      match r with
      | None => ret (Uncaught "ValueError")
      | Some (success, stats, error_msg) =>
          if negb success then
            cancel_with ERROR
              ("Garbage collection failed: " ++ shown error_msg)%string
          else
            emit EvGcLastRun ;;;
            match stats with
            | Some st =>
                match deleted_message st with
                | Some msg => report INFO msg ;;; ret (Returned FINISHED)
                | None => ret (Uncaught "ValueError")
                end
            | None =>
                report INFO "Garbage collection completed" ;;;
                ret (Returned FINISHED)
            end
      end
  end.

End gc_operators.

Module history_operators.

Import ForesterCLI.

Definition quote : ascii := "'"%char.

(** The longest prefix without a quote, and what follows it: the run that
    [[^']+] takes. *)
Fixpoint span_not_quote (s : string) : string * string :=
  match s with
  | EmptyString => (EmptyString, EmptyString)
  | String c s' =>
      if Ascii.eqb c quote then (EmptyString, s)
      else let (run, rest) := span_not_quote s' in (String c run, rest)
  end.

(** The pattern [tag '([^']+)'] matched at the start of [s]: group 1. *)
Definition match_tag_here (s : string) : option string :=
  if String.prefix "tag '" s then
    let (name, rest) := span_not_quote (Py.drop 5 s) in
    if Py.truthy name && String.prefix "'" rest then Some name else None
  else None.

(** [re.search(r"tag '([^']+)'", s)]: group 1 of the leftmost match. *)
Fixpoint search_tag (s : string) : option string :=
  match match_tag_here s with
  | Some name => Some name
  | None =>
      match s with
      | EmptyString => None
      | String _ s' => search_tag s'
      end
  end.

(** [not parent_hash or parent_hash.strip() == ""] on [commit_data.get("parent")] *)
Definition is_only_commit (d : commit_data) : bool :=
  match cd_parent d with
  | None => true
  | Some p => negb (Py.truthy p) || (Py.strip p =? "")%string
  end.

(** The properties of [DF_OT_delete_commit]. *)
Record DF_OT_delete_commit : Type := DeleteCommit {
  dc_commit_hash : string
}.

(** The branch of [DF_OT_delete_commit.execute] taken when the error names a
    tag: the tag is deleted, then the deletion of the commit is tried again. *)
Definition delete_tag_and_retry (repo_path commit_hash error_msg : string)
  : M outcome :=
  match search_tag error_msg with
  | Some tag_name =>
      '(tag_success, tag_error) <- delete_tag repo_path tag_name ;;
      if tag_success then
        '(success, error_msg) <- delete_commit repo_path commit_hash ;;
        if success then
          call_op_then "refresh_history" []
            (report INFO ("Deleted tag '" ++ tag_name ++ "' and commit "
                          ++ commit_hash)%string ;;;
             ret (Returned FINISHED))
        else
          cancel_with WARNING
            ("Deleted tag '" ++ tag_name ++ "' but failed to delete commit: "
             ++ shown error_msg)%string
      else
        cancel_with ERROR
          ("Cannot delete commit " ++ commit_hash ++ " - it is referenced by tag '"
           ++ tag_name ++ "'. Failed to delete tag: " ++ shown tag_error)%string
  | None =>
      cancel_with ERROR
        ("Cannot delete commit " ++ commit_hash
         ++ " - it is referenced by a tag. Delete the tag first.")%string
  end.

(** The other failures of the deletion: a friendlier message, then cancel. *)
Definition explain_failure (commit_hash error_msg : string)
  (show_success : bool) (commit_data : option commit_data) : M outcome :=
  (if Py.contains "HEAD of branch" error_msg
      || Py.contains "HEAD of branches" error_msg then
     match commit_data with
     | Some d =>
         if show_success then
           if is_only_commit d then
             report ERROR
               ("Cannot delete commit " ++ commit_hash ++ " - unexpected error. "
                ++ "Please try again or use 'forester commit --delete "
                ++ commit_hash ++ "' from command line.")%string
           else
             report ERROR
               ("Cannot delete commit " ++ commit_hash
                ++ " - it is HEAD of a branch. "
                ++ "Please checkout another commit first.")%string
         else ret tt
     | None => ret tt
     end
   else if Py.contains "has child commit" error_msg
           || Py.contains "child commit" error_msg then
     report ERROR
       ("Cannot delete commit " ++ commit_hash ++ " - it has child commits. "
        ++ "Delete child commits first, or use 'forester gc' to clean up "
        ++ "orphaned commits.")%string
   else report ERROR ("Failed to delete commit: " ++ error_msg)%string) ;;;
  ret (Returned CANCELLED).

(** [DF_OT_delete_commit.execute] *)
Definition delete_commit_execute (self : DF_OT_delete_commit) : M outcome :=
  if negb (Py.truthy (dc_commit_hash self)) then
    cancel_with ERROR "Commit hash required"
  else
    match normalize_commit_hash (Some (dc_commit_hash self)) with
    | None =>
        cancel_with ERROR
          ("Invalid commit hash: " ++ Py.take 16 (dc_commit_hash self) ++ "...")%string
    | Some commit_hash =>
        '(repo_path, error_msg) <- get_repository_path ;;
        match repo_path with
        | None => cancel_with ERROR (shown error_msg)
        | Some repo_path =>
            '(show_success, commit_data, _) <- show (Some repo_path) commit_hash ;;
            '(success, error_msg) <- delete_commit repo_path commit_hash ;;
            if negb success then
              match error_msg with
              | Some error_msg =>
                  if Py.contains "referenced by tag" error_msg then
                    delete_tag_and_retry repo_path commit_hash error_msg
                  else explain_failure commit_hash error_msg show_success commit_data
              | None =>
                  (* no failure of [delete_commit] comes without a message *)
                  ret (Uncaught "TypeError: argument of type 'NoneType' is not iterable")
              end
            else
              call_op_then "refresh_history" []
                (report INFO
                   (match commit_data with
                    | Some d =>
                        if show_success && is_only_commit d then
                          "Deleted commit " ++ Py.take 16 (dc_commit_hash self)
                          ++ "... (was the only commit, branch is now orphan)"
                        else "Deleted commit " ++ Py.take 16 (dc_commit_hash self) ++ "..."
                    | None => "Deleted commit " ++ Py.take 16 (dc_commit_hash self) ++ "..."
                    end)%string ;;;
                 ret (Returned FINISHED))
        end
    end.

End history_operators.

Module stash_operators.

Import ForesterCLI.

(** The properties of [DF_OT_stash_and_checkout]. *)
Record DF_OT_stash_and_checkout : Type := StashAndCheckout {
  target_type : string;
  target_value : string
}.

(** The two messages the operator stashes under. *)
Definition first_message (timestamp : string) : string :=
  ("Auto-stash before checkout (" ++ timestamp ++ ")")%string.

(** The second one is formatted with the number of [randint(1000, 9999)]:
    four digits, which [str] gives as they are, far below its limit. *)
Definition retry_message (timestamp : string) (random_suffix : Z) : string :=
  ("Auto-stash before checkout (" ++ timestamp ++ "-"
   ++ Py.decimal random_suffix ++ ")")%string.

(** ["UNIQUE constraint" in error_msg or "stashes.hash" in error_msg] *)
Definition is_hash_collision (error_msg : string) : bool :=
  Py.contains "UNIQUE constraint" error_msg || Py.contains "stashes.hash" error_msg.

(** The first part of [DF_OT_stash_and_checkout.execute]: the stash is saved,
    and saved again under another message after a collision of hashes. *)
Definition save_stash (repo_path : string)
  : M (bool * stash_data * option string) :=
  timestamp <- now_strftime ;;
  '(success, stash_hash, error_msg) <-
     stash repo_path "save" (Some (first_message timestamp)) ;;
  if negb success then
    match error_msg with
    | Some msg =>
        if is_hash_collision msg then
          timestamp <- now_strftime ;;
          random_suffix <- randint 1000 9999 ;;
          stash repo_path "save" (Some (retry_message timestamp random_suffix))
        else ret (success, stash_hash, error_msg)
    | None => ret (success, stash_hash, error_msg)
    end
  else ret (success, stash_hash, error_msg).

(** The second part: the checkout the stash was made for. *)
Definition checkout_target (self : DF_OT_stash_and_checkout) : M outcome :=
  if (target_type self =? "commit")%string then
    match normalize_commit_hash (Some (target_value self)) with
    | None =>
        cancel_with ERROR
          ("Invalid commit hash: "
           ++ (if Py.truthy (target_value self) then Py.take 16 (target_value self)
               else "empty") ++ "...")%string
    | Some commit_hash =>
        r <- call_op "checkout_commit"
               [("commit_hash", KStr commit_hash); ("skip_change_check", KBool true)] ;;
        match r with
        | OpRuntimeError error_msg =>
            if Py.contains "Commit not found" error_msg
               || Py.contains "commit not found" (Py.lower error_msg) then
              cancel_with ERROR
                ("Commit not found: " ++ commit_hash ++ String Py.newline
                 "Please check the commit hash in the history panel.")%string
            else
              cancel_with ERROR ("Failed to checkout commit: " ++ error_msg)%string
        | OpReturned CANCELLED =>
            cancel_with ERROR
              ("Failed to checkout commit after stashing." ++ String Py.newline
               "Please check the commit hash in the history panel.")%string
        | OpReturned FINISHED => ret (Returned FINISHED)
        end
    end
  else if (target_type self =? "branch")%string then
    call_op_then "switch_branch"
      [("branch_name", KStr (target_value self)); ("skip_change_check", KBool true)]
      (ret (Returned FINISHED))
  else ret (Returned FINISHED).

(** [DF_OT_stash_and_checkout.execute] *)
Definition stash_and_checkout_execute (self : DF_OT_stash_and_checkout)
  : M outcome :=
  '(repo_path, error_msg) <- get_repository_path ;;
  match repo_path with
  | None => cancel_with ERROR (shown error_msg)
  | Some repo_path =>
      '(success, stash_hash, error_msg) <- save_stash repo_path ;;
      if negb success then
        cancel_with ERROR ("Failed to stash changes: " ++ shown error_msg)%string
      else
        report INFO
          ("Stashed changes: "
           ++ match stash_hash with
              | StashHash (Some h) =>
                  if Py.truthy h then Py.take 16 h ++ "..." else "unknown"
              | _ => "unknown"
              end)%string ;;;
        checkout_target self
  end.

(** What the reports show for a stash hash:
    [stash_hash[:16] + '...' if stash_hash else 'unknown']. *)
Definition shown_stash (d : stash_data) : string :=
  match d with
  | StashHash (Some h) => if Py.truthy h then (Py.take 16 h ++ "...")%string else "unknown"
  | _ => "unknown"
  end.

(** The properties of [DF_OT_save_stash]. *)
Record DF_OT_save_stash : Type := SaveStash {
  ss_message : string
}.

(** [DF_OT_save_stash.execute] *)
Definition save_stash_execute (self : DF_OT_save_stash) : M outcome :=
  '(repo_path, error_msg) <- get_repository_path ;;
  match repo_path with
  | None => cancel_with ERROR (shown error_msg)
  | Some repo_path =>
      '(success, stash_hash, error_msg) <-
         stash repo_path "save"
           (Some (if Py.truthy (Py.strip (ss_message self))
                  then Py.strip (ss_message self) else "Stash")) ;;
      if success then
        report INFO ("Saved stash: " ++ shown_stash stash_hash)%string ;;;
        call_op_then "refresh_stashes" [] (ret (Returned FINISHED))
      else
        cancel_with ERROR ("Failed to save stash: " ++ shown error_msg)%string
  end.

(** The properties of [DF_OT_stash_drop]. *)
Record DF_OT_stash_drop : Type := StashDrop {
  sd_stash_hash : string
}.

(** [DF_OT_stash_drop.execute] *)
Definition stash_drop_execute (self : DF_OT_stash_drop) : M outcome :=
  '(repo_path, error_msg) <- get_repository_path ;;
  match repo_path with
  | None => cancel_with ERROR (shown error_msg)
  | Some repo_path =>
      if negb (Py.truthy (sd_stash_hash self)) then
        cancel_with ERROR "Stash hash required"
      else
        '(success, _, error_msg) <-
           stash repo_path "drop" (Some (sd_stash_hash self)) ;;
        if success then
          report INFO ("Dropped stash: " ++ Py.take 16 (sd_stash_hash self)
                       ++ "...")%string ;;;
          call_op_then "refresh_stashes" [] (ret (Returned FINISHED))
        else
          cancel_with ERROR ("Failed to drop stash: " ++ shown error_msg)%string
  end.

End stash_operators.

(* ===================================================================== *)
(** ** Concrete worlds *)
(* ===================================================================== *)

(** A world whose CLI gives the listed replies in turn, whose repository
    lookup is fixed, whose clock and entropy are constant and whose nested
    operators finish. *)
Definition scripted (replies : list cli_reply) (repo : repo_lookup) : World :=
  MkWorld
    (fun h => nth (length (commands_of h) - 1) replies (CliRaised "no reply"))
    (fun _ => "2024-05-17 10:30:00.123456")
    (fun _ => 4242%Z)
    (fun _ => OpReturned FINISHED)
    (fun _ => repo)
    [].

(** The events a computation adds to the history of the world it starts in. *)
Definition trace {A} (m : M A) (w : World) : list event :=
  skipn (length (history w)) (history (snd (m w))).

(** A line break between two pieces of text. *)
Definition nl : string := String Py.newline EmptyString.

(* ===================================================================== *)
(** ** Notions the properties are stated with *)
(* ===================================================================== *)

(** The characters of [s] that are not whitespace, in order. *)
Fixpoint non_whitespace (s : string) : string :=
  match s with
  | EmptyString => EmptyString
  | String c s' =>
      if Py.isspace c then non_whitespace s' else String c (non_whitespace s')
  end.

(** The last character of [s] exists and is not whitespace. *)
Fixpoint ends_visible (s : string) : bool :=
  match s with
  | EmptyString => false
  | String c EmptyString => negb (Py.isspace c)
  | String _ s' => ends_visible s'
  end.

(** A lowercase hexadecimal digit. *)
Definition is_lower_hex (c : ascii) : bool := Py.char_in c "0123456789abcdef".

(** A branch line that carries the mark of the current branch. *)
Definition starred (raw : string) : bool := Py.startswith "* " (Py.strip raw).

(** The name [_parse_branch_list_output] reads on a line. *)
Definition branch_name_of (raw : string) : string :=
  Py.strip (Py.replace "  " "" (Py.replace "* " "" (Py.strip raw))).

(** The entries of a branch list that are marked current. *)
Definition current_entries (l : list ForesterCLI.branch_entry)
  : list ForesterCLI.branch_entry :=
  filter ForesterCLI.br_is_current l.

(** The world once the CLI has been asked to run [c]. *)
Definition after (c : command) (w : World) : World := record_event (EvExec c) w.

(** A status that reports uncommitted changes: not clean, or an entry in
    one of the three lists. *)
Definition reports_uncommitted_changes (s : ForesterCLI.status_data) : Prop :=
  ForesterCLI.st_clean s = false
  \/ ForesterCLI.st_modified s <> []
  \/ ForesterCLI.st_deleted s <> []
  \/ ForesterCLI.st_untracked s <> [].

(** A branch list that marks [name] as the current branch. *)
Definition marks_current (name : string) (l : list ForesterCLI.branch_entry) : Prop :=
  exists b, In b l /\ ForesterCLI.br_name b = name /\ ForesterCLI.br_is_current b = true.

(** The command runs the [checkout] of the CLI. *)
Definition is_checkout (c : command) : Prop := In "checkout" (argv c).

(** No quote character in [s]. *)
Definition no_quote (s : string) : bool :=
  Py.all_chars (fun c => negb (Ascii.eqb c history_operators.quote)) s.


(** A decimal digit. *)
Definition is_digit (c : ascii) : bool := Py.char_in c "0123456789".

(** The three file lists of a status dictionary. *)
Definition file_lists (s : ForesterCLI.status_data)
  : list string * list string * list string :=
  (ForesterCLI.st_modified s, ForesterCLI.st_deleted s, ForesterCLI.st_untracked s).

(** A message that is empty or made of whitespace only. *)
Definition blank (s : string) : bool := Py.all_chars Py.isspace s.

(** No whitespace in [s]. *)
Definition visible (s : string) : bool :=
  Py.all_chars (fun c => negb (Py.isspace c)) s.

(** A word: not empty, no whitespace. *)
Definition plain (s : string) : bool := Py.truthy s && visible s.

(** The line the CLI prints when there is nothing to commit. *)
Definition clean_text : string := "Nothing to commit, working tree clean".

(** A line of the status output that, once stripped, is that line. *)
Definition is_clean_line (raw : string) : bool :=
  (Py.strip raw =? clean_text)%string.

(** A branch listing as the [branch] command prints it: one line per
    branch, [* ] in front of the current one and two spaces in front of the
    others. *)
Definition render_branch (b : ForesterCLI.branch_entry) : string :=
  ((if ForesterCLI.br_is_current b then "* " else "  ")
   ++ ForesterCLI.br_name b ++ nl)%string.

Definition render_branches (l : list ForesterCLI.branch_entry) : string :=
  fold_right (fun b rest => (render_branch b ++ rest)%string) EmptyString l.

(** The nested operators called among the events [l]. *)
Definition ops_of (l : list event) : list string :=
  flat_map (fun e => match e with EvOp idname _ => [idname] | _ => [] end) l.

(** A character of the decimal text of an integer. *)
Definition int_char (c : ascii) : bool := Py.char_in c "-0123456789".

(** A line of the report of the [gc] command: a label, a colon, a space and
    a count; and the report with the three counts, one per line. *)
Definition count_line (label : string) (n : Z) : string :=
  (label ++ String ":" (String " " (Py.decimal n)))%string.

Definition render_gc (commits trees blobs : Z) : string :=
  (count_line "Commits deleted" commits ++ nl
   ++ count_line "Trees deleted" trees ++ nl
   ++ count_line "Blobs deleted" blobs ++ nl)%string.

(** A line of the log that opens a commit, and the hash read on it. *)
Definition is_commit_line (raw : string) : bool :=
  Py.startswith "commit " (Py.strip raw).

Definition log_hash_of (raw : string) : string :=
  Py.strip (Py.replace "commit " "" (Py.strip raw)).

(** Some texts printed one per line. *)
Definition render_lines (l : list string) : string :=
  fold_right (fun t rest => (t ++ nl ++ rest)%string) EmptyString l.

(** The commits the loop of [_parse_log_output] has read so far: the closed
    ones and the one being read. *)
Definition log_all (acc : list ForesterCLI.log_entry * option ForesterCLI.log_entry)
  : list ForesterCLI.log_entry :=
  fst acc ++ match snd acc with Some c => [c] | None => [] end.

(** The argv of [log] for an optional branch. *)
Definition log_command (branch : option string) : list string :=
  "log" :: match branch with
           | Some b => if Py.truthy b then [b] else []
           | None => []
           end.

(** No closing bracket in [s]. *)
Definition no_bracket (s : string) : bool :=
  Py.all_chars (fun c => negb (Ascii.eqb c "]")) s.

(** The line the [commit] command prints for a new commit:
    [[branch hash] message]. *)
Definition commit_report (branch h message : string) : string :=
  String "[" (branch ++ String " " (h ++ String "]" (String " " message))).

(** No closing brace, and no line break, in [s]. *)
Definition no_brace (s : string) : bool :=
  Py.all_chars (fun c => negb (Ascii.eqb c "}")) s.

Definition one_line (s : string) : bool :=
  Py.all_chars (fun c => negb (Ascii.eqb c Py.newline)) s.

(** A line of the stash list as the CLI prints it, [stash{hash}: message],
    and the entries that can be printed so: a hash on one line without a
    closing brace, a message on one line without whitespace around it. *)
Definition render_stash (e : string * string) : string :=
  ("stash{" ++ fst e ++ String "}" (String ":" (String " " (snd e))))%string.

Definition stash_entry_ok (e : string * string) : Prop :=
  no_brace (fst e) = true /\ one_line (fst e) = true
  /\ one_line (snd e) = true /\ Py.strip (snd e) = snd e.

(** An integer that [str] and [int] convert: no more decimal digits than the
    limit. *)
Definition within_str_limit (n : Z) : bool :=
  Py.count_digits (Py.decimal n) <=? Py.INT_MAX_STR_DIGITS.

(** The events of a run up to the first call of a nested operator: what an
    operator does before it hands over, whatever the nested operator does
    in turn. *)
Fixpoint before_nested (l : list event) : list event :=
  match l with
  | [] => []
  | EvOp _ _ :: _ => []
  | e :: r => e :: before_nested r
  end.

(** The requests an operator makes to the CLI itself, before it hands over
    to a nested operator. *)
Definition own_requests {A} (m : M A) (w : World) : list command :=
  commands_of (before_nested (trace m w)).

(* ===================================================================== *)
(** ** Facts about the string primitives *)
(* ===================================================================== *)

Section StringFacts.

Import Py.

Lemma append_empty_r (s : string) : (s ++ "")%string = s.
Proof. induction s as [|c s IH]; simpl; [reflexivity | now rewrite IH]. Qed.

Lemma append_assoc (a b c : string) :
  ((a ++ b) ++ c)%string = (a ++ (b ++ c))%string.
Proof. induction a as [|x a IH]; simpl; [reflexivity | now rewrite IH]. Qed.

Lemma truthy_false_iff (s : string) : truthy s = false <-> s = EmptyString.
Proof. destruct s; simpl; split; intro H; congruence. Qed.

Lemma join_split_ws_from (s cur : string) :
  join_empty (split_ws_from cur s) = (cur ++ non_whitespace s)%string.
Proof.
  revert cur; induction s as [|c s IH]; intro cur; simpl.
  - destruct cur; simpl; [reflexivity|]. now rewrite !append_empty_r.
  - destruct (isspace c).
    + destruct (truthy cur) eqn:E; simpl; rewrite IH; simpl; [reflexivity|].
      apply truthy_false_iff in E. now subst.
    + rewrite IH, append_assoc. reflexivity.
Qed.

Lemma non_whitespace_lstrip (s : string) :
  non_whitespace (lstrip s) = non_whitespace s.
Proof.
  induction s as [|c s IH]; simpl; [reflexivity|].
  destruct (isspace c) eqn:E; [exact IH|]. simpl. now rewrite E.
Qed.

Lemma non_whitespace_rstrip (s : string) :
  non_whitespace (rstrip s) = non_whitespace s.
Proof.
  induction s as [|c s IH]; simpl; [reflexivity|].
  destruct (isspace c) eqn:E; simpl.
  - destruct (truthy (rstrip s)) eqn:T; simpl.
    + now rewrite E.
    + apply truthy_false_iff in T. rewrite T in IH. simpl in IH. now rewrite <- IH.
  - now rewrite E, IH.
Qed.

Lemma join_split_strip (s : string) :
  join_empty (split_ws (strip s)) = non_whitespace s.
Proof.
  unfold split_ws, strip. rewrite join_split_ws_from. simpl.
  now rewrite non_whitespace_rstrip, non_whitespace_lstrip.
Qed.

(** A stripped string does not begin with whitespace. *)
Lemma lstrip_head (s : string) :
  match lstrip s with
  | EmptyString => True
  | String c _ => isspace c = false
  end.
Proof.
  induction s as [|c s IH]; simpl; [exact I|].
  destruct (isspace c) eqn:E; [exact IH | exact E].
Qed.

Lemma strip_head (s : string) :
  match strip s with
  | EmptyString => True
  | String c _ => isspace c = false
  end.
Proof.
  unfold strip. pose proof (lstrip_head s) as H.
  destruct (lstrip s) as [|c r]; simpl; [exact I|].
  rewrite H. simpl. exact H.
Qed.

Lemma prefix_cons (a c : ascii) (p s : string) :
  String.prefix (String a p) (String c s) = Ascii.eqb a c && String.prefix p s.
Proof.
  cbn [String.prefix]. destruct (ascii_dec a c) as [->|N].
  - now rewrite Ascii.eqb_refl.
  - apply Ascii.eqb_neq in N. now rewrite N.
Qed.

Lemma prefix_empty (s : string) : String.prefix "" s = true.
Proof. destruct s; reflexivity. Qed.

Lemma prefix_of_empty (a : ascii) (p : string) :
  String.prefix (String a p) "" = false.
Proof. reflexivity. Qed.

Lemma strip_never_indented (s : string) : startswith "  " (strip s) = false.
Proof.
  pose proof (strip_head s) as H. unfold startswith.
  destruct (strip s) as [|c r]; [reflexivity|].
  rewrite prefix_cons. destruct (Ascii.eqb_spec " " c) as [<-|]; [discriminate H | reflexivity].
Qed.

Lemma ends_visible_truthy (s : string) : ends_visible s = true -> truthy s = true.
Proof. destruct s; simpl; [discriminate | reflexivity]. Qed.

Lemma ends_visible_cons (c : ascii) (s : string) :
  truthy s = true -> ends_visible (String c s) = ends_visible s.
Proof. destruct s; simpl; [discriminate | reflexivity]. Qed.

Lemma rstrip_ends_visible (s : string) :
  truthy (rstrip s) = true -> ends_visible (rstrip s) = true.
Proof.
  induction s as [|c s IH]; simpl; [discriminate|].
  destruct (truthy (rstrip s)) eqn:T.
  - rewrite andb_false_r. intros _. rewrite ends_visible_cons by exact T. now apply IH.
  - rewrite andb_true_r. apply truthy_false_iff in T. rewrite T.
    destruct (isspace c) eqn:E; simpl; [discriminate|]. now rewrite E.
Qed.

Lemma strip_ends_visible (s : string) :
  truthy (strip s) = true -> ends_visible (strip s) = true.
Proof. apply rstrip_ends_visible. Qed.

Lemma ends_visible_lstrip (s : string) :
  ends_visible s = true -> ends_visible (lstrip s) = true.
Proof.
  induction s as [|c s IH]; [discriminate|].
  cbn [lstrip]. destruct (isspace c) eqn:E; [|trivial].
  intro H. destruct s as [|d s].
  - simpl in H. rewrite E in H. discriminate.
  - apply IH. exact H.
Qed.

Lemma ends_visible_rstrip (s : string) :
  ends_visible s = true -> truthy (rstrip s) = true.
Proof.
  induction s as [|c s IH]; [discriminate|].
  intro H. cbn [rstrip].
  destruct s as [|d s].
  - simpl in *. destruct (isspace c); [discriminate | reflexivity].
  - rewrite (IH H). rewrite andb_false_r. reflexivity.
Qed.

Lemma ends_visible_strip (s : string) :
  ends_visible s = true -> truthy (strip s) = true.
Proof. intro H. apply ends_visible_rstrip, ends_visible_lstrip, H. Qed.

(** Removing the occurrences of a two-character text that ends in a space
    keeps a visible last character. *)
Lemma replace_from_ends_visible (a : ascii) (s : string) (skip : nat) :
  skip = 0 \/ (skip = 1 /\ exists r, s = String " " r) ->
  ends_visible s = true ->
  ends_visible (replace_from (String a (String " " EmptyString)) "" skip s) = true.
Proof.
  revert skip; induction s as [|c s IH]; intros skip Hskip Hs; [discriminate|].
  destruct Hskip as [-> | [-> [r Hr]]].
  - cbn [replace_from].
    destruct (String.prefix (String a (String " " EmptyString)) (String c s)) eqn:P.
    + rewrite prefix_cons in P. destruct (Ascii.eqb_spec a c) as [<-|]; [|discriminate].
      destruct s as [|d s]; [discriminate|].
      rewrite prefix_cons in P. destruct (Ascii.eqb_spec " " d) as [<-|]; [|discriminate].
      apply (IH 1); [right; split; [reflexivity | now exists s] | exact Hs].
    + destruct s as [|d s]; [exact Hs|].
      assert (H : ends_visible
                    (replace_from (String a (String " " EmptyString)) "" 0 (String d s)) = true)
        by (apply IH; [now left | exact Hs]).
      rewrite ends_visible_cons; [exact H | now apply ends_visible_truthy].
  - injection Hr as -> ->. cbn [replace_from].
    destruct r as [|d r]; [discriminate|].
    apply IH; [now left | exact Hs].
Qed.

End StringFacts.

(* ===================================================================== *)
(** ** helpers.py : [normalize_commit_hash] *)
(* ===================================================================== *)

Section NormalizeCommitHash.

Import Py.

(** Case analysis over the 256 characters. *)
Ltac each_char c :=
  destruct c as [[|] [|] [|] [|] [|] [|] [|] [|]]; vm_compute;
  try discriminate; try (repeat split; reflexivity).

Lemma lower_char_of_hex (c : ascii) :
  is_hex_any_case c = true -> is_lower_hex (lower_char c) = true.
Proof. each_char c. Qed.

Lemma lower_hex_char_fixed (c : ascii) :
  is_lower_hex c = true ->
  lower_char c = c /\ isspace c = false /\ is_hex_any_case c = true.
Proof. each_char c. Qed.

Lemma lower_length (s : string) : String.length (lower s) = String.length s.
Proof. induction s as [|c s IH]; simpl; [reflexivity | now rewrite IH]. Qed.

Lemma lower_of_hex (s : string) :
  all_chars is_hex_any_case s = true -> all_chars is_lower_hex (lower s) = true.
Proof.
  induction s as [|c s IH]; [reflexivity|].
  cbn [all_chars lower]. intros [Hc Hs]%andb_true_iff.
  now rewrite (lower_char_of_hex c Hc), IH.
Qed.

Lemma lower_hex_fixed (s : string) :
  all_chars is_lower_hex s = true ->
  lower s = s /\ non_whitespace s = s /\ all_chars is_hex_any_case s = true.
Proof.
  induction s as [|c s IH]; [now repeat split|].
  cbn [all_chars lower non_whitespace]. intros [Hc Hs]%andb_true_iff.
  destruct (lower_hex_char_fixed c Hc) as (-> & -> & ->).
  destruct (IH Hs) as (-> & -> & ->). now repeat split.
Qed.

(** The function, read off its source: it looks at the non-whitespace
    characters only. *)
Lemma normalize_commit_hash_eq (s : string) :
  normalize_commit_hash (Some s) =
  if all_chars is_hex_any_case (non_whitespace s)
     && (String.length (non_whitespace s) =? 64)
  then Some (lower (non_whitespace s)) else None.
Proof.
  unfold normalize_commit_hash. rewrite join_split_strip, lower_length.
  unfold COMMIT_HASH_LENGTH.
  destruct s as [|c s]; [reflexivity|]. cbn [truthy negb].
  destruct (non_whitespace (String c s)) as [|d r] eqn:E; [reflexivity|].
  cbn [truthy negb].
  destruct (all_chars is_hex_any_case (String d r)); cbn [negb andb]; [|reflexivity].
  destruct (String.length (String d r) =? 64); reflexivity.
Qed.

(** What a result looks like. *)
Lemma normalize_commit_hash_shape (h : option string) (r : string) :
  normalize_commit_hash h = Some r ->
  String.length r = 64 /\ all_chars is_lower_hex r = true.
Proof.
  destruct h as [s|]; [|discriminate]. rewrite normalize_commit_hash_eq.
  destruct (all_chars is_hex_any_case (non_whitespace s)) eqn:Hx; [|discriminate].
  destruct (String.length (non_whitespace s) =? 64) eqn:Hl; [|discriminate].
  cbn [andb]. intros [= <-]. apply Nat.eqb_eq in Hl.
  split; [now rewrite lower_length | now apply lower_of_hex].
Qed.

(** C9. [normalize_commit_hash] returns [None] or 64 lowercase hexadecimal
    characters; when the non-whitespace characters of the input are 64
    hexadecimal digits of any case it returns them lowercased; and every
    result it gives is returned unchanged when passed in again. *)
Theorem normalize_commit_hash_spec :
  (forall h : option string,
      normalize_commit_hash h = None
      \/ exists r, normalize_commit_hash h = Some r
                   /\ String.length r = 64
                   /\ all_chars is_lower_hex r = true)
  /\ (forall s : string,
         String.length (non_whitespace s) = 64 ->
         all_chars is_hex_any_case (non_whitespace s) = true ->
         normalize_commit_hash (Some s) = Some (lower (non_whitespace s)))
  /\ (forall (h : option string) (r : string),
         normalize_commit_hash h = Some r ->
         normalize_commit_hash (Some r) = Some r).
Proof.
  split; [|split].
  - intro h. destruct (normalize_commit_hash h) as [r|] eqn:E; [right | now left].
    exists r. destruct (normalize_commit_hash_shape h r E). now repeat split.
  - intros s Hl Hx. rewrite normalize_commit_hash_eq, Hx, Hl. reflexivity.
  - intros h r E. destruct (normalize_commit_hash_shape h r E) as [Hl Hx].
    destruct (lower_hex_fixed r Hx) as (Hlow & Hnw & Hany).
    rewrite normalize_commit_hash_eq, Hnw, Hany, Hl, Hlow. reflexivity.
Qed.

(** The theorem at an input with blanks and capitals. *)
Lemma normalize_commit_hash_spec_witness :
  normalize_commit_hash
    (Some " 0123456789ABCDEF0123456789abcdef 0123456789ABCDEF0123456789abcdef ")
  = Some "0123456789abcdef0123456789abcdef0123456789abcdef0123456789abcdef".
Proof.
  exact (proj1 (proj2 normalize_commit_hash_spec)
           " 0123456789ABCDEF0123456789abcdef 0123456789ABCDEF0123456789abcdef "
           eq_refl eq_refl).
Defined.

End NormalizeCommitHash.

(* ===================================================================== *)
(** ** forester_cli.py : the status and branch parsers *)
(* ===================================================================== *)

Section Parsers.

Import Py ForesterCLI.

Ltac split_ifs :=
  repeat match goal with
         | |- context [if ?b then _ else _] => destruct b
         end.

(** The entry branch of the loop tests the stripped line for an indentation
    that stripping has removed, so no turn of the loop adds a file. *)
Lemma status_line_keeps_lists (acc : status_data * option section) (raw : string) :
  file_lists (fst (status_line acc raw)) = file_lists (fst acc).
Proof.
  destruct acc as [status current_section]. unfold status_line.
  rewrite strip_never_indented. cbn [andb].
  split_ifs; reflexivity.
Qed.

Lemma fold_status_keeps_lists (ls : list string) (acc : status_data * option section) :
  file_lists (fst (fold_left status_line ls acc)) = file_lists (fst acc).
Proof.
  revert acc; induction ls as [|raw ls IH]; intro acc; [reflexivity|].
  cbn [fold_left]. now rewrite IH, status_line_keeps_lists.
Qed.

(** On every output the three lists come back empty. *)
Lemma parse_status_output_lists_empty (output : string) :
  st_modified (_parse_status_output output) = []
  /\ st_deleted (_parse_status_output output) = []
  /\ st_untracked (_parse_status_output output) = [].
Proof.
  pose proof (fold_status_keeps_lists (lines output) (initial_status, None)) as H.
  unfold file_lists in H. cbn [fst initial_status st_modified st_deleted st_untracked] in H.
  unfold _parse_status_output. injection H as -> -> ->. now repeat split.
Qed.

(** C1. On a status output that lists [scene.blend] under [Modified files:]
    and [notes.txt] under [Untracked files:], each indented with two spaces,
    [_parse_status_output] returns empty [modified], [deleted] and
    [untracked] lists: the entries of the sections are lost. *)
Theorem parse_status_output_loses_entries :
  _parse_status_output
    ("On branch main" ++ nl ++ "HEAD: 4f2a" ++ nl
     ++ "Modified files:" ++ nl ++ "  scene.blend" ++ nl
     ++ "Untracked files:" ++ nl ++ "  notes.txt" ++ nl)%string
  = StatusData "main" (Some "4f2a") [] [] [] false.
Proof. vm_compute. reflexivity. Qed.

(** What one line of the branch listing gives to the current entries. *)
Lemma branch_line_current (raw : string) :
  current_entries (branch_line raw)
  = if starred raw then [BranchEntry (branch_name_of raw) true] else [].
Proof.
  unfold branch_line, starred, branch_name_of, current_entries.
  destruct (truthy (strip raw)) eqn:T; cbn [negb].
  - destruct (startswith "* " (strip raw)) eqn:St.
    + assert (N : truthy (strip (replace "  " "" (replace "* " "" (strip raw)))) = true).
      { apply ends_visible_strip. unfold replace. cbn [truthy].
        apply replace_from_ends_visible; [now left|].
        apply replace_from_ends_visible; [now left|].
        now apply strip_ends_visible. }
      rewrite N. reflexivity.
    + destruct (truthy (strip (replace "  " "" (replace "* " "" (strip raw)))));
        reflexivity.
  - apply truthy_false_iff in T. rewrite T. reflexivity.
Qed.

Lemma filter_flat_map {A B} (p : B -> bool) (f : A -> list B) (l : list A) :
  filter p (flat_map f l) = flat_map (fun x => filter p (f x)) l.
Proof.
  induction l as [|x l IH]; [reflexivity|].
  cbn [flat_map]. now rewrite filter_app, IH.
Qed.

(** C6, as the code has it. The entries of the parsed branch list that are
    marked current are, in order, those of the lines of stdout that begin
    with [* ] once stripped: as many as there are such lines, so exactly
    one when stdout has exactly one such line. *)
Theorem branch_list_current_entries (output : string) :
  current_entries (_parse_branch_list_output output)
  = map (fun raw => BranchEntry (branch_name_of raw) true)
        (filter starred (lines output))
  /\ length (current_entries (_parse_branch_list_output output))
     = length (filter starred (lines output)).
Proof.
  assert (E : current_entries (_parse_branch_list_output output)
              = map (fun raw => BranchEntry (branch_name_of raw) true)
                    (filter starred (lines output))).
  { unfold _parse_branch_list_output, current_entries.
    rewrite filter_flat_map.
    induction (lines output) as [|raw ls IH]; [reflexivity|].
    cbn [flat_map filter]. rewrite IH.
    fold (current_entries (branch_line raw)). rewrite branch_line_current.
    destruct (starred raw); reflexivity. }
  split; [exact E | now rewrite E, length_map].
Qed.

(** C6 fails as stated: a listing without a [* ] line has no current entry,
    and one with two such lines has two. *)
Lemma branch_list_not_one_current :
  length (current_entries
            (_parse_branch_list_output ("main" ++ nl ++ "  feature" ++ nl)%string)) = 0
  /\ length (current_entries
               (_parse_branch_list_output ("* main" ++ nl ++ "* feature" ++ nl)%string)) = 2.
Proof. split; vm_compute; reflexivity. Qed.

End Parsers.

(* ===================================================================== *)
(** ** Traces of the primitives *)
(* ===================================================================== *)

Lemma skipn_app_exact {A} (h x : list A) : skipn (length h) (h ++ x) = x.
Proof. induction h as [|a h IH]; [reflexivity | exact IH]. Qed.

Lemma trace_unfold {A} (m : M A) (w : World) (added : list event) :
  history (snd (m w)) = history w ++ added -> trace m w = added.
Proof. unfold trace. intros ->. apply skipn_app_exact. Qed.

(** Brings the history of the final world to the form [history w ++ added]
    and reads the trace off it. *)
Ltac read_trace :=
  unfold trace; cbn [snd fst history record_event];
  rewrite <- ?app_assoc; rewrite skipn_app_exact;
  cbn [app commands_of reports_of flat_map].

(** Opens the reporting and operator-calling steps of an operator. *)
Ltac run_op :=
  unfold cancel_with, call_op_then, call_op, report, emit, bind, ret, after.

(** The text of an integer begins with a digit or a minus sign followed by
    a digit, so it is no option of the command line. *)
Lemma decimal_not_option (n : Z) (rest : string) :
  Py.decimal n <> String "-" (String "-" rest).
Proof.
  unfold Py.decimal. destruct n as [|p|p]; cbn [Z.to_int NilZero.string_of_int].
  - discriminate.
  - destruct (Pos.to_uint p); discriminate.
  - destruct (Pos.to_uint p); discriminate.
Qed.

(** What [str] returns is the decimal text. *)
Lemma str_of_int_decimal (n : Z) (t : string) :
  Py.str_of_int n = Some t -> t = Py.decimal n.
Proof.
  unfold Py.str_of_int.
  destruct (Py.count_digits (Py.decimal n) <=? Py.INT_MAX_STR_DIGITS);
    [now intros [= <-] | discriminate].
Qed.

Lemma str_of_int_within (n : Z) :
  within_str_limit n = true -> Py.str_of_int n = Some (Py.decimal n).
Proof. unfold within_str_limit, Py.str_of_int. now intros ->. Qed.


Lemma before_nested_prefix (l : list event) :
  exists rest, commands_of l = commands_of (before_nested l) ++ rest.
Proof.
  induction l as [|e l (rest & IH)]; [now exists []|].
  destruct e; cbn [before_nested commands_of flat_map app];
    fold (commands_of l); fold (commands_of (before_nested l));
    try (exists rest; now rewrite IH).
  now exists (commands_of l).
Qed.

(** Reads the requests made before a nested call off the final history. *)
Ltac read_own :=
  unfold own_requests, trace; cbn [snd fst history record_event];
  rewrite <- ?app_assoc; rewrite skipn_app_exact;
  cbn [app before_nested commands_of flat_map].

(* ===================================================================== *)
(** ** The world after each method of [ForesterCLI] *)
(* ===================================================================== *)

Section MethodWorlds.

Import Py ForesterCLI.

Ltac method_world :=
  intros; unfold _execute_command, bind, ret; cbn beta;
  repeat match goal with
         | |- context [match ?x with _ => _ end] => destruct x
         end; reflexivity.

Lemma status_world p w :
  snd (status p w) = after (Command ["status"] p 30) w.
Proof. unfold status. method_world. Qed.

Lemma branch_list_world p w :
  snd (branch (Some p) "list" None w) = after (Command ["branch"] p 30) w.
Proof.
  unfold branch.
  change (negb (existsb (String.eqb "list") ["list"; "create"; "delete"])) with false.
  change ("list" =? "list")%string with true. cbn iota.
  method_world.
Qed.

Lemma gc_world p d n w :
  snd (gc p d n w)
  = match gc_command d n with
    | Some command => after (Command command p 300) w
    | None => w
    end.
Proof. unfold gc. destruct (gc_command d n); [method_world | reflexivity]. Qed.

Lemma delete_commit_world p h w :
  snd (delete_commit p h w) = after (Command ["commit"; "--delete"; h] p 30) w.
Proof. unfold delete_commit. method_world. Qed.

Lemma delete_tag_world p t w :
  snd (delete_tag p t w) = after (Command ["tag"; "--delete"; t] p 30) w.
Proof. unfold delete_tag. method_world. Qed.

Lemma branch_delete_world p name w :
  snd (branch (Some p) "delete" (Some name) w)
  = if truthy (strip name)
    then after (Command ["branch"; "-d"; strip name] p 30) w else w.
Proof.
  unfold branch.
  change (negb (existsb (String.eqb "delete") ["list"; "create"; "delete"])) with false.
  change ("delete" =? "list")%string with false.
  change ("delete" =? "create")%string with false. cbn iota. cbn [app].
  assert (E : truthy (strip name) = true -> truthy name = true).
  { destruct name; [discriminate | reflexivity]. }
  destruct (truthy (strip name)).
  - rewrite (E eq_refl). cbn [negb orb]. method_world.
  - rewrite orb_true_r. reflexivity.
Qed.

Lemma checkout_world p name w :
  snd (checkout (Some p) name w)
  = if truthy (strip name)
    then after (Command ["checkout"; strip name] p 30) w else w.
Proof.
  unfold checkout.
  assert (E : truthy (strip name) = true -> truthy name = true).
  { destruct name; [discriminate | reflexivity]. }
  destruct (truthy (strip name)).
  - rewrite (E eq_refl). cbn [negb orb]. method_world.
  - rewrite orb_true_r. reflexivity.
Qed.

Lemma show_world p h w :
  snd (show (Some p) h w)
  = if truthy (strip h) then after (Command ["show"; strip h] p 30) w else w.
Proof.
  unfold show.
  assert (E : truthy (strip h) = true -> truthy h = true).
  { destruct h; [discriminate | reflexivity]. }
  destruct (truthy (strip h)).
  - rewrite (E eq_refl). cbn [negb orb]. method_world.
  - rewrite orb_true_r. reflexivity.
Qed.

Lemma stash_save_world p m w :
  truthy m = true ->
  snd (stash p "save" (Some m) w) = after (Command ["stash"; "save"; m] p 30) w.
Proof.
  intro T. unfold stash. rewrite T.
  change ("save" =? "save")%string with true. cbn iota. cbn [app].
  method_world.
Qed.

(** A failed [stash] and a failed [delete_commit] come with a message. *)
Lemma stash_failure_has_message p a m w r e :
  fst (stash p a m w) = (false, r, e) -> exists msg, e = Some msg.
Proof.
  unfold stash, _execute_command, bind, ret. cbn beta.
  repeat match goal with
         | |- context [match ?x with _ => _ end] => destruct x
         end; cbn [fst]; intros [= <- <-]; eauto; discriminate.
Qed.

(** A blank text strips to the empty one. *)
Lemma blank_strip (s : string) : blank s = true -> strip s = EmptyString.
Proof.
  unfold blank, strip. intro H.
  assert (E : lstrip s = EmptyString).
  { induction s as [|c s IH]; [reflexivity|].
    cbn [all_chars] in H. apply andb_true_iff in H as [Hc Hs].
    cbn [lstrip]. rewrite Hc. now apply IH. }
  now rewrite E.
Qed.

(** A text without whitespace is its own stripped form. *)
Lemma strip_without_whitespace (s : string) : non_whitespace s = s -> strip s = s.
Proof.
  assert (L : forall t, String.length (non_whitespace t) <= String.length t).
  { induction t as [|c t IH]; [apply le_n|]. cbn [non_whitespace].
    destruct (isspace c); cbn [String.length]; lia. }
  assert (V : forall t, non_whitespace t = t -> all_chars (fun c => negb (isspace c)) t = true).
  { induction t as [|c t IH]; [reflexivity|]. cbn [non_whitespace all_chars].
    destruct (isspace c) eqn:E.
    - intro H. pose proof (L t) as Ht. rewrite H in Ht. cbn [String.length] in Ht. lia.
    - intros [= H]. now rewrite (IH H). }
  intro H. apply V in H. unfold strip.
  assert (E : lstrip s = s).
  { destruct s as [|c s]; [reflexivity|]. cbn [all_chars] in H. cbn [lstrip].
    apply andb_true_iff in H as [Hc _]. apply negb_true_iff in Hc. now rewrite Hc. }
  rewrite E. clear E.
  induction s as [|c s IH]; [reflexivity|].
  cbn [all_chars] in H. apply andb_true_iff in H as [Hc Hs]. apply negb_true_iff in Hc.
  cbn [rstrip]. rewrite (IH Hs), Hc. reflexivity.
Qed.

End MethodWorlds.

(* ===================================================================== *)
(** ** forester_cli.py : [gc] and [commit] *)
(* ===================================================================== *)

Section GarbageCollect.

Import ForesterCLI gc_operators.

(** What the operator asks of the CLI: [gc], once, when a repository is
    found, and nothing otherwise. *)
Lemma garbage_collect_commands (self : DF_OT_garbage_collect) (w : World) :
  commands_of (trace (garbage_collect_execute self) w)
  = match repo_oracle w (history w) with
    | RepoFound p => [Command ["gc"] p 300]
    | _ => []
    end.
Proof.
  unfold trace, garbage_collect_execute, get_repository_path, bind. cbn beta.
  destruct (repo_oracle w (history w)) as [p| |].
  - pose proof (gc_world p false 90 w) as G.
    change (gc_command false 90) with (Some ["gc"]) in G. cbn iota in G.
    destruct (gc p false 90 w) as [[[[success stats] err]|] w1];
      cbn [snd] in G; subst w1.
    + unfold cancel_with, report, emit, bind, ret, after.
      destruct success; cbn [negb];
        [destruct stats as [st|]; [destruct (deleted_message st)|]|];
        read_trace; reflexivity.
    + unfold ret, after. read_trace. reflexivity.
  - unfold cancel_with, report, emit, bind, ret. read_trace. reflexivity.
  - unfold cancel_with, report, emit, bind, ret. read_trace. reflexivity.
Qed.

(** C3. Whatever its [dry_run] property, the garbage-collect operator does
    the same thing: when a repository is found it has the CLI run [gc] once,
    the plain [gc] without [--dry-run], and every command it runs is that
    one.  The argv [ForesterCLI.gc] builds and runs has [--dry-run] exactly
    when its [dry_run] argument is true, and ends with [--reflog-expire N]
    exactly when [reflog_expire_days] is not 90, [N] being the decimal text
    [str] gives for a number within its limit of digits; past that limit
    [str] raises and no command is run. *)
Theorem garbage_collect_ignores_dry_run :
  (forall (self self' : DF_OT_garbage_collect) (w : World),
      garbage_collect_execute self w = garbage_collect_execute self' w)
  /\ (forall (self : DF_OT_garbage_collect) (w : World) (p : string),
         repo_oracle w (history w) = RepoFound p ->
         commands_of (trace (garbage_collect_execute self) w)
         = [Command ["gc"] p 300])
  /\ (forall (self : DF_OT_garbage_collect) (w : World) (c : command),
         In c (commands_of (trace (garbage_collect_execute self) w)) ->
         argv c = ["gc"] /\ ~ In "--dry-run" (argv c))
  /\ (forall (dry : bool) (n : Z) (repo_path : string) (w : World),
         commands_of (trace (gc repo_path dry n) w)
         = match gc_command dry n with
           | Some command => [Command command repo_path 300]
           | None => []
           end)
  /\ (forall (dry : bool) (n : Z) (command : list string),
         gc_command dry n = Some command ->
         (In "--dry-run" command <-> dry = true))
  /\ (forall (dry : bool) (n : Z),
         let plain_gc := "gc" :: (if dry then ["--dry-run"] else []) in
         (n <> 90%Z -> within_str_limit n = true ->
          gc_command dry n
          = Some (plain_gc ++ ["--reflog-expire"; Py.decimal n]))
         /\ (n <> 90%Z -> within_str_limit n = false -> gc_command dry n = None)
         /\ (n = 90%Z ->
             gc_command dry n = Some plain_gc
             /\ ~ In "--reflog-expire" plain_gc)).
Proof.
  split; [reflexivity|]. split; [|split; [|split; [|split]]].
  - intros self w p Hrepo. now rewrite garbage_collect_commands, Hrepo.
  - intros self w c Hc. rewrite garbage_collect_commands in Hc.
    destruct (repo_oracle w (history w)) as [p| |]; [|destruct Hc|destruct Hc].
    destruct Hc as [<-|[]]. split; [reflexivity|].
    cbn. intros [H|[]]. discriminate H.
  - intros dry n repo_path w. unfold trace. rewrite gc_world.
    destruct (gc_command dry n); unfold after; [read_trace; reflexivity|].
    rewrite <- (app_nil_r (history w)) at 2. now rewrite skipn_app_exact.
  - intros dry n command. unfold gc_command. cbv zeta. intro H. split.
    + destruct dry; [reflexivity|]. intro Hin. exfalso.
      destruct (negb (n =? 90)%Z).
      * destruct (Py.str_of_int n) as [t|] eqn:E; [|discriminate H].
        apply str_of_int_decimal in E. injection H as <-. subst t.
        destruct Hin as [Hin|[Hin|[Hin|[]]]]; try discriminate Hin.
        exact (decimal_not_option n _ Hin).
      * injection H as <-. destruct Hin as [Hin|[]]. discriminate Hin.
    + intros ->. destruct (negb (n =? 90)%Z).
      * destruct (Py.str_of_int n); [|discriminate H]. injection H as <-.
        right. now left.
      * injection H as <-. right. now left.
  - intros dry n plain_gc. unfold gc_command. cbv zeta. split; [|split].
    + intros H L. apply Z.eqb_neq in H. rewrite H. cbn [negb].
      now rewrite (str_of_int_within n L).
    + intros H L. apply Z.eqb_neq in H. rewrite H. cbn [negb].
      unfold within_str_limit in L. unfold Py.str_of_int. now rewrite L.
    + intros ->. cbn [Z.eqb negb Pos.eqb]. split; [reflexivity|].
      subst plain_gc. destruct dry; cbn; intros H.
      * destruct H as [H|[H|[]]]; discriminate H.
      * destruct H as [H|[]]; discriminate H.
Qed.

(** The theorem on the operator with [dry_run] set, in a repository, and on
    a call [gc(dry_run=True, reflog_expire_days=30)]. *)
Lemma garbage_collect_ignores_dry_run_witness :
  commands_of
    (trace (garbage_collect_execute (GarbageCollect true))
       (scripted [CliExited 0 "" ""] (RepoFound "/projects/robot")))
  = [Command ["gc"] "/projects/robot" 300]
  /\ gc_command true 30 = Some ["gc"; "--dry-run"; "--reflog-expire"; "30"].
Proof.
  split.
  - exact (proj1 (proj2 garbage_collect_ignores_dry_run) (GarbageCollect true)
             (scripted [CliExited 0 "" ""] (RepoFound "/projects/robot"))
             "/projects/robot" eq_refl).
  - exact (proj1 (proj2 (proj2 (proj2 (proj2 (proj2
             garbage_collect_ignores_dry_run)))) true 30%Z)
             ltac:(discriminate) eq_refl).
Defined.

End GarbageCollect.

Section Commit.

Import Py ForesterCLI.

(** C7, as the code has it. For a message that is empty or whitespace only,
    [commit] fails without running anything: the world is as before, the
    hash is [None], and the error is "Commit message cannot be empty" when a
    repository path is given, "Repository path is required" when none is. *)
Theorem commit_blank_message_rejected
  (repo_path : option string) (message : string) (author tag : option string)
  (no_verify : bool) (w : World) :
  blank message = true ->
  commit repo_path message author tag no_verify w
  = (false, None,
     Some (match repo_path with
           | Some _ => "Commit message cannot be empty"
           | None => "Repository path is required"
           end), w).
Proof.
  intro B. unfold commit. destruct repo_path as [p|]; [|reflexivity].
  rewrite (blank_strip message B). cbn [truthy negb]. rewrite orb_true_r.
  reflexivity.
Qed.

(** The theorem at a message of three spaces. *)
Lemma commit_blank_message_rejected_witness :
  commit (Some "/projects/robot") "   " (Some "Ada") None false
         (scripted [] (RepoFound "/projects/robot"))
  = (false, None, Some "Commit message cannot be empty",
     scripted [] (RepoFound "/projects/robot")).
Proof.
  exact (commit_blank_message_rejected (Some "/projects/robot") "   " (Some "Ada")
           None false (scripted [] (RepoFound "/projects/robot")) eq_refl).
Defined.

(** C7 fails as stated: without a repository path the empty message is
    turned down with another error. *)
Lemma commit_blank_message_without_repository :
  snd (fst (commit None "" None None false (scripted [] RepoMissing)))
  = Some "Repository path is required"
  /\ snd (fst (commit None "" None None false (scripted [] RepoMissing)))
     <> Some "Commit message cannot be empty".
Proof. split; [reflexivity | discriminate]. Qed.

End Commit.

(* ===================================================================== *)
(** ** branch_operators.py *)
(* ===================================================================== *)

Section BranchOperators.

Import Py ForesterCLI branch_operators.

Lemma has_changes_iff (sd : status_data) :
  has_changes sd = true <-> reports_uncommitted_changes sd.
Proof.
  unfold has_changes, reports_uncommitted_changes.
  destruct (st_clean sd), (st_modified sd), (st_deleted sd), (st_untracked sd);
    cbn; split; intro H; try reflexivity; try discriminate H;
    try (now left); try (now right; left); try (now right; right; left);
    try (now right; right; right).
  destruct H as [H|[H|[H|H]]]; congruence.
Qed.

(** What the switch operator does once past the change check: it asks for
    the checkout, unless the name is blank. *)
Lemma switch_checkout_history (self : DF_OT_switch_branch) (p : string) (w : World) :
  exists added,
    history (snd (switch_checkout self p w)) = history w ++ added
    /\ commands_of added
       = if truthy (strip (sw_branch_name self))
         then [Command ["checkout"; strip (sw_branch_name self)] p 30] else [].
Proof.
  unfold switch_checkout, bind.
  pose proof (checkout_world p (sw_branch_name self) w) as C.
  destruct (checkout (Some p) (sw_branch_name self) w) as [[success err] w1].
  cbn [snd] in C. subst w1.
  destruct (truthy (strip (sw_branch_name self))); run_op;
    (destruct success; [destruct (ops_oracle _ _)|]);
    cbn [fst snd history record_event]; rewrite <- ?app_assoc;
    eexists; (split; [reflexivity|]); try reflexivity;
    rewrite app_nil_r; reflexivity.
Qed.

(** C2. When the status read in the repository reports uncommitted changes
    and [skip_change_check] is false, the switch operator returns CANCELLED
    and the CLI is never asked for a checkout. *)
Theorem switch_branch_refuses_uncommitted_changes
  (self : DF_OT_switch_branch) (w : World) :
  skip_change_check self = false ->
  (forall p, repo_oracle w (history w) = RepoFound p ->
     exists sd e, fst (status p w) = (true, Some sd, e)
                  /\ reports_uncommitted_changes sd) ->
  fst (switch_branch_execute self w) = Returned CANCELLED
  /\ forall c, In c (commands_of (trace (switch_branch_execute self) w)) ->
               ~ is_checkout c.
Proof.
  intros Hskip Hstatus. unfold trace, switch_branch_execute.
  destruct (truthy (sw_branch_name self)); cbn [negb].
  - unfold get_repository_path, bind. cbn beta.
    destruct (repo_oracle w (history w)) as [p| |] eqn:R.
    + rewrite Hskip. cbn [negb].
      destruct (Hstatus p eq_refl) as (sd & e & Hs & Hc).
      pose proof (status_world p w) as W.
      destruct (status p w) as [[[success status_data] err] w1].
      cbn [fst snd] in Hs, W. injection Hs as -> -> ->. subst w1.
      apply has_changes_iff in Hc. rewrite Hc. cbn [andb].
      run_op. split; [reflexivity|].
      read_trace. intros c [<-|[]]. unfold is_checkout. cbn.
      intros [H|[]]. discriminate H.
    + run_op. split; [reflexivity|]. read_trace. intros c [].
    + run_op. split; [reflexivity|]. read_trace. intros c [].
  - run_op. split; [reflexivity|]. read_trace. intros c [].
Qed.

(** The theorem in a repository whose status lists nothing but is not clean. *)
Lemma switch_branch_refuses_uncommitted_changes_witness :
  fst (switch_branch_execute (SwitchBranch "feature" false)
         (scripted [CliExited 0 ("On branch main" ++ nl ++ "Modified files:" ++ nl
                                 ++ "  scene.blend" ++ nl)%string "";
                    CliExited 0 "" ""]
                   (RepoFound "/projects/robot")))
  = Returned CANCELLED.
Proof.
  refine (proj1 (switch_branch_refuses_uncommitted_changes
                   (SwitchBranch "feature" false) _ eq_refl _)).
  intros p [= <-]. eexists. eexists. split; [vm_compute; reflexivity|].
  left. reflexivity.
Defined.

(** C10. When the status query fails and [skip_change_check] is false, the
    switch operator goes on as if there were no change check: from the
    world left by the query it does what it does after the check, and for a
    name that is not blank the CLI is asked for the status and then for the
    checkout of that name. *)
Theorem switch_branch_proceeds_when_status_fails
  (self : DF_OT_switch_branch) (w : World) (p : string) :
  truthy (sw_branch_name self) = true ->
  repo_oracle w (history w) = RepoFound p ->
  skip_change_check self = false ->
  fst (fst (fst (status p w))) = false ->
  switch_branch_execute self w
  = switch_checkout self p (after (Command ["status"] p 30) w)
  /\ (truthy (strip (sw_branch_name self)) = true ->
      commands_of (trace (switch_branch_execute self) w)
      = [Command ["status"] p 30;
         Command ["checkout"; strip (sw_branch_name self)] p 30]).
Proof.
  intros Hname Hrepo Hskip Hfail.
  assert (E : switch_branch_execute self w
              = switch_checkout self p (after (Command ["status"] p 30) w)).
  { unfold switch_branch_execute. rewrite Hname. cbn [negb].
    unfold get_repository_path, bind at 1. cbn beta. rewrite Hrepo, Hskip. cbn [negb].
    unfold bind.
    pose proof (status_world p w) as W.
    destruct (status p w) as [[[success status_data] err] w1].
    cbn [fst snd] in Hfail, W. subst success w1.
    destruct status_data; reflexivity. }
  split; [exact E|].
  intro Hstrip. unfold trace. rewrite E.
  destruct (switch_checkout_history self p (after (Command ["status"] p 30) w))
    as (added & -> & Hadded).
  rewrite Hstrip in Hadded.
  unfold after. cbn [history record_event]. rewrite <- app_assoc, skipn_app_exact.
  cbn [app commands_of flat_map]. fold (commands_of added). rewrite Hadded. reflexivity.
Qed.

(** The theorem in a repository whose database cannot be read. *)
Lemma switch_branch_proceeds_when_status_fails_witness :
  commands_of (trace (switch_branch_execute (SwitchBranch "feature" false))
                 (scripted [CliExited 1 "" "no such table: reflog"; CliExited 0 "" ""]
                           (RepoFound "/projects/robot")))
  = [Command ["status"] "/projects/robot" 30;
     Command ["checkout"; "feature"] "/projects/robot" 30].
Proof.
  exact (proj2 (switch_branch_proceeds_when_status_fails
                  (SwitchBranch "feature" false)
                  (scripted [CliExited 1 "" "no such table: reflog"; CliExited 0 "" ""]
                            (RepoFound "/projects/robot"))
                  "/projects/robot" eq_refl eq_refl eq_refl eq_refl) eq_refl).
Defined.

Lemma listed_as_current_iff (name : string) (l : list branch_entry) :
  listed_as_current name l = true <-> marks_current name l.
Proof.
  unfold listed_as_current, marks_current. rewrite existsb_exists.
  split; intros (b & Hin & H); exists b; (split; [exact Hin|]).
  - apply andb_true_iff in H as [Hn Hc]. apply String.eqb_eq in Hn. now split.
  - destruct H as [Hn Hc]. apply andb_true_iff. split; [now apply String.eqb_eq | exact Hc].
Qed.

(** C8. When the branch listing marks the requested name as the current
    branch, the delete operator reports an error, returns CANCELLED, and the
    CLI is never asked for [branch -d]. *)
Theorem delete_current_branch_refused
  (self : DF_OT_delete_branch) (w : World) :
  (forall p, repo_oracle w (history w) = RepoFound p ->
     exists l e, fst (branch (Some p) "list" None w) = (true, Some l, e)
                 /\ marks_current (del_branch_name self) l) ->
  fst (delete_branch_execute self w) = Returned CANCELLED
  /\ (exists msg, In (ERROR, msg) (reports_of (trace (delete_branch_execute self) w)))
  /\ forall c, In c (commands_of (trace (delete_branch_execute self) w)) ->
                ~ In "-d" (argv c).
Proof.
  intros Hlist. unfold trace, delete_branch_execute.
  destruct (truthy (del_branch_name self)); cbn [negb].
  - unfold get_repository_path, bind. cbn beta.
    destruct (repo_oracle w (history w)) as [p| |] eqn:R.
    + destruct (Hlist p eq_refl) as (l & e & Hl & Hc).
      pose proof (branch_list_world p w) as W.
      destruct (branch (Some p) "list" None w) as [[[success branches] err] w1].
      cbn [fst snd] in Hl, W. injection Hl as -> -> ->. subst w1.
      apply listed_as_current_iff in Hc. rewrite Hc. cbn [andb].
      run_op. split; [reflexivity|]. read_trace. split.
      * eexists. left. reflexivity.
      * intros c [<-|[]]. cbn. intros [H|[]]. discriminate H.
    + run_op. split; [reflexivity|]. read_trace. split.
      * eexists. left. reflexivity.
      * intros c [].
    + run_op. split; [reflexivity|]. read_trace. split.
      * eexists. left. reflexivity.
      * intros c [].
  - run_op. split; [reflexivity|]. read_trace. split.
    + eexists. left. reflexivity.
    + intros c [].
Qed.

(** The theorem in a repository whose current branch is [main]. *)
Lemma delete_current_branch_refused_witness :
  fst (delete_branch_execute (DeleteBranch "main")
         (scripted [CliExited 0 ("* main" ++ nl ++ "  feature" ++ nl)%string "";
                    CliExited 0 "" ""]
                   (RepoFound "/projects/robot")))
  = Returned CANCELLED.
Proof.
  refine (proj1 (delete_current_branch_refused (DeleteBranch "main") _ _)).
  intros p [= <-]. eexists. eexists. split; [vm_compute; reflexivity|].
  eexists. split; [left; reflexivity|]. split; reflexivity.
Defined.

End BranchOperators.

(* ===================================================================== *)
(** ** history_operators.py : deleting a tagged commit *)
(* ===================================================================== *)

Section DeleteCommit.

Import Py ForesterCLI history_operators.

(** The run [[^']+] takes in front of a quote. *)
Lemma span_not_quote_app (name rest : string) :
  no_quote name = true ->
  span_not_quote (name ++ String quote rest) = (name, String quote rest).
Proof.
  induction name as [|c name IH]; [reflexivity|].
  unfold no_quote. cbn [all_chars append span_not_quote].
  intros [Hc Hn]%andb_true_iff. apply negb_true_iff in Hc. rewrite Hc.
  now rewrite (IH Hn).
Qed.

(** In front of the first quote, the pattern matches where [tag '] stands
    and nowhere before. *)
Lemma prefix_tag_after_plain (pre rest : string) :
  no_quote pre = true ->
  String.prefix "tag '" (pre ++ "tag '" ++ rest) = true -> pre = EmptyString.
Proof.
  unfold no_quote.
  destruct pre as [|c1 [|c2 [|c3 [|c4 [|c5 pre]]]]]; [reflexivity|..];
    cbn [append all_chars]; intros Hq Hp; exfalso;
    repeat (rewrite prefix_cons in Hp; apply andb_true_iff in Hp as [?E Hp]);
    repeat match goal with
           | E : Ascii.eqb _ _ = true |- _ => apply Ascii.eqb_eq in E; try discriminate E
           end.
  subst c5. rewrite !andb_true_iff in Hq. now destruct Hq as (_ & _ & _ & _ & Hq & _).
Qed.

(** The tag the documented message names is the tag the search returns:
    [<text without quote>tag '<name>'<anything>]. *)
Lemma search_tag_documented (pre name post : string) :
  no_quote pre = true -> no_quote name = true -> truthy name = true ->
  search_tag (pre ++ "tag '" ++ name ++ String quote post) = Some name.
Proof.
  intros Hpre Hname Hne. induction pre as [|c pre IH].
  - cbn [append]. destruct name as [|d name]; [discriminate|].
    cbn [search_tag]. unfold match_tag_here.
    change (String.prefix "tag '" (String "t" (String "a" (String "g" (String " "
              (String "'" (String d name ++ String quote post)))))))
      with (String.prefix "" (String d name ++ String quote post)).
    rewrite prefix_empty. cbn [drop].
    rewrite (span_not_quote_app (String d name) post Hname).
    cbn [truthy andb]. unfold quote. rewrite prefix_cons, Ascii.eqb_refl, prefix_empty.
    reflexivity.
  - assert (Hp : String.prefix "tag '" (String c pre ++ "tag '" ++ name ++ String quote post)
                 = false).
    { destruct (String.prefix "tag '" _) eqn:P; [|reflexivity].
      apply prefix_tag_after_plain in P; [discriminate P | exact Hpre]. }
    cbn [append] in *. cbn [search_tag]. unfold match_tag_here at 1. rewrite Hp.
    apply IH. unfold no_quote in *. cbn [all_chars] in Hpre.
    now apply andb_true_iff in Hpre as [_ Hpre].
Qed.

(** A normalized hash is passed to the CLI as it is. *)
Lemma normalized_hash_plain (h : option string) (r : string) :
  normalize_commit_hash h = Some r -> strip r = r /\ truthy r = true.
Proof.
  intro E. destruct (normalize_commit_hash_shape h r E) as [Hl Hx].
  destruct (lower_hex_fixed r Hx) as (_ & Hnw & _).
  split; [now apply strip_without_whitespace|].
  destruct r; [discriminate Hl | reflexivity].
Qed.

(** C4. When the deletion of the commit fails with a message that contains
    [referenced by tag] and from which a tag name is read, the operator asks
    the CLI to delete that tag and, if that succeeds, to delete the commit
    once more and no further time; if the deletion of the tag fails there
    is no second deletion of the commit and the operator returns CANCELLED. *)
Theorem delete_commit_retries_after_tag
  (self : DF_OT_delete_commit) (w : World) (p h msg tag : string) :
  normalize_commit_hash (Some (dc_commit_hash self)) = Some h ->
  repo_oracle w (history w) = RepoFound p ->
  let show_cmd := Command ["show"; h] p 30 in
  let delete_cmd := Command ["commit"; "--delete"; h] p 30 in
  let tag_cmd := Command ["tag"; "--delete"; tag] p 30 in
  fst (delete_commit p h (after show_cmd w)) = (false, Some msg) ->
  contains "referenced by tag" msg = true ->
  search_tag msg = Some tag ->
  let tag_deleted :=
    fst (fst (delete_tag p tag (after delete_cmd (after show_cmd w)))) in
  commands_of (trace (delete_commit_execute self) w)
  = [show_cmd; delete_cmd; tag_cmd] ++ (if tag_deleted then [delete_cmd] else [])
  /\ (tag_deleted = false ->
      fst (delete_commit_execute self w) = Returned CANCELLED).
Proof.
  intros Hnorm Hrepo show_cmd delete_cmd tag_cmd Hdel Hin Htag tag_deleted.
  destruct (normalized_hash_plain _ _ Hnorm) as [Hstrip Hne].
  unfold trace, delete_commit_execute.
  destruct (truthy (dc_commit_hash self)) eqn:T.
  2:{ apply truthy_false_iff in T. rewrite T in Hnorm. discriminate Hnorm. }
  cbn [negb]. rewrite Hnorm.
  unfold get_repository_path, bind. cbn beta. rewrite Hrepo.
  pose proof (show_world p h w) as Ws. rewrite Hstrip, Hne in Ws.
  destruct (show (Some p) h w) as [[[show_success commit_data] e0] w1].
  cbn [snd] in Ws. subst w1. fold show_cmd.
  pose proof (delete_commit_world p h (after show_cmd w)) as Wd.
  destruct (delete_commit p h (after show_cmd w)) as [[success err] w2].
  cbn [fst snd] in Hdel, Wd. injection Hdel as -> ->. subst w2.
  cbn [negb]. rewrite Hin. unfold delete_tag_and_retry, bind. rewrite Htag.
  fold delete_cmd.
  pose proof (delete_tag_world p tag (after delete_cmd (after show_cmd w))) as Wt.
  subst tag_deleted.
  destruct (delete_tag p tag (after delete_cmd (after show_cmd w)))
    as [[tag_success tag_error] w3].
  cbn [fst snd] in Wt |- *. subst w3. fold tag_cmd.
  destruct tag_success.
  - pose proof (delete_commit_world p h
                  (after tag_cmd (after delete_cmd (after show_cmd w)))) as Wr.
    destruct (delete_commit p h (after tag_cmd (after delete_cmd (after show_cmd w))))
      as [[success err] w4].
    cbn [snd] in Wr. subst w4. fold delete_cmd.
    split; [|discriminate].
    destruct success; run_op.
    + destruct (ops_oracle _ _); read_trace; reflexivity.
    + read_trace. reflexivity.
  - run_op. split; [read_trace; reflexivity | reflexivity].
Qed.

(** The theorem on the scenario of a commit tagged [v1]: the first deletion
    is refused because of the tag, the tag is deleted, the second deletion
    passes. *)
Lemma delete_commit_retries_after_tag_witness :
  let h := "0123456789abcdef0123456789abcdef0123456789abcdef0123456789abcdef" in
  let p := "/projects/robot" in
  commands_of
    (trace (delete_commit_execute (DeleteCommit h))
       (scripted
          [CliExited 0 ("commit " ++ h ++ nl ++ "Parent: 77aa" ++ nl)%string "";
           CliExited 1 ""
             ("cannot delete commit " ++ h ++ " - it is referenced by tag 'v1'")%string;
           CliExited 0 "" "";
           CliExited 0 "" ""]
          (RepoFound p)))
  = [Command ["show"; h] p 30;
     Command ["commit"; "--delete"; h] p 30;
     Command ["tag"; "--delete"; "v1"] p 30;
     Command ["commit"; "--delete"; h] p 30].
Proof.
  intros h p.
  exact (proj1 (delete_commit_retries_after_tag (DeleteCommit h)
                  (scripted
                     [CliExited 0 ("commit " ++ h ++ nl ++ "Parent: 77aa" ++ nl)%string "";
                      CliExited 1 ""
                        ("cannot delete commit " ++ h
                         ++ " - it is referenced by tag 'v1'")%string;
                      CliExited 0 "" "";
                      CliExited 0 "" ""]
                     (RepoFound p))
                  p h
                  ("cannot delete commit " ++ h ++ " - it is referenced by tag 'v1'")%string
                  "v1" eq_refl eq_refl eq_refl eq_refl eq_refl)).
Defined.

End DeleteCommit.

(* ===================================================================== *)
(** ** stash_operators.py : the stash before a checkout *)
(* ===================================================================== *)

Section StashAndCheckout.

Import Py ForesterCLI stash_operators.






End StashAndCheckout.

(* ===================================================================== *)
(** ** More facts about stripping and splitting *)
(* ===================================================================== *)

Section MoreStringFacts.

Import Py.

Lemma visible_non_whitespace (s : string) : visible s = true -> non_whitespace s = s.
Proof.
  unfold visible. induction s as [|c s IH]; [reflexivity|].
  cbn [all_chars non_whitespace]. intros [Hc Hs]%andb_true_iff.
  apply negb_true_iff in Hc. now rewrite Hc, IH.
Qed.

Lemma visible_strip (s : string) : visible s = true -> strip s = s.
Proof. intro H. now apply strip_without_whitespace, visible_non_whitespace. Qed.

Lemma visible_app (a b : string) :
  visible (a ++ b) = visible a && visible b.
Proof.
  unfold visible. induction a as [|c a IH]; [reflexivity|].
  cbn [append all_chars]. now rewrite IH, andb_assoc.
Qed.

Lemma rstrip_idempotent (s : string) : rstrip (rstrip s) = rstrip s.
Proof.
  induction s as [|c s IH]; [reflexivity|].
  cbn [rstrip]. destruct (isspace c && negb (truthy (rstrip s))) eqn:E; [reflexivity|].
  cbn [rstrip]. now rewrite IH, E.
Qed.

(** Stripping on the right keeps the first character of what is left. *)
Lemma rstrip_head (c : ascii) (s : string) :
  isspace c = false -> rstrip (String c s) = String c (rstrip s).
Proof. intro H. cbn [rstrip]. now rewrite H. Qed.

Lemma lstrip_fixed (s : string) :
  match s with EmptyString => True | String c _ => isspace c = false end ->
  lstrip s = s.
Proof. destruct s as [|c s]; [reflexivity|]. intro H. cbn [lstrip]. now rewrite H. Qed.

Lemma strip_idempotent (s : string) : strip (strip s) = strip s.
Proof.
  pose proof (strip_head s) as H. unfold strip at 1.
  rewrite (lstrip_fixed _ H). unfold strip. apply rstrip_idempotent.
Qed.

(** A text that ends with a visible character stops the stripping. *)
Lemma rstrip_app_visible (a b : string) :
  ends_visible a = true -> rstrip (a ++ b) = (a ++ rstrip b)%string.
Proof.
  induction a as [|c a IH]; [discriminate|].
  intro H. cbn [append rstrip].
  destruct a as [|d a].
  - cbn [append]. simpl in H. apply negb_true_iff in H. now rewrite H.
  - rewrite (IH H). cbn [append truthy negb]. now rewrite andb_false_r.
Qed.

Lemma ends_visible_app (a b : string) :
  ends_visible b = true -> ends_visible (a ++ b) = true.
Proof.
  intro H. induction a as [|c a IH]; [exact H|].
  cbn [append]. rewrite ends_visible_cons; [exact IH|].
  now apply ends_visible_truthy.
Qed.

Lemma plain_ends_visible (s : string) : plain s = true -> ends_visible s = true.
Proof.
  unfold plain, visible. intros [T V]%andb_true_iff.
  induction s as [|c s IH]; [discriminate|].
  cbn [all_chars] in V. apply andb_true_iff in V as [Hc Hs].
  destruct s as [|d s]; [exact Hc|]. now apply IH.
Qed.

(** Splitting at a separator that the first piece does not contain. *)
Lemma split_on_app (sep : ascii) (a b : string) :
  all_chars (fun c => negb (Ascii.eqb c sep)) a = true ->
  split_on sep (a ++ String sep b) = a :: split_on sep b.
Proof.
  induction a as [|c a IH]; cbn [append all_chars split_on].
  - intros _. now rewrite Ascii.eqb_refl.
  - intros [Hc Ha]%andb_true_iff. apply negb_true_iff in Hc.
    now rewrite Hc, (IH Ha).
Qed.

Lemma split_on_none (sep : ascii) (a : string) :
  all_chars (fun c => negb (Ascii.eqb c sep)) a = true ->
  split_on sep a = [a].
Proof.
  induction a as [|c a IH]; cbn [all_chars split_on]; [reflexivity|].
  intros [Hc Ha]%andb_true_iff. apply negb_true_iff in Hc.
  now rewrite Hc, (IH Ha).
Qed.

Lemma all_chars_impl (p q : ascii -> bool) (s : string) :
  (forall c, p c = true -> q c = true) ->
  all_chars p s = true -> all_chars q s = true.
Proof.
  intro H. induction s as [|c s IH]; [reflexivity|].
  cbn [all_chars]. intros [Hc Hs]%andb_true_iff. now rewrite (H c Hc), IH.
Qed.

Lemma all_chars_app (p : ascii -> bool) (a b : string) :
  all_chars p (a ++ b) = all_chars p a && all_chars p b.
Proof.
  induction a as [|c a IH]; [reflexivity|].
  cbn [append all_chars]. now rewrite IH, andb_assoc.
Qed.

(** A visible text has no line break. *)
Lemma visible_no_newline (s : string) :
  visible s = true -> all_chars (fun c => negb (Ascii.eqb c newline)) s = true.
Proof.
  apply all_chars_impl. intros c H.
  destruct (Ascii.eqb_spec c newline) as [->|]; [discriminate H | reflexivity].
Qed.

(** Nothing is removed from a visible text by deleting the occurrences of a
    two-character text that ends in a space. *)
Lemma replace_from_visible (a : ascii) (s : string) :
  visible s = true ->
  replace_from (String a (String " " EmptyString)) "" 0 s = s.
Proof.
  unfold visible. induction s as [|c s IH]; [reflexivity|].
  cbn [all_chars]. intros [Hc Hs]%andb_true_iff.
  cbn [replace_from]. rewrite prefix_cons.
  assert (P : String.prefix " " s = false).
  { destruct s as [|d s]; [reflexivity|]. rewrite prefix_cons.
    cbn [all_chars] in Hs. apply andb_true_iff in Hs as [Hd _].
    destruct (Ascii.eqb_spec " " d) as [<-|]; [discriminate Hd | reflexivity]. }
  rewrite P, andb_false_r. now rewrite (IH Hs).
Qed.

Lemma split_on_nonempty (sep : ascii) (s : string) : split_on sep s <> [].
Proof.
  destruct s as [|c s]; cbn [split_on]; [discriminate|].
  destruct (Ascii.eqb c sep); [discriminate|].
  destruct (split_on sep s); discriminate.
Qed.

(** The lines of two texts joined by a line break are the lines of the
    first, then those of the second. *)
Lemma split_on_join (sep : ascii) (a b : string) :
  split_on sep (a ++ String sep b) = split_on sep a ++ split_on sep b.
Proof.
  induction a as [|c a IH]; cbn [append split_on].
  - now rewrite Ascii.eqb_refl.
  - rewrite IH. destruct (Ascii.eqb c sep); [reflexivity|].
    pose proof (split_on_nonempty sep a) as N.
    destruct (split_on sep a) as [|x xs]; [contradiction | reflexivity].
Qed.

(** A blank text on the left goes with [lstrip], one on the right with
    [rstrip]. *)
Lemma lstrip_blank_app (pad s : string) :
  blank pad = true -> lstrip (pad ++ s) = lstrip s.
Proof.
  unfold blank. induction pad as [|c pad IH]; [reflexivity|].
  cbn [all_chars append lstrip]. intros [Hc Hp]%andb_true_iff. now rewrite Hc, IH.
Qed.

Lemma rstrip_blank (pad : string) : blank pad = true -> rstrip pad = EmptyString.
Proof.
  unfold blank. induction pad as [|c pad IH]; [reflexivity|].
  cbn [all_chars rstrip]. intros [Hc Hp]%andb_true_iff. now rewrite Hc, (IH Hp).
Qed.

(** A word with blanks around it strips to the word. *)
Lemma strip_padded (pad_left pad_right t : string) :
  blank pad_left = true -> blank pad_right = true -> plain t = true ->
  strip (pad_left ++ t ++ pad_right) = t.
Proof.
  intros Hl Hr P. unfold strip. rewrite (lstrip_blank_app _ _ Hl).
  assert (L : lstrip (t ++ pad_right) = (t ++ pad_right)%string).
  { apply lstrip_fixed. unfold plain, visible in P.
    destruct t as [|c t]; [discriminate P|]. cbn [truthy andb all_chars] in P.
    apply andb_true_iff in P as [Hc _]. cbn [append]. now apply negb_true_iff. }
  rewrite L, rstrip_app_visible by now apply plain_ends_visible.
  now rewrite (rstrip_blank _ Hr), append_empty_r.
Qed.

Lemma blank_avoids (x : ascii) (pad : string) :
  isspace x = false -> blank pad = true ->
  all_chars (fun c => negb (Ascii.eqb c x)) pad = true.
Proof.
  intro Hx. apply all_chars_impl. intros c Hc.
  destruct (Ascii.eqb_spec c x) as [->|]; [congruence | reflexivity].
Qed.

End MoreStringFacts.

(* ===================================================================== *)
(** ** What the status and branch parsers give their callers *)
(* ===================================================================== *)

Section ParserProperties.

Import Py ForesterCLI branch_operators.

Ltac split_ifs :=
  repeat match goal with
         | |- context [if ?b then _ else _] => destruct b
         end.

Lemma status_line_clean (acc : status_data * option section) (raw : string) :
  st_clean (fst (status_line acc raw)) = st_clean (fst acc) || is_clean_line raw.
Proof.
  destruct acc as [status current_section]. unfold status_line, is_clean_line.
  rewrite strip_never_indented. cbn [andb fst].
  destruct (String.eqb_spec (strip raw) clean_text) as [E|N].
  - rewrite E. cbn. apply eq_sym, orb_true_r.
  - apply String.eqb_neq in N. unfold clean_text in N. rewrite N.
    rewrite orb_false_r. split_ifs; reflexivity.
Qed.

Lemma fold_status_clean (ls : list string) (acc : status_data * option section) :
  st_clean (fst (fold_left status_line ls acc))
  = st_clean (fst acc) || existsb is_clean_line ls.
Proof.
  revert acc; induction ls as [|raw ls IH]; intro acc; cbn [fold_left existsb].
  - now rewrite orb_false_r.
  - now rewrite IH, status_line_clean, orb_assoc.
Qed.

(** X1. The change check of the switch operator comes down to one line of
    the status output: the parsed status counts as having changes exactly
    when no line of stdout is, once stripped, "Nothing to commit, working
    tree clean". *)
Theorem status_gate_reads_clean_line (output : string) :
  st_clean (_parse_status_output output) = existsb is_clean_line (lines output)
  /\ has_changes (_parse_status_output output)
     = negb (existsb is_clean_line (lines output)).
Proof.
  assert (C : st_clean (_parse_status_output output)
              = existsb is_clean_line (lines output)).
  { unfold _parse_status_output. now rewrite fold_status_clean. }
  split; [exact C|].
  destruct (parse_status_output_lists_empty output) as (Hm & Hd & Hu).
  unfold has_changes. rewrite C, Hm, Hd, Hu. cbn. now rewrite !orb_false_r.
Qed.

Lemma parsed_branch_name (output : string) (b : branch_entry) :
  In b (_parse_branch_list_output output) ->
  truthy (br_name b) = true /\ strip (br_name b) = br_name b.
Proof.
  unfold _parse_branch_list_output. intro Hb.
  apply in_flat_map in Hb as (raw & _ & Hb).
  unfold branch_line in Hb.
  destruct (negb (truthy (strip raw))); [destruct Hb|].
  destruct (truthy (strip (replace "  " "" (replace "* " "" (strip raw))))) eqn:T;
    [|destruct Hb].
  destruct Hb as [<-|[]]. cbn [br_name]. split; [exact T | apply strip_idempotent].
Qed.

(** X2. Every name in a parsed branch list is non-empty and has no
    whitespace at either end, and the list has at most one entry per line
    of stdout. *)
Theorem branch_list_names_stripped (output : string) :
  (forall b, In b (_parse_branch_list_output output) ->
             truthy (br_name b) = true /\ strip (br_name b) = br_name b)
  /\ length (_parse_branch_list_output output) <= length (lines output).
Proof.
  split; [apply parsed_branch_name|].
  unfold _parse_branch_list_output.
  induction (lines output) as [|raw ls IH]; [apply le_n|].
  cbn [flat_map]. rewrite length_app. cbn [length].
  assert (length (branch_line raw) <= 1); [|lia].
  unfold branch_line. split_ifs; cbn; lia.
Qed.

(** The theorem on the listing of one current branch. *)
Lemma branch_list_names_stripped_witness :
  truthy "main" = true /\ strip "main" = "main".
Proof.
  apply (proj1 (branch_list_names_stripped ("* main" ++ nl))
               (BranchEntry "main" true)).
  vm_compute. left. reflexivity.
Defined.

Lemma rstrip_visible (s : string) : visible s = true -> rstrip s = s.
Proof.
  unfold visible. induction s as [|c s IH]; [reflexivity|].
  cbn [all_chars]. intros [Hc Hs]%andb_true_iff. apply negb_true_iff in Hc.
  cbn [rstrip]. now rewrite Hc, (IH Hs).
Qed.

(** What the parser reads on a line of a rendered listing. *)
Lemma branch_line_rendered (name : string) (current : bool) :
  plain name = true ->
  branch_line ((if current then "* " else "  ") ++ name) = [BranchEntry name current].
Proof.
  intro P. pose proof P as P'. apply andb_true_iff in P' as [T V].
  pose proof (rstrip_visible name V) as R.
  assert (L : lstrip name = name).
  { destruct name as [|c name]; [discriminate T|].
    unfold visible in V. cbn [all_chars] in V. apply andb_true_iff in V as [Hc _].
    apply negb_true_iff in Hc. cbn [lstrip]. now rewrite Hc. }
  unfold branch_line. destruct current.
  - assert (S : strip ("* " ++ name) = ("* " ++ name)%string).
    { unfold strip. cbn [append lstrip]. change (isspace "*") with false. cbn iota.
      cbn [rstrip]. rewrite R, T. reflexivity. }
    rewrite S. cbn [append truthy negb].
    unfold startswith. rewrite !prefix_cons, prefix_empty. cbn [Ascii.eqb Bool.eqb andb].
    unfold replace. cbn [truthy].
    cbn [replace_from]. rewrite !prefix_cons, prefix_empty.
    cbn [Ascii.eqb Bool.eqb andb append String.length Nat.sub].
    rewrite (replace_from_visible "*" name V), (replace_from_visible " " name V).
    rewrite (visible_strip name V), T. reflexivity.
  - assert (S : strip ("  " ++ name) = name).
    { unfold strip. cbn [append lstrip]. change (isspace " ") with true. cbn iota.
      now rewrite L. }
    rewrite S, T. cbn [negb].
    assert (N : startswith "* " name = false).
    { unfold startswith. destruct name as [|c [|d name]]; [reflexivity| |].
      - rewrite prefix_cons. now rewrite andb_false_r.
      - rewrite !prefix_cons.
        unfold visible in V. cbn [all_chars] in V.
        apply andb_true_iff in V as [_ V]. apply andb_true_iff in V as [Hd _].
        destruct (Ascii.eqb_spec " " d) as [<-|]; [discriminate Hd|].
        now rewrite andb_false_r. }
    rewrite N. unfold replace. cbn [truthy].
    rewrite (replace_from_visible "*" name V), (replace_from_visible " " name V).
    rewrite (visible_strip name V), T. reflexivity.
Qed.

(** X3. Reading back a branch listing: when the names are words (not empty,
    no whitespace), the listing printed with [* ] in front of the current
    branches and two spaces in front of the others parses to the very list
    of names and marks it was printed from. *)
Theorem branch_list_round_trip (l : list branch_entry) :
  Forall (fun b => plain (br_name b) = true) l ->
  _parse_branch_list_output (render_branches l) = l.
Proof.
  unfold _parse_branch_list_output. induction 1 as [|b l Hb Hl IH]; [reflexivity|].
  cbn [render_branches fold_right]. unfold render_branch at 1.
  unfold lines in *. unfold nl.
  rewrite append_assoc, append_assoc. cbn [append].
  rewrite <- append_assoc. fold (render_branches l).
  rewrite split_on_app.
  - cbn [flat_map]. rewrite IH.
    destruct b as [name current]. cbn [br_name br_is_current] in *.
    now rewrite (branch_line_rendered name current Hb).
  - apply andb_true_iff in Hb as [_ V]. rewrite all_chars_app.
    rewrite (visible_no_newline _ V), andb_true_r.
    destruct (br_is_current b); reflexivity.
Qed.

(** The theorem on a listing of two branches. *)
Lemma branch_list_round_trip_witness :
  _parse_branch_list_output
    (render_branches [BranchEntry "main" true; BranchEntry "feature/rig" false])
  = [BranchEntry "main" true; BranchEntry "feature/rig" false].
Proof.
  apply branch_list_round_trip.
  repeat constructor.
Defined.

End ParserProperties.

(* ===================================================================== *)
(** ** What the operators do and never do *)
(* ===================================================================== *)

Section OperatorProperties.

Import Py ForesterCLI branch_operators history_operators stash_operators.

Lemma commands_of_app (a b : list event) :
  commands_of (a ++ b) = commands_of a ++ commands_of b.
Proof. apply flat_map_app. Qed.

Lemma ops_of_app (a b : list event) : ops_of (a ++ b) = ops_of a ++ ops_of b.
Proof. apply flat_map_app. Qed.

(** The end every operator shares: a report and a refresh after a success,
    an error report after a failure. Nothing is asked of the CLI, and
    FINISHED is returned after a success only. *)
Lemma finish_history (success : bool) (ok : string) (refresh : string)
  (failed : string) (w : World) :
  let m := if success
           then report INFO ok ;;; call_op_then refresh [] (ret (Returned FINISHED))
           else cancel_with ERROR failed in
  exists added,
    history (snd (m w)) = history w ++ added
    /\ commands_of added = []
    /\ (fst (m w) = Returned FINISHED -> success = true)
    /\ (success = false -> fst (m w) = Returned CANCELLED /\ ops_of added = []).
Proof.
  destruct success; run_op; cbn beta iota.
  - destruct (ops_oracle _ _); cbn [fst snd history record_event];
      rewrite <- ?app_assoc; eexists; repeat split; try reflexivity; discriminate.
  - cbn [fst snd history record_event]. eexists; repeat split; try reflexivity.
    discriminate.
Qed.

(** The listing [branch] returns on success is a parsed stdout. *)
Lemma branch_list_parsed (p : string) (w : World) (l : list branch_entry)
  (e : option string) :
  fst (branch (Some p) "list" None w) = (true, Some l, e) ->
  exists stdout, l = _parse_branch_list_output stdout.
Proof.
  unfold branch.
  change (negb (existsb (String.eqb "list") ["list"; "create"; "delete"])) with false.
  change ("list" =? "list")%string with true. cbn iota.
  unfold _execute_command, bind, ret. cbn beta.
  destruct (cli_oracle _ _) as [msg|code out err]; [discriminate|].
  destruct (negb (code =? 0)%Z); [discriminate|].
  cbn [fst]. intros [= <- <-]. now exists out.
Qed.

(** What the delete operator asks of the CLI, for a name and a repository. *)
Lemma delete_branch_commands (self : DF_OT_delete_branch) (w : World) (p : string) :
  truthy (strip (del_branch_name self)) = true ->
  repo_oracle w (history w) = RepoFound p ->
  commands_of (trace (delete_branch_execute self) w)
  = Command ["branch"] p 30
    :: match fst (branch (Some p) "list" None w) with
       | (success, branches, _) =>
           if success
              && listed_as_current (del_branch_name self)
                   (match branches with Some l => l | None => [] end)
           then []
           else [Command ["branch"; "-d"; strip (del_branch_name self)] p 30]
       end.
Proof.
  intros Hs Hrepo.
  assert (T : truthy (del_branch_name self) = true).
  { destruct (del_branch_name self); [discriminate Hs | reflexivity]. }
  unfold trace, delete_branch_execute. rewrite T. cbn [negb].
  unfold get_repository_path, bind at 1. cbn beta. rewrite Hrepo.
  unfold bind at 1.
  pose proof (branch_list_world p w) as W.
  destruct (branch (Some p) "list" None w) as [[[success branches] err] w1].
  cbn [fst snd] in W |- *. subst w1.
  destruct (success && listed_as_current (del_branch_name self)
                         match branches with Some l => l | None => [] end).
  - run_op. read_trace. reflexivity.
  - unfold bind at 1.
    pose proof (branch_delete_world p (del_branch_name self)
                  (after (Command ["branch"] p 30) w)) as D.
    rewrite Hs in D.
    destruct (branch (Some p) "delete" (Some (del_branch_name self))
                (after (Command ["branch"] p 30) w)) as [[[ok r] derr] w2].
    cbn [snd] in D. subst w2.
    destruct (finish_history ok
                ("Deleted branch '" ++ del_branch_name self ++ "'")%string
                "refresh_branches"
                ("Failed to delete branch: " ++ shown derr)%string
                (after (Command ["branch"; "-d"; strip (del_branch_name self)] p 30)
                   (after (Command ["branch"] p 30) w)))
      as (added & H & Hc & _).
    cbv zeta in H. rewrite H. unfold after. cbn [history record_event].
    rewrite <- !app_assoc, skipn_app_exact.
    rewrite !commands_of_app, Hc. reflexivity.
Qed.

(** X4. The guard of the delete operator compares the name as typed, the
    command is built from the stripped name: for a name with whitespace
    around it the guard never applies, whatever the listing says, and the
    CLI is asked to delete the branch of the stripped name. *)
Theorem delete_branch_padded_name_passes_guard
  (self : DF_OT_delete_branch) (w : World) (p : string) :
  repo_oracle w (history w) = RepoFound p ->
  strip (del_branch_name self) <> del_branch_name self ->
  truthy (strip (del_branch_name self)) = true ->
  commands_of (trace (delete_branch_execute self) w)
  = [Command ["branch"] p 30;
     Command ["branch"; "-d"; strip (del_branch_name self)] p 30].
Proof.
  intros Hrepo Hpad Hs. rewrite (delete_branch_commands self w p Hs Hrepo).
  destruct (fst (branch (Some p) "list" None w)) as [[success branches] e] eqn:B.
  destruct success; [|reflexivity]. cbn [andb].
  destruct branches as [l|]; [|reflexivity].
  destruct (listed_as_current (del_branch_name self) l) eqn:L; [|reflexivity].
  exfalso. apply Hpad.
  destruct (branch_list_parsed p w l e B) as [stdout ->].
  unfold listed_as_current in L. apply existsb_exists in L as (b & Hb & Hn).
  apply andb_true_iff in Hn as [Hn _]. apply String.eqb_eq in Hn. rewrite <- Hn.
  now apply (parsed_branch_name stdout b Hb).
Qed.

(** The theorem for the name [" main"] in a repository whose current
    branch is [main]. *)
Lemma delete_branch_padded_name_passes_guard_witness :
  commands_of
    (trace (delete_branch_execute (DeleteBranch " main"))
       (scripted [CliExited 0 ("* main" ++ nl ++ "  feature" ++ nl)%string "";
                  CliExited 1 "" "cannot delete current branch"]
                 (RepoFound "/projects/robot")))
  = [Command ["branch"] "/projects/robot" 30;
     Command ["branch"; "-d"; "main"] "/projects/robot" 30].
Proof.
  refine (delete_branch_padded_name_passes_guard (DeleteBranch " main")
            (scripted [CliExited 0 ("* main" ++ nl ++ "  feature" ++ nl)%string "";
                       CliExited 1 "" "cannot delete current branch"]
                      (RepoFound "/projects/robot"))
            "/projects/robot" eq_refl _ eq_refl).
  discriminate.
Defined.

(** X5. When the listing of the branches fails, the delete operator has no
    guard left: it asks the CLI to delete the branch all the same. *)
Theorem delete_branch_proceeds_when_listing_fails
  (self : DF_OT_delete_branch) (w : World) (p : string) :
  repo_oracle w (history w) = RepoFound p ->
  truthy (strip (del_branch_name self)) = true ->
  fst (fst (fst (branch (Some p) "list" None w))) = false ->
  commands_of (trace (delete_branch_execute self) w)
  = [Command ["branch"] p 30;
     Command ["branch"; "-d"; strip (del_branch_name self)] p 30].
Proof.
  intros Hrepo Hs Hfail. rewrite (delete_branch_commands self w p Hs Hrepo).
  destruct (fst (branch (Some p) "list" None w)) as [[success branches] e].
  cbn [fst] in Hfail. now subst success.
Qed.

(** The theorem in a repository whose database cannot be read. *)
Lemma delete_branch_proceeds_when_listing_fails_witness :
  commands_of
    (trace (delete_branch_execute (DeleteBranch "main"))
       (scripted [CliExited 1 "" "no such table: branches"; CliExited 0 "" ""]
                 (RepoFound "/projects/robot")))
  = [Command ["branch"] "/projects/robot" 30;
     Command ["branch"; "-d"; "main"] "/projects/robot" 30].
Proof.
  exact (delete_branch_proceeds_when_listing_fails (DeleteBranch "main")
           (scripted [CliExited 1 "" "no such table: branches"; CliExited 0 "" ""]
                     (RepoFound "/projects/robot"))
           "/projects/robot" eq_refl eq_refl eq_refl).
Defined.

(** X6. What the delete-commit operator asks of the CLI itself, before it
    hands over to the nested [refresh_history], is about the normalized hash
    only: nothing at all, as when the hash it was given is not a full hash,
    or [show] and [commit --delete] on the 64 lowercase digits, followed at
    most by one [tag --delete] and one more [commit --delete]. *)
Theorem delete_commit_sends_normalized_hash
  (self : DF_OT_delete_commit) (w : World) :
  let cmds := own_requests (delete_commit_execute self) w in
  cmds = []
  \/ exists p h,
       normalize_commit_hash (Some (dc_commit_hash self)) = Some h
       /\ let show_cmd := Command ["show"; h] p 30 in
          let delete_cmd := Command ["commit"; "--delete"; h] p 30 in
          cmds = [show_cmd; delete_cmd]
          \/ exists t,
               let tag_cmd := Command ["tag"; "--delete"; t] p 30 in
               cmds = [show_cmd; delete_cmd; tag_cmd]
               \/ cmds = [show_cmd; delete_cmd; tag_cmd; delete_cmd].
Proof.
  cbv zeta. unfold own_requests, trace, delete_commit_execute.
  destruct (truthy (dc_commit_hash self)); cbn [negb];
    [|left; run_op; read_own; reflexivity].
  destruct (normalize_commit_hash (Some (dc_commit_hash self))) as [h|] eqn:N;
    [|left; run_op; read_own; reflexivity].
  destruct (normalized_hash_plain _ _ N) as [Hstrip Hne].
  unfold get_repository_path, bind. cbn beta.
  destruct (repo_oracle w (history w)) as [p| |];
    [|left; run_op; read_own; reflexivity|left; run_op; read_own; reflexivity].
  right. exists p, h. split; [reflexivity|].
  pose proof (show_world p h w) as Ws. rewrite Hstrip, Hne in Ws.
  destruct (show (Some p) h w) as [[[show_success commit_data] e0] w1].
  cbn [snd] in Ws. subst w1.
  pose proof (delete_commit_world p h (after (Command ["show"; h] p 30) w)) as Wd.
  destruct (delete_commit p h (after (Command ["show"; h] p 30) w))
    as [[success err] w2].
  cbn [snd] in Wd. subst w2.
  destruct success; cbn [negb].
  - left. run_op. destruct (ops_oracle _ _); read_own; reflexivity.
  - destruct err as [msg|]; [|left; run_op; read_own; reflexivity].
    destruct (contains "referenced by tag" msg).
    + unfold delete_tag_and_retry, bind.
      destruct (search_tag msg) as [t|]; [|left; run_op; read_own; reflexivity].
      right. exists t.
      pose proof (delete_tag_world p t
                    (after (Command ["commit"; "--delete"; h] p 30)
                       (after (Command ["show"; h] p 30) w))) as Wt.
      destruct (delete_tag p t _) as [[tag_success tag_error] w3].
      cbn [snd] in Wt. subst w3.
      destruct tag_success; [|left; run_op; read_own; reflexivity].
      right.
      pose proof (delete_commit_world p h
                    (after (Command ["tag"; "--delete"; t] p 30)
                       (after (Command ["commit"; "--delete"; h] p 30)
                          (after (Command ["show"; h] p 30) w)))) as Wr.
      destruct (delete_commit p h _) as [[success err] w4].
      cbn [snd] in Wr. subst w4.
      destruct success; run_op; [destruct (ops_oracle _ _)|]; read_own; reflexivity.
    + left. unfold explain_failure. run_op.
      repeat match goal with
             | |- context [if ?b then _ else _] => destruct b
             | |- context [match ?x with Some _ => _ | None => _ end] => destruct x
             end; read_own; reflexivity.
Qed.

(** The saving of the stash calls no nested operator, and its first request
    to the CLI is a [stash save]. *)
Lemma save_stash_history (p : string) (w : World) :
  exists added first rest,
    history (snd (save_stash p w)) = history w ++ added
    /\ ops_of added = []
    /\ commands_of added = first :: rest
    /\ argv first = ["stash"; "save"; first_message (fst (now_strftime w))].
Proof.
  unfold save_stash, bind, now_strftime, randint. cbn [fst snd].
  set (ts1 := clock_oracle (record_event EvNow w) (history (record_event EvNow w))).
  pose proof (stash_save_world p (first_message ts1) (record_event EvNow w) eq_refl)
    as W1.
  destruct (stash p "save" (Some (first_message ts1)) (record_event EvNow w))
    as [[[success h1] e1] w2].
  cbn [snd] in W1. subst w2.
  assert (plain_end : forall r : bool * stash_data * option string,
             exists added first rest,
               history (snd (ret r (after (Command ["stash"; "save"; first_message ts1]
                                             p 30) (record_event EvNow w))))
               = history w ++ added
               /\ ops_of added = []
               /\ commands_of added = first :: rest
               /\ argv first = ["stash"; "save"; first_message ts1]).
  { intro r. unfold ret, after. cbn [snd history record_event]. rewrite <- app_assoc.
    eexists. eexists. eexists. repeat split; reflexivity. }
  destruct success; cbn [negb]; [apply plain_end|].
  destruct e1 as [msg|]; [|apply plain_end].
  destruct (is_hash_collision msg); [|apply plain_end].
  match goal with
  | |- context [stash p "save" (Some (retry_message ?t ?n)) ?w0] =>
      pose proof (stash_save_world p (retry_message t n) w0 eq_refl) as W2;
      destruct (stash p "save" (Some (retry_message t n)) w0) as [[[s2 h2] e2] w5]
  end.
  cbn [snd] in W2 |- *. subst w5.
  unfold after. cbn [history record_event]. rewrite <- !app_assoc.
  eexists. eexists. eexists. repeat split; reflexivity.
Qed.

(** The checkout that follows the stash: what it adds, and how it ends when
    the target is a commit whose hash is not a full hash. *)
Lemma checkout_target_invalid (self : DF_OT_stash_and_checkout) (w : World) :
  (target_type self =? "commit")%string = true ->
  normalize_commit_hash (Some (target_value self)) = None ->
  exists msg,
    checkout_target self w = (Returned CANCELLED, record_event (EvReport ERROR msg) w).
Proof.
  intros Ht Hn. unfold checkout_target. rewrite Ht, Hn. run_op.
  eexists. reflexivity.
Qed.

(** X7. The stash-and-checkout operator calls no checkout operator unless
    the stash has been saved: a nested operator in its trace means that a
    repository was found and that the saving of the stash succeeded. *)
Theorem stash_and_checkout_stashes_first
  (self : DF_OT_stash_and_checkout) (w : World) :
  ops_of (trace (stash_and_checkout_execute self) w) <> [] ->
  exists p, repo_oracle w (history w) = RepoFound p
            /\ fst (fst (fst (save_stash p w))) = true.
Proof.
  unfold trace, stash_and_checkout_execute, get_repository_path.
  unfold bind at 1. cbn beta.
  destruct (repo_oracle w (history w)) as [p| |];
    [|run_op; read_trace; intro H; now elim H
     |run_op; read_trace; intro H; now elim H].
  intro H. exists p. split; [reflexivity|].
  unfold bind at 1 in H.
  destruct (save_stash_history p w) as (added & first & rest & Hh & Ho & _).
  destruct (save_stash p w) as [[[success h] e] w1]. cbn [fst snd] in *.
  destruct success; [reflexivity|]. exfalso. apply H.
  cbn [negb]. run_op. cbn [snd history record_event].
  rewrite Hh, <- app_assoc, skipn_app_exact, ops_of_app, Ho. reflexivity.
Qed.

(** The theorem when the stash is saved and the branch switched. *)
Lemma stash_and_checkout_stashes_first_witness :
  let w := scripted [CliExited 0 "Saved stash 9f3c2a71" ""]
                    (RepoFound "/projects/robot") in
  exists p, repo_oracle w (history w) = RepoFound p
            /\ fst (fst (fst (save_stash p w))) = true.
Proof.
  intro w.
  apply (stash_and_checkout_stashes_first (StashAndCheckout "branch" "feature") w).
  vm_compute. discriminate.
Defined.

(** X8. The target of the checkout is looked at after the stash is saved:
    with the target type "commit" and a value that is not a full hash, the
    operator returns CANCELLED without calling any checkout operator, and
    the requests it made to the CLI are those of the saving of the stash,
    a [stash save] first of all. *)
Theorem stash_saved_before_target_checked
  (self : DF_OT_stash_and_checkout) (w : World) (p : string) :
  repo_oracle w (history w) = RepoFound p ->
  target_type self = "commit" ->
  normalize_commit_hash (Some (target_value self)) = None ->
  fst (stash_and_checkout_execute self w) = Returned CANCELLED
  /\ ops_of (trace (stash_and_checkout_execute self) w) = []
  /\ commands_of (trace (stash_and_checkout_execute self) w)
     = commands_of (trace (save_stash p) w)
  /\ exists first rest,
       commands_of (trace (save_stash p) w) = first :: rest
       /\ argv first = ["stash"; "save"; first_message (fst (now_strftime w))].
Proof.
  intros Hrepo Ht Hn.
  assert (Ht' : (target_type self =? "commit")%string = true)
    by (rewrite Ht; reflexivity).
  destruct (save_stash_history p w) as (added & first & rest & Hh & Ho & Hc & Hf).
  assert (Hs : trace (save_stash p) w = added) by (now apply trace_unfold).
  rewrite Hs.
  assert (E : exists extra,
             fst (stash_and_checkout_execute self w) = Returned CANCELLED
             /\ history (snd (stash_and_checkout_execute self w))
                = history w ++ added ++ extra
             /\ commands_of extra = [] /\ ops_of extra = []).
  { unfold stash_and_checkout_execute, get_repository_path, bind. cbn beta.
    rewrite Hrepo.
    destruct (save_stash p w) as [[[success h] e] w1]. cbn [fst snd] in Hh.
    destruct success; cbn [negb].
    - run_op.
      match goal with
      | |- context [checkout_target self ?w0] =>
          destruct (checkout_target_invalid self w0 Ht' Hn) as [msg ->]
      end.
      cbn [fst snd history record_event]. rewrite Hh, <- !app_assoc.
      eexists. repeat split; reflexivity.
    - run_op. cbn [fst snd history record_event]. rewrite Hh, <- !app_assoc.
      eexists. repeat split; reflexivity. }
  destruct E as (extra & Hout & Hhist & Hce & Hoe).
  unfold trace. rewrite Hhist, skipn_app_exact, ops_of_app, commands_of_app.
  rewrite Ho, Hc, Hce, Hoe, ?app_nil_r.
  split; [exact Hout | split; [reflexivity | split; [reflexivity|]]].
  exists first, rest. now split.
Qed.

(** The theorem for a target of eight digits. *)
Lemma stash_saved_before_target_checked_witness :
  fst (stash_and_checkout_execute (StashAndCheckout "commit" "9f3c2a71")
         (scripted [CliExited 0 "Saved stash 51d0ce44" ""]
                   (RepoFound "/projects/robot")))
  = Returned CANCELLED.
Proof.
  exact (proj1 (stash_saved_before_target_checked
                  (StashAndCheckout "commit" "9f3c2a71")
                  (scripted [CliExited 0 "Saved stash 51d0ce44" ""]
                            (RepoFound "/projects/robot"))
                  "/projects/robot" eq_refl eq_refl eq_refl)).
Defined.

(** The switch operator finishes only when the checkout was run. *)
Lemma switch_checkout_finished (self : DF_OT_switch_branch) (p : string) (w : World) :
  fst (switch_checkout self p w) = Returned FINISHED ->
  truthy (strip (sw_branch_name self)) = true.
Proof.
  destruct (truthy (strip (sw_branch_name self))) eqn:T; [reflexivity|].
  unfold switch_checkout, checkout. rewrite T. cbn [negb]. rewrite orb_true_r.
  run_op. cbn [fst]. discriminate.
Qed.

(** The requests of the switch operator: a checkout before FINISHED, and
    nothing but the checkout when the change check is skipped. *)
Lemma switch_branch_requests
  (self : DF_OT_switch_branch) (w : World) :
  (fst (switch_branch_execute self w) = Returned FINISHED ->
   exists p, repo_oracle w (history w) = RepoFound p
             /\ In (Command ["checkout"; strip (sw_branch_name self)] p 30)
                   (commands_of (trace (switch_branch_execute self) w)))
  /\ (skip_change_check self = true ->
      forall c, In c (commands_of (trace (switch_branch_execute self) w)) ->
                argv c = ["checkout"; strip (sw_branch_name self)]).
Proof.
  assert (tail : forall p w1 added1,
             history w1 = history w ++ added1 ->
             exists added,
               history (snd (switch_checkout self p w1)) = history w ++ added1 ++ added
               /\ commands_of added
                  = if truthy (strip (sw_branch_name self))
                    then [Command ["checkout"; strip (sw_branch_name self)] p 30]
                    else []).
  { intros p w1 added1 H1.
    destruct (switch_checkout_history self p w1) as (added & Ha & Hc).
    exists added. split; [|exact Hc]. now rewrite Ha, H1, <- app_assoc. }
  assert (go : forall p w1 added1,
             repo_oracle w (history w) = RepoFound p ->
             history w1 = history w ++ added1 ->
             (commands_of added1 = [] \/ skip_change_check self = false) ->
             (fst (switch_checkout self p w1) = Returned FINISHED ->
              exists p0, repo_oracle w (history w) = RepoFound p0
                /\ In (Command ["checkout"; strip (sw_branch_name self)] p0 30)
                      (commands_of
                         (skipn (length (history w))
                            (history (snd (switch_checkout self p w1))))))
             /\ (skip_change_check self = true ->
                 forall c,
                   In c (commands_of
                           (skipn (length (history w))
                              (history (snd (switch_checkout self p w1))))) ->
                   argv c = ["checkout"; strip (sw_branch_name self)])).
  { intros p w1 added1 Hrepo H1 Hpre.
    destruct (tail p w1 added1 H1) as (added & Ha & Hc).
    rewrite Ha, skipn_app_exact, commands_of_app, Hc. split.
    - intro F. exists p. split; [exact Hrepo|].
      rewrite (switch_checkout_finished self p w1 F). apply in_or_app. right. now left.
    - intros Hskip c Hin. destruct Hpre as [Hpre | Hpre]; [|congruence].
      rewrite Hpre in Hin. cbn [app] in Hin.
      destruct (truthy (strip (sw_branch_name self))); [|destruct Hin].
      destruct Hin as [<-|[]]. reflexivity. }
  assert (stop : forall lvl msg w1 added1,
             history w1 = history w ++ added1 ->
             commands_of added1 = [] \/ skip_change_check self = false ->
             (fst (cancel_with lvl msg w1) = Returned FINISHED ->
              exists p0, repo_oracle w (history w) = RepoFound p0
                /\ In (Command ["checkout"; strip (sw_branch_name self)] p0 30)
                      (commands_of
                         (skipn (length (history w))
                            (history (snd (cancel_with lvl msg w1))))))
             /\ (skip_change_check self = true ->
                 forall c,
                   In c (commands_of
                           (skipn (length (history w))
                              (history (snd (cancel_with lvl msg w1))))) ->
                   argv c = ["checkout"; strip (sw_branch_name self)])).
  { intros lvl msg w1 added1 H1 Hpre. run_op. cbn [fst snd history record_event].
    split; [discriminate|]. intros Hskip c.
    rewrite H1, <- app_assoc, skipn_app_exact, commands_of_app.
    destruct Hpre as [-> | Hpre]; [|congruence]. intros []. }
  unfold trace, switch_branch_execute.
  destruct (truthy (sw_branch_name self)); cbn [negb];
    [|apply (stop _ _ w []); [now rewrite app_nil_r | now left]].
  unfold get_repository_path, bind. cbn beta.
  destruct (repo_oracle w (history w)) as [p| |] eqn:Hrepo;
    [|apply (stop _ _ w []); [now rewrite app_nil_r | now left]
     |apply (stop _ _ w []); [now rewrite app_nil_r | now left]].
  destruct (skip_change_check self) eqn:Hskip; cbn [negb].
  - apply (go p w []); [reflexivity | now rewrite app_nil_r | now left].
  - pose proof (status_world p w) as W.
    destruct (status p w) as [[[success status_data] err] w1].
    cbn [snd] in W. subst w1.
    assert (H1 : history (after (Command ["status"] p 30) w)
                 = history w ++ [EvExec (Command ["status"] p 30)]) by reflexivity.
    destruct status_data as [sd|];
      [|apply (go p _ _ eq_refl H1); now right].
    destruct (success && has_changes sd);
      [apply (stop _ _ _ _ H1) | apply (go p _ _ eq_refl H1)]; now right.
Qed.

(** X9. The switch operator returns FINISHED only after it has asked the CLI
    for the checkout of the stripped name, in the repository found; and
    with [skip_change_check] set, that checkout is all it asks of the CLI
    itself before it hands over to the nested [refresh_branches]: its own
    code does not ask for the status then. *)
Theorem switch_finished_only_after_checkout
  (self : DF_OT_switch_branch) (w : World) :
  (fst (switch_branch_execute self w) = Returned FINISHED ->
   exists p, repo_oracle w (history w) = RepoFound p
             /\ In (Command ["checkout"; strip (sw_branch_name self)] p 30)
                   (commands_of (trace (switch_branch_execute self) w)))
  /\ (skip_change_check self = true ->
      forall c, In c (own_requests (switch_branch_execute self) w) ->
                argv c = ["checkout"; strip (sw_branch_name self)]).
Proof.
  destruct (switch_branch_requests self w) as [F S]. split; [exact F|].
  intros Hskip c Hin. apply (S Hskip). unfold own_requests in Hin.
  destruct (before_nested_prefix (trace (switch_branch_execute self) w)) as [rest ->].
  apply in_or_app. now left.
Qed.

(** The theorem on a switch that passes. *)
Lemma switch_finished_only_after_checkout_witness :
  let w := scripted [CliExited 0 "Nothing to commit, working tree clean" "";
                     CliExited 0 "" ""]
                    (RepoFound "/projects/robot") in
  exists p, repo_oracle w (history w) = RepoFound p
            /\ In (Command ["checkout"; "feature"] p 30)
                  (commands_of (trace (switch_branch_execute
                                         (SwitchBranch " feature " false)) w)).
Proof.
  intro w.
  exact (proj1 (switch_finished_only_after_checkout (SwitchBranch " feature " false) w)
           eq_refl).
Defined.

Lemma branch_create_world p name w :
  snd (branch (Some p) "create" (Some name) w)
  = if truthy (strip name)
    then after (Command ["branch"; strip name] p 30) w else w.
Proof.
  unfold branch.
  change (negb (existsb (String.eqb "create") ["list"; "create"; "delete"])) with false.
  change ("create" =? "list")%string with false.
  change ("create" =? "create")%string with true. cbn iota. cbn [app].
  assert (E : truthy (strip name) = true -> truthy name = true).
  { destruct name; [discriminate | reflexivity]. }
  destruct (truthy (strip name)).
  - rewrite (E eq_refl). cbn [negb orb].
    unfold _execute_command, bind, ret; cbn beta;
      repeat match goal with
             | |- context [match ?x with _ => _ end] => destruct x
             end; reflexivity.
  - rewrite orb_true_r. reflexivity.
Qed.

Lemma stash_drop_world p h w :
  truthy h = true ->
  snd (stash p "drop" (Some h) w) = after (Command ["stash"; "drop"; h] p 30) w.
Proof.
  intro T. unfold stash. rewrite T.
  change ("drop" =? "save")%string with false.
  change ("drop" =? "list")%string with false.
  change (existsb (String.eqb "drop") ["pop"; "apply"; "drop"]) with true.
  cbn iota. cbn [app].
  unfold _execute_command, bind, ret; cbn beta;
    repeat match goal with
           | |- context [match ?x with _ => _ end] => destruct x
           end; reflexivity.
Qed.

(** The requests of the create operator. *)
Lemma create_branch_requests
  (self : DF_OT_create_branch) (w : World) :
  let cmds := commands_of (trace (create_branch_execute self) w) in
  (truthy (strip (cr_branch_name self)) = false ->
   cmds = [] /\ fst (create_branch_execute self w) = Returned CANCELLED)
  /\ (cmds = []
      \/ exists p, cmds = [Command ["branch"; strip (cr_branch_name self)] p 30]
                   /\ truthy (strip (cr_branch_name self)) = true).
Proof.
  cbv zeta. unfold trace, create_branch_execute.
  destruct (truthy (strip (cr_branch_name self))) eqn:T.
  - split; [discriminate|].
    assert (N : truthy (cr_branch_name self) = true).
    { destruct (cr_branch_name self); [discriminate T | reflexivity]. }
    rewrite N. cbn [negb orb].
    unfold get_repository_path, bind. cbn beta.
    destruct (repo_oracle w (history w)) as [p| |];
      [|left; run_op; read_trace; reflexivity|left; run_op; read_trace; reflexivity].
    right. exists p. split; [|reflexivity].
    pose proof (branch_create_world p (strip (cr_branch_name self)) w) as W.
    rewrite strip_idempotent, T in W.
    destruct (branch (Some p) "create" (Some (strip (cr_branch_name self))) w)
      as [[[ok r] err] w1].
    cbn [snd] in W |- *. subst w1.
    destruct (finish_history ok
                ("Created branch '" ++ cr_branch_name self ++ "'")%string
                "refresh_branches"
                ("Failed to create branch: " ++ shown err)%string
                (after (Command ["branch"; strip (cr_branch_name self)] p 30) w))
      as (added & H & Hc & _).
    cbv zeta in H. unfold bind in H. rewrite H. unfold after. cbn [history record_event].
    rewrite <- !app_assoc, skipn_app_exact, !commands_of_app, Hc. reflexivity.
  - rewrite orb_true_r. run_op.
    split; [intros _; split; [read_trace; reflexivity | reflexivity]
           | left; read_trace; reflexivity].
Qed.

(** What an operator asks itself when the whole of its trace holds one
    request at most. *)
Lemma own_requests_at_most {A} (m : M A) (w : World) (c : command) :
  (commands_of (trace m w) = [] -> own_requests m w = [])
  /\ (commands_of (trace m w) = [c] ->
      own_requests m w = [] \/ own_requests m w = [c]).
Proof.
  unfold own_requests.
  destruct (before_nested_prefix (trace m w)) as [rest E]. rewrite E. split.
  - now intros [-> _]%app_eq_nil.
  - destruct (commands_of (before_nested (trace m w))) as [|x [|y l]];
      [now left | | discriminate].
    intros [= -> _]. now right.
Qed.

(** X10. The create operator never asks the CLI for a branch without a
    name: for a blank name it cancels and asks nothing, and otherwise what
    it asks itself, before it hands over to the nested [refresh_branches],
    is nothing or the one request [branch] with the name stripped of the
    whitespace around it. *)
Theorem create_branch_sends_stripped_name
  (self : DF_OT_create_branch) (w : World) :
  let cmds := own_requests (create_branch_execute self) w in
  (truthy (strip (cr_branch_name self)) = false ->
   cmds = [] /\ fst (create_branch_execute self w) = Returned CANCELLED)
  /\ (cmds = []
      \/ exists p, cmds = [Command ["branch"; strip (cr_branch_name self)] p 30]
                   /\ truthy (strip (cr_branch_name self)) = true).
Proof.
  cbv zeta. destruct (create_branch_requests self w) as [B R]. cbv zeta in B, R.
  pose proof (fun c => own_requests_at_most (create_branch_execute self) w c) as O.
  split.
  - intro T. destruct (B T) as [E C]. split; [|exact C].
    now apply (proj1 (O (Command [] "" 0))).
  - destruct R as [E | (p & E & T)].
    + left. now apply (proj1 (O (Command [] "" 0))).
    + destruct (proj2 (O _) E) as [E' | E']; [now left|].
      right. exists p. now split.
Qed.

(** The theorem for a name of two spaces. *)
Lemma create_branch_sends_stripped_name_witness :
  own_requests (create_branch_execute (CreateBranch "  "))
               (scripted [CliExited 0 "" ""] (RepoFound "/projects/robot"))
  = [].
Proof.
  exact (proj1 (proj1 (create_branch_sends_stripped_name (CreateBranch "  ")
                         (scripted [CliExited 0 "" ""] (RepoFound "/projects/robot")))
                  eq_refl)).
Defined.

(** The requests of the save-stash operator. *)
Lemma save_stash_requests (self : DF_OT_save_stash) (w : World) :
  let cmds := commands_of (trace (save_stash_execute self) w) in
  let message := if truthy (strip (ss_message self))
                 then strip (ss_message self) else "Stash" in
  truthy message = true
  /\ (cmds = [] \/ exists p, cmds = [Command ["stash"; "save"; message] p 30]).
Proof.
  cbv zeta.
  assert (T : truthy (if truthy (strip (ss_message self))
                      then strip (ss_message self) else "Stash") = true).
  { destruct (truthy (strip (ss_message self))) eqn:E; [exact E | reflexivity]. }
  split; [exact T|].
  unfold trace, save_stash_execute, get_repository_path, bind. cbn beta.
  destruct (repo_oracle w (history w)) as [p| |];
    [|left; run_op; read_trace; reflexivity|left; run_op; read_trace; reflexivity].
  right. exists p.
  pose proof (stash_save_world p _ w T) as W.
  destruct (stash p "save" _ w) as [[[ok h] err] w1].
  cbn [snd] in W |- *. subst w1.
  destruct (finish_history ok ("Saved stash: " ++ shown_stash h)%string
              "refresh_stashes" ("Failed to save stash: " ++ shown err)%string
              (after (Command ["stash"; "save";
                               if truthy (strip (ss_message self))
                               then strip (ss_message self) else "Stash"] p 30) w))
    as (added & H & Hc & _).
  cbv zeta in H. unfold bind in H. rewrite H. unfold after.
  cbn [history record_event].
  rewrite <- !app_assoc, skipn_app_exact, !commands_of_app, Hc. reflexivity.
Qed.

(** X11. The save-stash operator always gives the stash a message: what it
    asks of the CLI itself, before it hands over to the nested
    [refresh_stashes], is nothing or the one request [stash save] followed
    by the stripped message, or by "Stash" when the message is blank. *)
Theorem save_stash_always_has_message (self : DF_OT_save_stash) (w : World) :
  let cmds := own_requests (save_stash_execute self) w in
  let message := if truthy (strip (ss_message self))
                 then strip (ss_message self) else "Stash" in
  truthy message = true
  /\ (cmds = [] \/ exists p, cmds = [Command ["stash"; "save"; message] p 30]).
Proof.
  cbv zeta. destruct (save_stash_requests self w) as [T R]. cbv zeta in T, R.
  split; [exact T|].
  destruct R as [E | (p & E)].
  - left. now apply (proj1 (own_requests_at_most _ w (Command [] "" 0))).
  - destruct (proj2 (own_requests_at_most _ w _) E) as [E' | E']; [now left|].
    right. now exists p.
Qed.

(** The requests of the drop operator. *)
Lemma stash_drop_requests (self : DF_OT_stash_drop) (w : World) :
  let cmds := commands_of (trace (stash_drop_execute self) w) in
  cmds = []
  \/ exists p, cmds = [Command ["stash"; "drop"; sd_stash_hash self] p 30]
               /\ truthy (sd_stash_hash self) = true.
Proof.
  cbv zeta.
  unfold trace, stash_drop_execute, get_repository_path, bind. cbn beta.
  destruct (repo_oracle w (history w)) as [p| |];
    [|left; run_op; read_trace; reflexivity|left; run_op; read_trace; reflexivity].
  destruct (truthy (sd_stash_hash self)) eqn:T; cbn [negb];
    [|left; run_op; read_trace; reflexivity].
  right. exists p. split; [|reflexivity].
  pose proof (stash_drop_world p _ w T) as W.
  destruct (stash p "drop" _ w) as [[[ok h] err] w1].
  cbn [snd] in W |- *. subst w1.
  destruct (finish_history ok
              ("Dropped stash: " ++ take 16 (sd_stash_hash self) ++ "...")%string
              "refresh_stashes" ("Failed to drop stash: " ++ shown err)%string
              (after (Command ["stash"; "drop"; sd_stash_hash self] p 30) w))
    as (added & H & Hc & _).
  cbv zeta in H. unfold bind in H. rewrite H. unfold after. cbn [history record_event].
  rewrite <- !app_assoc, skipn_app_exact, !commands_of_app, Hc. reflexivity.
Qed.

(** X12. The drop operator never asks the CLI to drop a stash it does not
    name: what it asks itself, before it hands over to the nested
    [refresh_stashes], is nothing, or the one request [stash drop] followed
    by the hash, and then the hash is not empty. *)
Theorem stash_drop_names_the_stash (self : DF_OT_stash_drop) (w : World) :
  let cmds := own_requests (stash_drop_execute self) w in
  cmds = []
  \/ exists p, cmds = [Command ["stash"; "drop"; sd_stash_hash self] p 30]
               /\ truthy (sd_stash_hash self) = true.
Proof.
  cbv zeta. destruct (stash_drop_requests self w) as [E | (p & E & T)].
  - left. now apply (proj1 (own_requests_at_most _ w (Command [] "" 0))).
  - destruct (proj2 (own_requests_at_most _ w _) E) as [E' | E']; [now left|].
    right. exists p. now split.
Qed.

End OperatorProperties.

(* ===================================================================== *)
(** ** The limit of digits of [str] and [int] *)
(* ===================================================================== *)

Section DigitLimit.

Import Py.

Lemma count_digits_uint (u : Decimal.uint) :
  count_digits (NilEmpty.string_of_uint u) = Decimal.nb_digits u.
Proof.
  induction u; [reflexivity|..];
    cbn [NilEmpty.string_of_uint count_digits Decimal.nb_digits];
    rewrite IHu; reflexivity.
Qed.

Lemma of_uint_acc_bound (l : Decimal.uint) (acc : positive) :
  (Z.pos acc * 10 ^ Z.of_nat (Decimal.nb_digits l)
   <= Z.pos (Pos.of_uint_acc l acc))%Z.
Proof.
  revert acc. induction l; intro acc; cbn [Pos.of_uint_acc Decimal.nb_digits];
    [cbn; lia | ..];
    rewrite Nat2Z.inj_succ, Z.pow_succ_r by lia;
    (etransitivity; [|apply IHl]);
    assert (0 < 10 ^ Z.of_nat (Decimal.nb_digits l))%Z
      by (apply Z.pow_pos_nonneg; lia);
    nia.
Qed.

(** A positive number below [10 ^ k] is written with [k] digits at most. *)
Lemma to_uint_size (p : positive) (k : nat) :
  (Z.pos p < 10 ^ Z.of_nat k)%Z -> Decimal.nb_digits (Pos.to_uint p) <= k.
Proof.
  intro H.
  pose proof (DecimalPos.Unsigned.of_to p) as E.
  pose proof (DecimalPos.Unsigned.to_of (Pos.to_uint p)) as U. rewrite E in U.
  cbn [N.to_uint] in U.
  pose proof (DecimalPos.Unsigned.to_uint_nonnil p) as NN.
  destruct (Pos.to_uint p) as [|l|l|l|l|l|l|l|l|l|l] eqn:D; [congruence| |..].
  1:{ exfalso. unfold Decimal.unorm in U. cbn [Decimal.nzhead] in U.
      pose proof (DecimalFacts.nb_digits_nzhead l) as B.
      pose proof (DecimalPos.Unsigned.to_uint_nonzero p) as NZ. rewrite D in NZ.
      destruct (Decimal.nzhead l) eqn:Z0; [congruence|..];
        rewrite <- U in B; cbn [Decimal.nb_digits] in B; lia. }
  all: cbn [Pos.of_uint] in E; injection E as E;
    match goal with
    | E : Pos.of_uint_acc ?u ?a = _ |- _ =>
        pose proof (of_uint_acc_bound u a) as B;
        rewrite E in B; cbn [Decimal.nb_digits];
        destruct (Nat.le_gt_cases (S (Decimal.nb_digits u)) k) as [|G]; [assumption|];
        exfalso;
        assert (10 ^ Z.of_nat k <= 10 ^ Z.of_nat (Decimal.nb_digits u))%Z
          by (apply Z.pow_le_mono_r; lia);
        assert (0 < 10 ^ Z.of_nat (Decimal.nb_digits u))%Z
          by (apply Z.pow_pos_nonneg; lia);
        nia
    end.
Qed.

Lemma decimal_size (n : Z) (k : nat) :
  1 <= k -> (Z.abs n < 10 ^ Z.of_nat k)%Z -> count_digits (decimal n) <= k.
Proof.
  intros K H. unfold decimal.
  destruct n as [|p|p]; cbn [Z.to_int NilZero.string_of_int Z.abs] in *.
  - exact K.
  - pose proof (DecimalPos.Unsigned.to_uint_nonnil p) as NN.
    pose proof (count_digits_uint (Pos.to_uint p)) as C.
    pose proof (to_uint_size p k H) as B.
    destruct (Pos.to_uint p); [congruence|..];
      cbn [NilZero.string_of_uint]; rewrite C; exact B.
  - pose proof (DecimalPos.Unsigned.to_uint_nonnil p) as NN.
    pose proof (count_digits_uint (Pos.to_uint p)) as C.
    pose proof (to_uint_size p k H) as B.
    change (count_digits (String "-" ?x)) with (count_digits x).
    destruct (Pos.to_uint p); [congruence|..];
      cbn [NilZero.string_of_uint]; rewrite C; exact B.
Qed.

(** The integers within the limit of [str] and [int] include every integer
    between [-10 ^ 4300] and [10 ^ 4300]. *)
Lemma within_str_limit_bound (n : Z) :
  (Z.abs n < 10 ^ 4300)%Z -> within_str_limit n = true.
Proof.
  intro H. unfold within_str_limit, INT_MAX_STR_DIGITS.
  apply Nat.leb_le, decimal_size; [apply Nat.leb_le; reflexivity|].
  replace (Z.of_nat 4300) with 4300%Z by reflexivity. exact H.
Qed.

End DigitLimit.

(* ===================================================================== *)
(** ** Integers as text: [str], [int] and the report of [gc] *)
(* ===================================================================== *)

Section IntegerText.

Import Py ForesterCLI gc_operators.

Local Open Scope Z_scope.

(** The digits of [u], read from the left, continue the number [acc]. *)
Lemma int_digits_of_uint (u : Decimal.uint) (acc : Z) :
  int_digits acc true (NilEmpty.string_of_uint u)
  = Some (acc * 10 ^ Z.of_N (DecimalPos.Unsigned.usize u)
          + Z.of_N (DecimalPos.Unsigned.of_lu (Decimal.rev u))).
Proof.
  revert acc. induction u; intro acc;
    [cbn; f_equal; lia | ..];
    cbn [NilEmpty.string_of_uint int_digits];
    (match goal with
     | |- context [digit_value ?c] =>
         let v := eval vm_compute in (digit_value c) in
         change (digit_value c) with v
     end);
    cbn iota; rewrite IHu; f_equal;
    (match goal with
     | |- context [Decimal.rev (?c u)] =>
         change (Decimal.rev (c u)) with (Decimal.revapp u (c Decimal.Nil));
         rewrite (DecimalPos.Unsigned.of_lu_revapp u (c Decimal.Nil))
     end);
    cbn [DecimalPos.Unsigned.usize DecimalPos.Unsigned.of_lu];
    rewrite N2Z.inj_succ, Z.pow_succ_r by apply N2Z.is_nonneg;
    rewrite N2Z.inj_add, N2Z.inj_mul, N2Z.inj_pow;
    cbn [Z.of_N N.mul N.add Pos.mul Pos.add]; ring.
Qed.

Lemma int_digits_first (u : Decimal.uint) :
  u <> Decimal.Nil ->
  int_digits 0 false (NilEmpty.string_of_uint u)
  = int_digits 0 true (NilEmpty.string_of_uint u).
Proof. destruct u; [congruence | ..]; intros _; reflexivity. Qed.

Lemma int_digits_of_pos (p : positive) :
  int_digits 0 false (NilEmpty.string_of_uint (Pos.to_uint p)) = Some (Z.pos p).
Proof.
  rewrite int_digits_first by apply DecimalPos.Unsigned.to_uint_nonnil.
  rewrite int_digits_of_uint, <- DecimalPos.Unsigned.of_uint_alt,
    DecimalPos.Unsigned.of_to.
  reflexivity.
Qed.

Lemma uint_text_digits (u : Decimal.uint) :
  all_chars is_digit (NilEmpty.string_of_uint u) = true.
Proof. induction u; [reflexivity | ..]; cbn [NilEmpty.string_of_uint all_chars]; now rewrite IHu. Qed.

(** The text of a positive number is some digits, the first one included. *)
Lemma pos_text (p : positive) :
  exists d s, NilZero.string_of_uint (Pos.to_uint p) = String d s
              /\ NilEmpty.string_of_uint (Pos.to_uint p) = String d s
              /\ is_digit d = true /\ all_chars is_digit s = true.
Proof.
  pose proof (DecimalPos.Unsigned.to_uint_nonnil p) as N.
  pose proof (uint_text_digits (Pos.to_uint p)) as D.
  destruct (Pos.to_uint p); [congruence | ..];
    cbn [NilZero.string_of_uint NilEmpty.string_of_uint] in *;
    cbn [all_chars] in D; apply andb_true_iff in D as [Hd Hs];
    eexists; eexists; repeat split; eassumption.
Qed.

Lemma digit_is_int_char (c : ascii) : is_digit c = true -> int_char c = true.
Proof.
  destruct c as [[|] [|] [|] [|] [|] [|] [|] [|]]; vm_compute;
    try discriminate; reflexivity.
Qed.

Lemma int_char_visible (c : ascii) : int_char c = true -> negb (isspace c) = true.
Proof.
  destruct c as [[|] [|] [|] [|] [|] [|] [|] [|]]; vm_compute;
    try discriminate; reflexivity.
Qed.

(** The text of an integer is made of digits after a possible minus sign,
    and is not empty. *)
Lemma decimal_chars (n : Z) :
  all_chars int_char (decimal n) = true /\ truthy (decimal n) = true.
Proof.
  unfold decimal. destruct n as [|p|p]; cbn [Z.to_int NilZero.string_of_int].
  - split; reflexivity.
  - destruct (pos_text p) as (d & s & -> & _ & Hd & Hs). cbn [all_chars truthy].
    rewrite (digit_is_int_char d Hd). split; [|reflexivity].
    apply (all_chars_impl _ _ _ digit_is_int_char Hs).
  - destruct (pos_text p) as (d & s & -> & _ & Hd & Hs). cbn [all_chars truthy].
    rewrite (digit_is_int_char d Hd). split; [|reflexivity].
    apply (all_chars_impl _ _ _ digit_is_int_char Hs).
Qed.

Lemma decimal_visible (n : Z) : visible (decimal n) = true.
Proof.
  unfold visible.
  apply (all_chars_impl _ _ _ int_char_visible (proj1 (decimal_chars n))).
Qed.

Lemma decimal_plain (n : Z) : plain (decimal n) = true.
Proof. unfold plain. now rewrite (proj2 (decimal_chars n)), decimal_visible. Qed.

(** [int] skips no more than [str.strip] removes. *)
Lemma int_space_isspace (c : ascii) : isspace c = false -> int_space c = false.
Proof.
  destruct c as [[|] [|] [|] [|] [|] [|] [|] [|]]; vm_compute;
    try discriminate; reflexivity.
Qed.

Lemma int_strip_visible (s : string) :
  visible s = true -> int_rstrip (int_lstrip s) = s.
Proof.
  unfold visible. intro V.
  assert (R : int_rstrip s = s).
  { induction s as [|c s IH]; [reflexivity|].
    cbn [all_chars] in V. apply andb_true_iff in V as [Hc Hs].
    apply negb_true_iff in Hc. cbn [int_rstrip].
    now rewrite (IH Hs), (int_space_isspace c Hc). }
  destruct s as [|c s]; [reflexivity|].
  cbn [all_chars] in V. apply andb_true_iff in V as [Hc _].
  apply negb_true_iff in Hc. cbn [int_lstrip].
  now rewrite (int_space_isspace c Hc).
Qed.

(** [int] reads the decimal text of a number back, within the limit of
    digits, and raises past it. *)
Lemma int_round_trip (n : Z) :
  int_of_str (decimal n) = if within_str_limit n then Some n else None.
Proof.
  unfold int_of_str. rewrite (int_strip_visible _ (decimal_visible n)).
  unfold within_str_limit, decimal.
  destruct n as [|p|p]; cbn [Z.to_int NilZero.string_of_int].
  - reflexivity.
  - pose proof (int_digits_of_pos p) as V.
    destruct (pos_text p) as (d & s & -> & E & Hd & _). rewrite E in V.
    assert (B : int_body (String d s)
                = if (count_digits (String d s) <=? INT_MAX_STR_DIGITS)%nat
                  then Some (Z.pos p) else None).
    { unfold int_body. rewrite Nat.ltb_antisym, V.
      now destruct (count_digits (String d s) <=? INT_MAX_STR_DIGITS)%nat. }
    destruct d as [[|] [|] [|] [|] [|] [|] [|] [|]]; try discriminate Hd; exact B.
  - pose proof (int_digits_of_pos p) as V.
    destruct (pos_text p) as (d & s & -> & E & Hd & _). rewrite E in V.
    change (count_digits (String "-" (String d s))) with (count_digits (String d s)).
    unfold int_body. rewrite Nat.ltb_antisym, V.
    now destruct (count_digits (String d s) <=? INT_MAX_STR_DIGITS)%nat.
Qed.

Local Close Scope Z_scope.

Lemma prefix_app (p s : string) : String.prefix p (p ++ s) = true.
Proof.
  induction p as [|c p IH]; [apply prefix_empty|].
  cbn [append]. now rewrite prefix_cons, Ascii.eqb_refl, IH.
Qed.

Lemma contains_prefix (p s : string) : String.prefix p s = true -> contains p s = true.
Proof. intro H. destruct s; cbn [contains]; now rewrite H. Qed.

(** A text whose first character does not occur in [s] is not in [s]. *)
Lemma contains_absent_first (a : ascii) (p s : string) :
  all_chars (fun c => negb (Ascii.eqb c a)) s = true ->
  contains (String a p) s = false.
Proof.
  induction s as [|c s IH]; [reflexivity|].
  cbn [all_chars contains]. intros [Hc Hs]%andb_true_iff.
  rewrite prefix_cons, (IH Hs). apply negb_true_iff in Hc.
  rewrite Ascii.eqb_sym, Hc. reflexivity.
Qed.

Lemma rstrip_ends_visible_id (t : string) : ends_visible t = true -> rstrip t = t.
Proof.
  induction t as [|c t IH]; [discriminate|].
  intro H. cbn [rstrip]. destruct t as [|d t].
  - simpl in H. apply negb_true_iff in H. cbn. now rewrite H.
  - rewrite (IH H). cbn [truthy negb]. now rewrite andb_false_r.
Qed.

(** No character of the text of an integer is a character that is not one
    of "-0123456789". *)
Lemma int_char_avoids (x : ascii) (s : string) :
  int_char x = false -> all_chars int_char s = true ->
  all_chars (fun c => negb (Ascii.eqb c x)) s = true.
Proof.
  intro Hx. apply all_chars_impl. intros c Hc.
  destruct (Ascii.eqb_spec c x) as [->|]; [congruence | reflexivity].
Qed.

(** What the parser reads after the last colon of a line: the number, with
    blanks around it, when it is within the limit of digits; otherwise the
    count is left as it was. *)
Lemma count_read (label pad_left pad_right : string) (n old : Z) :
  blank pad_left = true -> blank pad_right = true ->
  count_after_colon (label ++ String ":" (pad_left ++ decimal n ++ pad_right)) old
  = if within_str_limit n then n else old.
Proof.
  intros Hl Hr. unfold count_after_colon.
  destruct (decimal_chars n) as [Hc T].
  rewrite split_on_join, (split_on_none ":" (pad_left ++ decimal n ++ pad_right)).
  2:{ rewrite !all_chars_app, (blank_avoids ":" _ eq_refl Hl),
        (blank_avoids ":" _ eq_refl Hr), (int_char_avoids ":" _ eq_refl Hc).
      reflexivity. }
  rewrite last_last, (strip_padded _ _ _ Hl Hr (decimal_plain n)).
  rewrite int_round_trip.
  now destruct (within_str_limit n).
Qed.

(** X13. How [_parse_gc_output] reads a count: whatever comes before the
    last colon of the line and whatever blanks surround the number after it,
    the count is that number when it has no more digits than the limit of
    [int] (4300), and is left as it was when it has more. *)
Theorem count_after_colon_reads_number
  (label pad_left pad_right : string) (n old : Z) :
  blank pad_left = true -> blank pad_right = true ->
  count_after_colon (label ++ String ":" (pad_left ++ decimal n ++ pad_right)) old
  = if within_str_limit n then n else old.
Proof. apply count_read. Qed.

(** The theorem on a line with a second colon in front and blanks around
    the number. *)
Lemma count_after_colon_reads_number_witness :
  count_after_colon ("gc: Commits deleted" ++ String ":" ("  " ++ decimal 42 ++ " "))
                    0
  = 42%Z.
Proof.
  exact (count_after_colon_reads_number "gc: Commits deleted" "  " " " 42 0
           eq_refl eq_refl).
Defined.

(** A line of the report: a label, a colon, a space, a count. *)
Lemma labelled_count (label : string) (n old : Z) :
  count_after_colon (count_line label n) old
  = if within_str_limit n then n else old.
Proof.
  unfold count_line.
  rewrite <- (append_empty_r (decimal n)).
  apply (count_read label " " "" n old); reflexivity.
Qed.

Lemma count_line_stripped (label : string) (n : Z) :
  match label with EmptyString => False | String c _ => isspace c = false end ->
  strip (count_line label n) = count_line label n.
Proof.
  intro H. unfold strip, count_line. rewrite lstrip_fixed.
  - apply rstrip_ends_visible_id.
    change (String ":" (String " " (decimal n)))
      with (": " ++ decimal n)%string.
    rewrite <- append_assoc.
    apply ends_visible_app, plain_ends_visible, decimal_plain.
  - destruct label as [|c label]; [destruct H | exact H].
Qed.

Ltac scan_contains :=
  unfold count_line;
  repeat (cbn [contains append]; rewrite ?prefix_cons;
          cbn [Ascii.eqb Bool.eqb andb orb]).

Ltac found_label :=
  apply contains_prefix; unfold count_line; cbn [append];
  repeat (rewrite prefix_cons; cbn [Ascii.eqb Bool.eqb andb]);
  apply prefix_empty.

Lemma gc_line_commits (stats : gc_stats) (n : Z) :
  gc_line stats (count_line "Commits deleted" n)
  = GcStats (if within_str_limit n then n else commits_deleted stats)
            (trees_deleted stats) (blobs_deleted stats) (meshes_deleted stats).
Proof.
  unfold gc_line. rewrite count_line_stripped by reflexivity.
  assert (Y : contains "Commits deleted:" (count_line "Commits deleted" n) = true)
    by found_label.
  now rewrite Y, labelled_count.
Qed.

Lemma gc_line_trees (stats : gc_stats) (n : Z) :
  gc_line stats (count_line "Trees deleted" n)
  = GcStats (commits_deleted stats)
            (if within_str_limit n then n else trees_deleted stats)
            (blobs_deleted stats) (meshes_deleted stats).
Proof.
  unfold gc_line. rewrite count_line_stripped by reflexivity.
  destruct (decimal_chars n) as [Hc _].
  assert (N : contains "Commits deleted:" (count_line "Trees deleted" n) = false).
  { scan_contains. apply contains_absent_first, (int_char_avoids "C" _ eq_refl Hc). }
  assert (Y : contains "Trees deleted:" (count_line "Trees deleted" n) = true)
    by found_label.
  now rewrite N, Y, labelled_count.
Qed.

Lemma gc_line_blobs (stats : gc_stats) (n : Z) :
  gc_line stats (count_line "Blobs deleted" n)
  = GcStats (commits_deleted stats) (trees_deleted stats)
            (if within_str_limit n then n else blobs_deleted stats)
            (meshes_deleted stats).
Proof.
  unfold gc_line. rewrite count_line_stripped by reflexivity.
  destruct (decimal_chars n) as [Hc _].
  assert (N1 : contains "Commits deleted:" (count_line "Blobs deleted" n) = false).
  { scan_contains. apply contains_absent_first, (int_char_avoids "C" _ eq_refl Hc). }
  assert (N2 : contains "Trees deleted:" (count_line "Blobs deleted" n) = false).
  { scan_contains. apply contains_absent_first, (int_char_avoids "T" _ eq_refl Hc). }
  assert (Y : contains "Blobs deleted:" (count_line "Blobs deleted" n) = true)
    by found_label.
  now rewrite N1, N2, Y, labelled_count.
Qed.

Lemma count_line_no_newline (label : string) (n : Z) :
  all_chars (fun c => negb (Ascii.eqb c newline)) label = true ->
  all_chars (fun c => negb (Ascii.eqb c newline)) (count_line label n) = true.
Proof.
  intro H. unfold count_line. rewrite all_chars_app, H. cbn [all_chars andb].
  apply (int_char_avoids newline _ eq_refl (proj1 (decimal_chars n))).
Qed.

Lemma parse_gc_report (commits trees blobs : Z) :
  _parse_gc_output (render_gc commits trees blobs)
  = GcStats (if within_str_limit commits then commits else 0%Z)
            (if within_str_limit trees then trees else 0%Z)
            (if within_str_limit blobs then blobs else 0%Z) 0.
Proof.
  unfold _parse_gc_output, render_gc, lines, nl. cbn [append].
  rewrite !split_on_app by (apply count_line_no_newline; reflexivity).
  cbn [split_on fold_left].
  rewrite gc_line_commits, gc_line_trees, gc_line_blobs. reflexivity.
Qed.

(** X14. Reading back the report of [gc]: from the three lines
    "Commits deleted: N", "Trees deleted: N" and "Blobs deleted: N" the
    parser returns, for each count, the number printed when it has no more
    digits than the limit of [int] (4300), and 0 when it has more: [int]
    raises then and the count stays as it started.  No mesh is counted. *)
Theorem gc_report_round_trip (commits trees blobs : Z) :
  _parse_gc_output (render_gc commits trees blobs)
  = GcStats (if within_str_limit commits then commits else 0%Z)
            (if within_str_limit trees then trees else 0%Z)
            (if within_str_limit blobs then blobs else 0%Z) 0.
Proof. apply parse_gc_report. Qed.

(** X15. The counts the operator reports are the counts the CLI printed:
    when a repository is found and [gc] exits with code 0 after the report
    of three counts that have no more digits than the limit of [int] and
    [str] (4300), the garbage-collect operator returns FINISHED and its one
    report is "Deleted: N commits, N trees, N blobs" with these counts. *)
Theorem garbage_collect_reports_counts
  (self : DF_OT_garbage_collect) (w : World) (p err : string)
  (commits trees blobs : Z) :
  repo_oracle w (history w) = RepoFound p ->
  cli_oracle w (history w ++ [EvExec (Command ["gc"] p 300)])
  = CliExited 0 (render_gc commits trees blobs) err ->
  within_str_limit commits = true ->
  within_str_limit trees = true ->
  within_str_limit blobs = true ->
  fst (garbage_collect_execute self w) = Returned FINISHED
  /\ reports_of (trace (garbage_collect_execute self) w)
     = [(INFO, ("Deleted: " ++ decimal commits ++ " commits, "
                ++ decimal trees ++ " trees, "
                ++ decimal blobs ++ " blobs")%string)].
Proof.
  intros Hrepo Hcli Lc Lt Lb.
  unfold trace, garbage_collect_execute, get_repository_path, bind. cbn beta.
  rewrite Hrepo. unfold gc.
  change (gc_command false 90) with (Some ["gc"]). cbn iota.
  unfold _execute_command, bind. cbn beta.
  cbn [history record_event cli_oracle]. rewrite Hcli. cbn [Z.eqb negb].
  unfold ret. rewrite parse_gc_report, Lc, Lt, Lb.
  unfold deleted_message.
  cbn [commits_deleted trees_deleted blobs_deleted].
  rewrite (str_of_int_within _ Lc), (str_of_int_within _ Lt),
    (str_of_int_within _ Lb).
  run_op. cbn [negb fst snd history record_event].
  rewrite <- !app_assoc, skipn_app_exact. cbn. split; reflexivity.
Qed.

(** The theorem on a collection that deleted 3 commits, 5 trees and 12
    blobs. *)
Lemma garbage_collect_reports_counts_witness :
  reports_of
    (trace (garbage_collect_execute (GarbageCollect true))
       (scripted [CliExited 0 (render_gc 3 5 12) ""] (RepoFound "/projects/robot")))
  = [(INFO, "Deleted: 3 commits, 5 trees, 12 blobs")].
Proof.
  exact (proj2 (garbage_collect_reports_counts (GarbageCollect true)
                  (scripted [CliExited 0 (render_gc 3 5 12) ""]
                            (RepoFound "/projects/robot"))
                  "/projects/robot" "" 3%Z 5%Z 12%Z eq_refl eq_refl
                  eq_refl eq_refl eq_refl)).
Defined.

End IntegerText.

(* ===================================================================== *)
(** ** forester_cli.py : the log and the tags *)
(* ===================================================================== *)

Section LogAndTags.

Import Py ForesterCLI.

Ltac split_ifs :=
  repeat match goal with
         | |- context [if ?b then _ else _] => destruct b
         end.

Lemma log_line_hashes (acc : list log_entry * option log_entry) (raw : string) :
  map lg_hash (log_all (log_line acc raw))
  = map lg_hash (log_all acc)
    ++ (if is_commit_line raw then [log_hash_of raw] else []).
Proof.
  destruct acc as [commits cur]. unfold log_line, is_commit_line, log_hash_of, log_all.
  destruct (startswith "commit " (strip raw)).
  - cbn [fst snd]. rewrite map_app. reflexivity.
  - rewrite app_nil_r. destruct cur as [c|]; [|reflexivity].
    split_ifs; cbn [fst snd]; rewrite !map_app; reflexivity.
Qed.

Lemma fold_log_hashes (ls : list string) (acc : list log_entry * option log_entry) :
  map lg_hash (log_all (fold_left log_line ls acc))
  = map lg_hash (log_all acc) ++ map log_hash_of (filter is_commit_line ls).
Proof.
  revert acc. induction ls as [|raw ls IH]; intro acc; cbn [fold_left filter].
  - now rewrite app_nil_r.
  - rewrite IH, log_line_hashes, <- app_assoc.
    destruct (is_commit_line raw); reflexivity.
Qed.

Lemma parse_log_hashes (output : string) :
  map lg_hash (_parse_log_output output)
  = map log_hash_of (filter is_commit_line (lines output)).
Proof.
  unfold _parse_log_output.
  pose proof (fold_log_hashes (lines output) ([], None)) as H.
  unfold log_all in H.
  destruct (fold_left log_line (lines output) ([], None)) as [commits cur].
  exact H.
Qed.

(** X16. The parsed log has one commit per line of stdout that begins with
    "commit " once stripped, in the same order, and the hash of each is what
    is left of its line when "commit " is removed and the rest stripped. *)
Theorem log_one_commit_per_commit_line (output : string) :
  map lg_hash (_parse_log_output output)
  = map log_hash_of (filter is_commit_line (lines output))
  /\ length (_parse_log_output output)
     = length (filter is_commit_line (lines output)).
Proof.
  split; [apply parse_log_hashes|].
  rewrite <- (length_map lg_hash), parse_log_hashes. apply length_map.
Qed.

Lemma slice_to_length {A} (n : Z) (l : list A) :
  (0 <= n)%Z -> length (slice_to n l) <= Z.to_nat n.
Proof.
  intro H. unfold slice_to. destruct (Z.ltb_spec n 0); [lia|].
  apply firstn_le_length.
Qed.

(** X17. [log] keeps to its limit: a successful call with a limit that is
    not negative returns at most that many commits. *)
Theorem log_respects_limit (repo_path : string) (branch_name : option string)
  (limit : Z) (w : World) (l : list log_entry) (e : option string) :
  fst (log repo_path branch_name limit w) = (true, Some l, e) ->
  (0 <= limit)%Z ->
  length l <= Z.to_nat limit.
Proof.
  unfold log, _execute_command, bind, ret. cbn beta.
  destruct (cli_oracle _ _) as [msg|code out err]; [discriminate|].
  destruct (negb (code =? 0)%Z); [discriminate|].
  destruct (contains "No commits yet" out); cbn [fst]; intros [= <- <-] H.
  - apply Nat.le_0_l.
  - now apply slice_to_length.
Qed.

(** The theorem on a log of two commits asked with the limit 1. *)
Lemma log_respects_limit_witness :
  length [LogEntry "aa11" None None None None false] <= Z.to_nat 1.
Proof.
  refine (log_respects_limit "/projects/robot" None 1
            (scripted [CliExited 0 ("commit aa11" ++ nl ++ "commit bb22" ++ nl) ""]
                      (RepoFound "/projects/robot"))
            [LogEntry "aa11" None None None None false] None eq_refl _).
  discriminate.
Defined.

(** X18. The words "No commits yet" anywhere in the output of a successful
    [log] empty the history: the call returns no commit at all, also when
    stdout lists commits, for instance one whose message has these words. *)
Theorem log_no_commits_yet_hides_history
  (repo_path : string) (branch_name : option string) (limit : Z) (w : World)
  (stdout stderr : string) :
  cli_oracle w (history w ++ [EvExec (Command (log_command branch_name) repo_path 30)])
  = CliExited 0 stdout stderr ->
  contains "No commits yet" stdout = true ->
  fst (log repo_path branch_name limit w) = (true, Some [], None).
Proof.
  intros Hcli Hin. unfold log, _execute_command, bind, ret. cbn beta.
  cbn [history record_event cli_oracle].
  change (["log"] ++ match branch_name with
                     | Some b => if truthy b then [b] else []
                     | None => []
                     end) with (log_command branch_name).
  rewrite Hcli. cbn [Z.eqb negb]. rewrite Hin. reflexivity.
Qed.

(** The theorem on a history of one commit whose message has the words. *)
Lemma log_no_commits_yet_hides_history_witness :
  fst (log "/projects/robot" None 100
         (scripted [CliExited 0 ("commit aa11" ++ nl ++ "Author: Ada" ++ nl
                                 ++ "    No commits yet, so this is the first" ++ nl)
                               ""]
                   (RepoFound "/projects/robot")))
  = (true, Some [], None).
Proof.
  exact (log_no_commits_yet_hides_history "/projects/robot" None 100
           (scripted [CliExited 0 ("commit aa11" ++ nl ++ "Author: Ada" ++ nl
                                   ++ "    No commits yet, so this is the first" ++ nl)
                                 ""]
                     (RepoFound "/projects/robot"))
           _ _ eq_refl eq_refl).
Defined.

Lemma plain_parts (t : string) :
  plain t = true -> truthy t = true /\ visible t = true.
Proof. unfold plain. now intros [T V]%andb_true_iff. Qed.

(** The text of some words printed one per line, stripped on the right,
    splits into these words. *)
Lemma lines_rstrip_render (t : string) (l : list string) :
  Forall (fun x => plain x = true) (t :: l) ->
  lines (rstrip (render_lines (t :: l))) = t :: l
  /\ truthy (rstrip (render_lines (t :: l))) = true.
Proof.
  revert t. induction l as [|t2 l IH]; intros t H; inversion H as [|? ? Ht Hl]; subst.
  - destruct (plain_parts t Ht) as [T V].
    cbn [render_lines fold_right]. unfold nl. cbn [append].
    rewrite rstrip_app_visible by now apply plain_ends_visible.
    cbn [rstrip truthy negb andb]. change (isspace newline) with true. cbn iota.
    rewrite append_empty_r. split; [|exact T].
    unfold lines. apply split_on_none, visible_no_newline, V.
  - destruct (plain_parts t Ht) as [T V].
    destruct (IH t2 Hl) as [IHl IHt].
    change (render_lines (t :: t2 :: l))
      with (t ++ String newline (render_lines (t2 :: l)))%string.
    rewrite rstrip_app_visible by now apply plain_ends_visible.
    cbn [rstrip]. rewrite IHt. rewrite andb_false_r.
    split.
    + unfold lines in *. rewrite split_on_app by now apply visible_no_newline.
      now rewrite IHl.
    + destruct t; [discriminate T | reflexivity].
Qed.

Lemma tags_of_rendered (l : list string) :
  Forall (fun t => plain t = true) l -> tags_of_output (render_lines l) = l.
Proof.
  intro H. unfold tags_of_output. destruct l as [|t l]; [reflexivity|].
  assert (L : lstrip (render_lines (t :: l)) = render_lines (t :: l)).
  { apply lstrip_fixed. inversion H as [|? ? Ht _]; subst.
    destruct (plain_parts t Ht) as [T V].
    destruct t as [|c t]; [discriminate T|].
    unfold visible in V. cbn [all_chars] in V. apply andb_true_iff in V as [Hc _].
    cbn. now apply negb_true_iff. }
  change (strip (render_lines (t :: l)))
    with (rstrip (lstrip (render_lines (t :: l)))).
  rewrite L, (proj1 (lines_rstrip_render t l H)).
  clear L. induction H as [|x xs Hx Hxs IH]; [reflexivity|].
  cbn [flat_map]. destruct (plain_parts x Hx) as [T V].
  now rewrite (visible_strip x V), T, IH.
Qed.

(** X19. The tags [list_tags] reads are never empty and never have
    whitespace around them; and tag names that are words, printed one per
    line, are read back as they were printed. *)
Theorem tags_read_back :
  (forall stdout t, In t (tags_of_output stdout) ->
                    truthy t = true /\ strip t = t)
  /\ (forall l, Forall (fun t => plain t = true) l ->
                tags_of_output (render_lines l) = l).
Proof.
  split; [|apply tags_of_rendered].
  intros stdout t Ht. unfold tags_of_output in Ht.
  apply in_flat_map in Ht as (raw & _ & Ht).
  destruct (truthy (strip raw)) eqn:T; [|destruct Ht].
  destruct Ht as [<-|[]]. split; [exact T | apply strip_idempotent].
Qed.

(** The theorem on two tags. *)
Lemma tags_read_back_witness :
  tags_of_output (render_lines ["v1.0"; "release-2"]) = ["v1.0"; "release-2"].
Proof.
  apply (proj2 tags_read_back). repeat constructor.
Defined.

End LogAndTags.

(* ===================================================================== *)
(** ** The repository root, and what [commit], [stash] and [show] read *)
(* ===================================================================== *)

Section RepositoryRoot.

(** X20. [find_repository_root] answers with the nearest directory, from
    the start upwards, that holds a [.DFM] directory: the start lies in
    it, and no directory between the two holds one; it answers [None] only
    when no directory from the start up to the root holds one. *)
Theorem find_repository_root_nearest (has_dfm : list string -> bool)
  (start : list string) :
  match find_repository_root has_dfm start with
  | Some root =>
      has_dfm root = true
      /\ exists below,
           start = below ++ root
           /\ forall inner outer,
                below = inner ++ outer -> outer <> [] ->
                has_dfm (outer ++ root) = false
  | None => forall below above, start = below ++ above -> has_dfm above = false
  end.
Proof.
  induction start as [|c parent IH]; cbn [find_repository_root].
  - destruct (has_dfm []) eqn:E.
    + split; [exact E|]. exists []. split; [reflexivity|].
      intros inner outer H. symmetry in H.
      apply app_eq_nil in H as [_ ->]. now intros [].
    + intros below above H. symmetry in H.
      apply app_eq_nil in H as [_ ->]. exact E.
  - destruct (has_dfm (c :: parent)) eqn:E.
    + split; [exact E|]. exists []. split; [reflexivity|].
      intros inner outer H. symmetry in H.
      apply app_eq_nil in H as [_ ->]. now intros [].
    + destruct (find_repository_root has_dfm parent) as [root|].
      * destruct IH as (R & below & -> & N). split; [exact R|].
        exists (c :: below). split; [reflexivity|].
        intros [|x inner] outer H O.
        -- cbn [app] in H. subst outer. exact E.
        -- injection H as -> H. now apply (N inner outer).
      * intros [|x below] above H.
        -- cbn [app] in H. now subst above.
        -- injection H as -> H. now apply (IH below above).
Qed.

(** The theorem on a scene directory inside a project that holds the
    repository. *)
Lemma find_repository_root_nearest_witness :
  let has_dfm := fun p => if list_eq_dec string_dec p ["project"; "home"]
                          then true else false in
  has_dfm ["project"; "home"] = true
  /\ exists below,
       ["scenes"; "project"; "home"] = below ++ ["project"; "home"]
       /\ forall inner outer,
            below = inner ++ outer -> outer <> [] ->
            has_dfm (outer ++ ["project"; "home"]) = false.
Proof.
  intro has_dfm.
  exact (find_repository_root_nearest has_dfm ["scenes"; "project"; "home"]).
Defined.

End RepositoryRoot.

Section CommitHash.

Import Py ForesterCLI.

Ltac by_char c :=
  destruct c as [[|] [|] [|] [|] [|] [|] [|] [|]]; vm_compute;
  try discriminate; try (repeat split; reflexivity).

Lemma hash_char (c : ascii) :
  char_in (lower_char c) "0123456789abcdef" = is_hex_any_case c.
Proof. by_char c. Qed.

Lemma all_chars_lower (p : ascii -> bool) (s : string) :
  all_chars p (lower s) = all_chars (fun c => p (lower_char c)) s.
Proof. induction s as [|c s IH]; [reflexivity|]. cbn [lower all_chars]. now rewrite IH. Qed.

Lemma all_chars_ext (p q : ascii -> bool) (s : string) :
  (forall c, p c = q c) -> all_chars p s = all_chars q s.
Proof.
  intro H. induction s as [|c s IH]; [reflexivity|].
  cbn [all_chars]. now rewrite H, IH.
Qed.

(** The test of [commit] on a word, without the detour through [lower]. *)
Lemma hash_like_hex (h : string) :
  hash_like h = (8 <=? String.length h) && all_chars is_hex_any_case h.
Proof.
  unfold hash_like. rewrite all_chars_lower.
  now rewrite (all_chars_ext _ is_hex_any_case h hash_char).
Qed.

Lemma hex_char_plain (c : ascii) :
  is_hex_any_case c = true ->
  negb (isspace c) = true /\ negb (Ascii.eqb c "]") = true.
Proof. by_char c. Qed.

Lemma hash_like_plain (h : string) :
  hash_like h = true -> plain h = true /\ no_bracket h = true.
Proof.
  rewrite hash_like_hex. intros [Hl Hx]%andb_true_iff.
  unfold plain, visible, no_bracket. repeat split.
  - apply andb_true_iff. split.
    + destruct h; [discriminate Hl | reflexivity].
    + revert Hx. apply all_chars_impl. intros c Hc. apply (hex_char_plain c Hc).
  - revert Hx. apply all_chars_impl. intros c Hc. apply (hex_char_plain c Hc).
Qed.

Lemma first_some_found {A B} (f : A -> option B) (l : list A) (y : B) :
  first_some f l = Some y -> exists x, In x l /\ f x = Some y.
Proof.
  induction l as [|x l IH]; [discriminate|]. cbn [first_some].
  destruct (f x) as [z|] eqn:E.
  - intros [= <-]. exists x. split; [now left | exact E].
  - intro H. destruct (IH H) as (x' & Hin & Hx). exists x'. split; [now right | exact Hx].
Qed.

(** Whatever [commit] reads on a line passed its test of a hash. *)
Lemma commit_line_hash_like (raw h : string) :
  commit_hash_of_line raw = Some h -> hash_like h = true.
Proof.
  unfold commit_hash_of_line. cbv zeta.
  destruct (negb (truthy (strip raw))); [discriminate|].
  match goal with
  | |- match ?b with Some _ => _ | None => _ end = _ -> _ =>
      assert (Hb : forall x, b = Some x -> hash_like x = true);
      [| destruct b as [x|]]
  end.
  - destruct (startswith "[" (strip raw) && contains "]" (strip raw)); [|discriminate].
    destruct (0 <? find_char "]" (strip raw))%Z; [|discriminate].
    destruct (split_ws _) as [|a [|p l]]; try discriminate.
    destruct (hash_like p) eqn:E; [|discriminate].
    now intros x [= <-].
  - intros [= <-]. now apply Hb.
  - intro H. apply first_some_found in H as (part & _ & H).
    destruct (hash_like part) eqn:E; [|discriminate].
    now injection H as <-.
Qed.

(** X21. A hash that [commit] returns passed its test: eight characters or
    more, all of them hexadecimal digits of either case; so that
    [normalize_commit_hash] accepts it exactly when it has 64 characters,
    and rejects the short form the CLI prints. *)
Theorem commit_hash_is_hexadecimal
  (repo_path : option string) (message : string) (author tag : option string)
  (no_verify : bool) (w : World) (h : string) (e : option string) :
  fst (commit repo_path message author tag no_verify w) = (true, Some h, e) ->
  8 <= String.length h
  /\ all_chars is_hex_any_case h = true
  /\ normalize_commit_hash (Some h)
     = if String.length h =? 64 then Some (lower h) else None.
Proof.
  unfold commit. destruct repo_path as [p|]; [|discriminate].
  destruct (negb (truthy message) || negb (truthy (strip message))); [discriminate|].
  unfold _execute_command, bind, ret. cbn beta zeta.
  destruct (cli_oracle _ _) as [msg|code out err]; [discriminate|].
  destruct (code =? 0)%Z; [|discriminate].
  cbn [fst]. intros [= H <-].
  apply first_some_found in H as (raw & _ & H).
  apply commit_line_hash_like in H.
  pose proof (hash_like_plain h H) as [[_ V]%plain_parts _].
  rewrite hash_like_hex in H. apply andb_true_iff in H as [Hl Hx].
  apply Nat.leb_le in Hl. repeat split; [exact Hl | exact Hx |].
  rewrite normalize_commit_hash_eq, (visible_non_whitespace h V), Hx.
  reflexivity.
Qed.

(** The theorem on the line the CLI prints for a commit on [main]. *)
Lemma commit_hash_is_hexadecimal_witness :
  8 <= String.length "0123abcd"
  /\ all_chars is_hex_any_case "0123abcd" = true
  /\ normalize_commit_hash (Some "0123abcd")
     = if String.length "0123abcd" =? 64 then Some (lower "0123abcd") else None.
Proof.
  exact (commit_hash_is_hexadecimal (Some "/projects/robot") "Initial scene"
           None None false
           (scripted [CliExited 0 (commit_report "main" "0123abcd" "Initial scene") ""]
                     (RepoFound "/projects/robot"))
           "0123abcd" None eq_refl).
Defined.

Lemma split_ws_from_visible (a cur s : string) :
  visible a = true -> split_ws_from cur (a ++ s) = split_ws_from (cur ++ a) s.
Proof.
  unfold visible. revert cur. induction a as [|c a IH]; intros cur V.
  - now rewrite append_empty_r.
  - cbn [all_chars] in V. apply andb_true_iff in V as [Hc Ha].
    apply negb_true_iff in Hc. cbn [append split_ws_from]. rewrite Hc.
    rewrite (IH _ Ha), append_assoc. reflexivity.
Qed.

(** Two words with a space between them split into the two. *)
Lemma split_ws_pair (b h : string) :
  plain b = true -> plain h = true -> split_ws (b ++ String " " h) = [b; h].
Proof.
  intros [Tb Vb]%plain_parts [Th Vh]%plain_parts. unfold split_ws.
  rewrite (split_ws_from_visible b _ _ Vb). cbn [append split_ws_from].
  change (isspace " ") with true. cbn iota. rewrite Tb.
  rewrite <- (append_empty_r h) at 1.
  rewrite (split_ws_from_visible h _ _ Vh). cbn [append split_ws_from].
  now rewrite Th.
Qed.

Lemma find_char_app (x : ascii) (a r : string) :
  all_chars (fun c => negb (Ascii.eqb c x)) a = true ->
  find_char x (a ++ String x r) = Z.of_nat (String.length a).
Proof.
  induction a as [|c a IH]; cbn [append find_char all_chars String.length].
  - intros _. now rewrite Ascii.eqb_refl.
  - intros [Hc Ha]%andb_true_iff. apply negb_true_iff in Hc. rewrite Hc, (IH Ha).
    destruct (Z.ltb_spec (Z.of_nat (String.length a)) 0); lia.
Qed.

Lemma take_app (a b : string) : take (String.length a) (a ++ b) = a.
Proof. induction a as [|c a IH]; [now destruct b|]. cbn. now rewrite IH. Qed.

Lemma contains_app (p a r : string) : contains p (a ++ p ++ r) = true.
Proof.
  induction a as [|c a IH].
  - cbn [append]. apply contains_prefix, prefix_app.
  - cbn [append contains]. rewrite IH. apply orb_true_r.
Qed.

(** The first line of a text that starts with a piece free of line breaks
    starts with that piece. *)
Lemma split_on_head (sep : ascii) (a rest : string) :
  all_chars (fun c => negb (Ascii.eqb c sep)) a = true ->
  exists r tl, split_on sep (a ++ rest) = (a ++ r)%string :: tl.
Proof.
  induction a as [|c a IH]; cbn [append all_chars].
  - intros _. destruct rest as [|d rest]; [now exists EmptyString, []|].
    cbn [split_on]. destruct (Ascii.eqb d sep); [now exists EmptyString, (split_on sep rest)|].
    destruct (split_on sep rest) as [|x xs]; [now exists (String d EmptyString), [] |].
    now exists (String d x), xs.
  - intros [Hc Ha]%andb_true_iff. apply negb_true_iff in Hc.
    destruct (IH Ha) as (r & tl & E). cbn [split_on]. rewrite Hc, E.
    now exists r, tl.
Qed.

(** What [commit] reads on a line of the form [[branch hash] rest]. *)
Lemma bracketed_hash_read (b h rest : string) :
  plain b = true -> no_bracket b = true -> hash_like h = true ->
  commit_hash_of_line (String "[" (b ++ String " " (h ++ String "]" rest))) = Some h.
Proof.
  intros Pb Nb Hh. destruct (hash_like_plain h Hh) as [Ph Nh].
  assert (E : forall r, String "[" (b ++ String " " (h ++ String "]" r))
                        = (String "[" (b ++ String " " h) ++ String "]" r)%string).
  { intro r. cbn [append]. now rewrite append_assoc. }
  assert (St : strip (String "[" (b ++ String " " (h ++ String "]" rest)))
              = String "[" (b ++ String " " (h ++ String "]" (rstrip rest)))).
  { unfold strip. rewrite lstrip_fixed by reflexivity.
    rewrite !E.
    replace (String "[" (b ++ String " " h) ++ String "]" rest)%string
      with ((String "[" (b ++ String " " h) ++ "]") ++ rest)%string
      by (rewrite append_assoc; reflexivity).
    rewrite rstrip_app_visible by (apply ends_visible_app; reflexivity).
    now rewrite append_assoc. }
  unfold commit_hash_of_line. cbv zeta. rewrite St. cbn [truthy negb].
  unfold startswith. rewrite prefix_cons, prefix_empty. cbn [Ascii.eqb Bool.eqb andb].
  rewrite (E (rstrip rest)).
  assert (N : all_chars (fun c => negb (Ascii.eqb c "]")) (String "[" (b ++ String " " h)) = true).
  { cbn [all_chars]. rewrite all_chars_app. cbn [all_chars].
    unfold no_bracket in Nb, Nh. now rewrite Nb, Nh. }
  pose proof (contains_app "]" (String "[" (b ++ String " " h)) (rstrip rest)) as C.
  change ("]" ++ rstrip rest)%string with (String "]" (rstrip rest)) in C.
  rewrite C.
  rewrite (find_char_app "]" _ (rstrip rest) N).
  cbn [String.length]. 
  replace (0 <? Z.of_nat (S (String.length (b ++ String " " h))))%Z with true
    by (symmetry; apply Z.ltb_lt; lia).
  rewrite Nat2Z.id. unfold slice. cbn [append drop Nat.sub].
  rewrite Nat.sub_0_r, take_app, (split_ws_pair b h Pb Ph), Hh. reflexivity.
Qed.

(** X22. When the first line of the output of a successful [commit] is
    [[branch hash] message], with a branch name that is a word without a
    closing bracket and a hash of eight or more hexadecimal digits, [commit]
    returns that hash, whatever the message and the lines that follow. *)
Theorem commit_reads_bracketed_hash
  (branch_name h rest : string) :
  plain branch_name = true -> no_bracket branch_name = true ->
  hash_like h = true ->
  first_some commit_hash_of_line (lines (commit_report branch_name h rest)) = Some h.
Proof.
  intros Pb Nb Hh. destruct (hash_like_plain h Hh) as [Ph Nh].
  destruct (plain_parts _ Pb) as [_ Vb]. destruct (plain_parts _ Ph) as [_ Vh].
  unfold commit_report, lines.
  assert (A : all_chars (fun c => negb (Ascii.eqb c newline))
                (String "[" (branch_name ++ String " " (h ++ "]"))) = true).
  { cbn [all_chars]. rewrite all_chars_app. cbn [all_chars]. rewrite all_chars_app.
    now rewrite (visible_no_newline _ Vb), (visible_no_newline _ Vh). }
  destruct (split_on_head newline _ (String " " rest) A) as (r & tl & E).
  replace (String "[" (branch_name ++ String " " (h ++ String "]" (String " " rest))))
    with (String "[" (branch_name ++ String " " (h ++ "]")) ++ String " " rest)%string
    by (cbn [append]; rewrite !append_assoc; cbn [append]; rewrite append_assoc;
        reflexivity).
  rewrite E. cbn [first_some].
  replace (String "[" (branch_name ++ String " " (h ++ "]")) ++ r)%string
    with (String "[" (branch_name ++ String " " (h ++ String "]" r)))
    by (cbn [append]; rewrite !append_assoc; cbn [append]; rewrite append_assoc;
        reflexivity).
  now rewrite (bracketed_hash_read branch_name h r Pb Nb Hh).
Qed.

(** The theorem on a commit on [main], followed by a summary line. *)
Lemma commit_reads_bracketed_hash_witness :
  first_some commit_hash_of_line
    (lines (commit_report "main" "0123abcd" ("Initial scene" ++ nl ++ "2 files")))
  = Some "0123abcd".
Proof.
  exact (commit_reads_bracketed_hash "main" "0123abcd"
           ("Initial scene" ++ nl ++ "2 files") eq_refl eq_refl eq_refl).
Defined.

End CommitHash.

Section StashParsing.

Import Py ForesterCLI.

Lemma split_ws_from_words (s cur x : string) :
  visible cur = true -> In x (split_ws_from cur s) -> plain x = true.
Proof.
  revert cur. induction s as [|c s IH]; intros cur V; cbn [split_ws_from].
  - destruct (truthy cur) eqn:T; [|intros []].
    intros [<-|[]]. unfold plain. now rewrite T, V.
  - destruct (isspace c) eqn:Hc.
    + destruct (truthy cur) eqn:T.
      * intros [<-|H]; [unfold plain; now rewrite T, V | now apply (IH EmptyString)].
      * now apply (IH EmptyString).
    + apply IH. rewrite visible_app, V. unfold visible. cbn [all_chars].
      now rewrite Hc.
Qed.

Lemma saved_stash_word (line h : string) :
  saved_stash_of_line line = Some h -> plain h = true.
Proof.
  unfold saved_stash_of_line. destruct (contains "Saved stash" line); [|discriminate].
  destruct (split_ws line) as [|a [|b [|c l]]] eqn:E; try discriminate.
  intros [= <-]. apply (split_ws_from_words line EmptyString c eq_refl).
  fold (split_ws line). rewrite E. right. right. now left.
Qed.

Lemma split_ws_word (a s : string) :
  plain a = true ->
  split_ws_from EmptyString (a ++ String " " s) = a :: split_ws_from EmptyString s.
Proof.
  intros [T V]%plain_parts.
  rewrite (split_ws_from_visible a _ _ V). cbn [append split_ws_from].
  change (isspace " ") with true. cbn iota. now rewrite T.
Qed.

Lemma split_ws_single (a : string) :
  plain a = true -> split_ws_from EmptyString a = [a].
Proof.
  intros [T V]%plain_parts. rewrite <- (append_empty_r a) at 1.
  rewrite (split_ws_from_visible a _ _ V). cbn [append split_ws_from].
  now rewrite T.
Qed.

Lemma saved_stash_read (h : string) :
  plain h = true ->
  saved_stash_of_line ("Saved stash " ++ h) = Some h.
Proof.
  intro P. unfold saved_stash_of_line.
  assert (C : contains "Saved stash" ("Saved stash " ++ h) = true)
    by exact (contains_prefix "Saved stash" _ (prefix_app "Saved stash" (String " " h))).
  rewrite C. unfold split_ws.
  change ("Saved stash " ++ h)%string
    with ("Saved" ++ String " " ("stash" ++ String " " h))%string.
  rewrite (split_ws_word "Saved" _ eq_refl), (split_ws_word "stash" _ eq_refl).
  now rewrite (split_ws_single h P).
Qed.

(** X23. The hash a successful [stash save] returns is a word, not empty
    and free of whitespace; and when stdout starts with the line
    [Saved stash <hash>], that hash is the one returned. *)
Theorem stash_save_reads_hash :
  (forall repo_path message w h e,
      fst (stash repo_path "save" message w) = (true, StashHash (Some h), e) ->
      plain h = true)
  /\ (forall h more,
         plain h = true ->
         first_some saved_stash_of_line
           (lines (("Saved stash " ++ h) ++ String newline more)) = Some h).
Proof.
  split.
  - intros repo_path message w h e. unfold stash.
    change ("save" =? "save")%string with true. cbv zeta. cbn iota.
    unfold _execute_command, bind, ret. cbn beta.
    destruct (cli_oracle _ _) as [msg|code out err]; [discriminate|].
    destruct (code =? 0)%Z; [|discriminate].
    cbn [fst]. intros [= H <-].
    apply first_some_found in H as (line & _ & H).
    now apply (saved_stash_word line).
  - intros h more P. destruct (plain_parts h P) as [_ V].
    unfold lines. rewrite split_on_app.
    + cbn [first_some]. now rewrite (saved_stash_read h P).
    + rewrite all_chars_app. now rewrite (visible_no_newline h V).
Qed.

(** The theorem on the output of a stash save. *)
Lemma stash_save_reads_hash_witness :
  first_some saved_stash_of_line
    (lines (("Saved stash " ++ "abc12345") ++ String newline "")) = Some "abc12345".
Proof.
  exact (proj2 stash_save_reads_hash "abc12345" "" eq_refl).
Defined.

(** Stripping on the left and on the right can be done in either order. *)
Lemma lstrip_rstrip (m : string) : lstrip (rstrip m) = rstrip (lstrip m).
Proof.
  induction m as [|c m IH]; [reflexivity|].
  cbn [rstrip lstrip]. destruct (isspace c) eqn:Hc; cbn [andb].
  - rewrite <- IH. destruct (truthy (rstrip m)) eqn:T; cbn [negb].
    + cbn [lstrip]. now rewrite Hc.
    + apply truthy_false_iff in T. now rewrite T.
  - cbn [lstrip rstrip]. now rewrite Hc.
Qed.

Lemma strip_inner (m : string) : strip (rstrip m) = strip m.
Proof. unfold strip. now rewrite lstrip_rstrip, rstrip_idempotent. Qed.

Lemma string_length_app (a b : string) :
  String.length (a ++ b) = String.length a + String.length b.
Proof. induction a as [|c a IH]; [reflexivity|]. cbn. now rewrite IH. Qed.

Lemma drop_app (n : nat) (a b : string) :
  drop (String.length a + n) (a ++ b) = drop n b.
Proof. induction a as [|c a IH]; [reflexivity|]. cbn. exact IH. Qed.

(** What [stash] reads on a line [stash{hash}: message]. *)
Lemma stash_line_read (h m : string) :
  no_brace h = true ->
  stash_list_line (render_stash (h, m)) = [(h, strip m)].
Proof.
  intro N. unfold render_stash. cbn [fst snd].
  set (tail := if truthy (rstrip m) then String " " (rstrip m) else EmptyString).
  assert (St : strip ("stash{" ++ h ++ String "}" (String ":" (String " " m)))
               = ("stash{" ++ h ++ String "}" (String ":" tail))%string).
  { unfold strip. rewrite lstrip_fixed by reflexivity.
    replace ("stash{" ++ h ++ String "}" (String ":" (String " " m)))%string
      with (("stash{" ++ h ++ "}:") ++ String " " m)%string
      by (cbn [append]; rewrite append_assoc; reflexivity).
    rewrite rstrip_app_visible
      by (apply (ends_visible_app "stash{"), ends_visible_app; reflexivity).
    cbn [append]. rewrite append_assoc. cbn [append rstrip].
    change (isspace " ") with true. subst tail.
    now destruct (truthy (rstrip m)). }
  unfold stash_list_line. cbv zeta. rewrite St.
  unfold startswith.
  assert (Pf : String.prefix "stash{" ("stash{" ++ h ++ String "}" (String ":" tail)) = true)
    by apply prefix_app.
  rewrite Pf.
  assert (F : find_char "}" ("stash{" ++ h ++ String "}" (String ":" tail))
              = Z.of_nat (6 + String.length h)).
  { replace ("stash{" ++ h ++ String "}" (String ":" tail))%string
      with (("stash{" ++ h) ++ String "}" (String ":" tail))%string
      by (cbn [append]; reflexivity).
    rewrite find_char_app.
    - now rewrite string_length_app.
    - rewrite all_chars_app. unfold no_brace in N. now rewrite N. }
  rewrite F.
  replace (0 <? Z.of_nat (6 + String.length h))%Z with true
    by (symmetry; apply Z.ltb_lt; lia).
  rewrite Nat2Z.id. f_equal. f_equal.
  - unfold slice. cbn [append drop Nat.add Nat.sub].
    now rewrite Nat.sub_0_r, take_app.
  - assert (D : drop (6 + String.length h + 2)
                     ("stash{" ++ h ++ String "}" (String ":" tail)) = tail).
    { cbn [append drop Nat.add]. now rewrite drop_app. }
    rewrite D.
    assert (L : String.length ("stash{" ++ h ++ String "}" (String ":" tail))
                = 6 + String.length h + 2 + String.length tail).
    { rewrite !string_length_app. cbn [String.length]. lia. }
    rewrite L. subst tail. destruct (truthy (rstrip m)) eqn:T.
    + replace (6 + String.length h + 2 <? _) with true
        by (symmetry; apply Nat.ltb_lt; cbn [String.length]; lia).
      unfold strip at 1. cbn [lstrip]. change (isspace " ") with true. cbn iota.
      fold (strip (rstrip m)). apply strip_inner.
    + replace (6 + String.length h + 2 <? _) with false
        by (symmetry; apply Nat.ltb_ge; cbn [String.length]; lia).
      apply truthy_false_iff in T. rewrite <- strip_inner, T. reflexivity.
Qed.

Lemma lines_render_lines (l : list string) :
  Forall (fun t => one_line t = true) l ->
  lines (render_lines l) = l ++ [EmptyString].
Proof.
  induction 1 as [|t l Ht Hl IH]; [reflexivity|].
  cbn [render_lines fold_right app]. fold (render_lines l).
  unfold nl. cbn [append]. unfold lines in *.
  now rewrite (split_on_app newline t _ Ht), IH.
Qed.

Lemma stash_list_read (l : list (string * string)) :
  Forall stash_entry_ok l ->
  flat_map stash_list_line (lines (render_lines (map render_stash l))) = l.
Proof.
  intro H. rewrite lines_render_lines.
  - rewrite flat_map_app. cbn [flat_map]. change (stash_list_line "") with (@nil (string * string)).
    rewrite !app_nil_r. induction H as [|[h m] l (N & _ & _ & S) Hl IH]; [reflexivity|].
    cbn [map flat_map]. cbn [fst snd] in N, S.
    now rewrite (stash_line_read h m N), S, IH.
  - induction H as [|[h m] l (_ & Oh & Om & _) Hl IH]; constructor; [|exact IH].
    cbn [fst snd] in Oh, Om. unfold render_stash, one_line in *. cbn [fst snd].
    cbn [append all_chars]. rewrite all_chars_app. cbn [all_chars].
    now rewrite Oh, Om.
Qed.

(** X24. [stash] with the action [list] reads a stash list back as it was
    printed: when the CLI succeeds and prints one line [stash{hash}: message]
    per stash, the call returns these hashes and messages, in order. *)
Theorem stash_list_round_trip
  (repo_path : string) (message : option string) (w : World)
  (l : list (string * string)) (stderr : string) :
  Forall stash_entry_ok l ->
  cli_oracle w (history w ++ [EvExec (Command ["stash"; "list"] repo_path 30)])
  = CliExited 0 (render_lines (map render_stash l)) stderr ->
  fst (stash repo_path "list" message w) = (true, StashList l, None).
Proof.
  intros Hl Hcli. unfold stash.
  change ("list" =? "save")%string with false.
  change ("list" =? "list")%string with true. cbv zeta. cbn iota.
  unfold _execute_command, bind, ret. cbn beta.
  cbn [history record_event cli_oracle]. rewrite Hcli.
  cbn [Z.eqb fst]. now rewrite (stash_list_read l Hl).
Qed.

(** The theorem on a list of two stashes, one of them without a message. *)
Lemma stash_list_round_trip_witness :
  fst (stash "/projects/robot" "list" None
         (scripted [CliExited 0 (render_lines
                                   (map render_stash
                                        [("abc12345", "WIP on main"); ("9f8e7d6c", "")]))
                              ""]
                   (RepoFound "/projects/robot")))
  = (true, StashList [("abc12345", "WIP on main"); ("9f8e7d6c", "")], None).
Proof.
  refine (stash_list_round_trip "/projects/robot" None
            (scripted [CliExited 0 (render_lines
                                      (map render_stash
                                           [("abc12345", "WIP on main"); ("9f8e7d6c", "")]))
                                 ""]
                      (RepoFound "/projects/robot"))
            [("abc12345", "WIP on main"); ("9f8e7d6c", "")] "" _ eq_refl).
  repeat constructor.
Defined.

End StashParsing.

Section ShowParsing.

Import Py ForesterCLI.

Ltac split_ifs :=
  repeat match goal with
         | |- context [if ?b then _ else _] => destruct b eqn:?
         end.

Lemma show_line_keeps_message (acc : commit_data * bool) (raw : string) :
  is_some (cd_message (fst acc)) = true ->
  cd_message (fst (show_line acc raw)) = cd_message (fst acc).
Proof.
  destruct acc as [d in_files]. cbn [fst]. intro H.
  unfold show_line. cbv zeta. rewrite H. cbn [negb andb].
  split_ifs; reflexivity.
Qed.

Lemma fold_show_keeps_message (l : list string) (acc : commit_data * bool) :
  is_some (cd_message (fst acc)) = true ->
  cd_message (fst (fold_left show_line l acc)) = cd_message (fst acc).
Proof.
  revert acc. induction l as [|raw l IH]; intros acc H; [reflexivity|].
  cbn [fold_left]. rewrite IH; rewrite show_line_keeps_message; auto.
Qed.

(** X25. [_parse_show_output] keeps one line of the commit message: once
    the lines read so far have given a message, no line that follows
    changes it, so that a message of several lines is cut to its first. *)
Theorem show_message_is_first_line (a b : string) :
  is_some (cd_message (_parse_show_output a)) = true ->
  cd_message (_parse_show_output (a ++ String newline b))
  = cd_message (_parse_show_output a).
Proof.
  intro H. unfold _parse_show_output, lines in *.
  rewrite split_on_join, fold_left_app.
  now apply fold_show_keeps_message.
Qed.

(** The theorem on a commit whose message has two lines. *)
Lemma show_message_is_first_line_witness :
  cd_message (_parse_show_output
                (("commit abc12345" ++ nl ++ "Author: Ada" ++ nl ++ nl
                  ++ "    Rig the left arm") ++ String newline "    and the hand"))
  = Some "Rig the left arm".
Proof.
  exact (show_message_is_first_line
           ("commit abc12345" ++ nl ++ "Author: Ada" ++ nl ++ nl
            ++ "    Rig the left arm") "    and the hand" eq_refl).
Defined.

Lemma show_line_files (seen : list string) (acc : commit_data * bool) (raw : string) :
  ((forall f, In f (cd_files (fst acc)) ->
              truthy f = true /\ In f (map strip seen)
              /\ In "Files:" (map strip seen))
   /\ (snd acc = true -> In "Files:" (map strip seen))) ->
  (forall f, In f (cd_files (fst (show_line acc raw))) ->
             truthy f = true /\ In f (map strip (seen ++ [raw]))
             /\ In "Files:" (map strip (seen ++ [raw])))
  /\ (snd (show_line acc raw) = true -> In "Files:" (map strip (seen ++ [raw]))).
Proof.
  destruct acc as [d in_files]. cbn [fst snd]. intros [Hf Hs].
  assert (W : forall x, In x (map strip seen) -> In x (map strip (seen ++ [raw]))).
  { intros x Hx. rewrite map_app. apply in_or_app. now left. }
  assert (R : In (strip raw) (map strip (seen ++ [raw]))).
  { rewrite map_app. apply in_or_app. right. now left. }
  assert (Old : forall f, In f (cd_files d) ->
                          truthy f = true /\ In f (map strip (seen ++ [raw]))
                          /\ In "Files:" (map strip (seen ++ [raw]))).
  { intros f Hin. destruct (Hf f Hin) as (T & I1 & I2). auto. }
  unfold show_line. cbv zeta.
  destruct (negb (truthy (strip raw))) eqn:T; [cbn [fst snd]; split; auto|].
  apply negb_false_iff in T.
  destruct (startswith "commit " (strip raw)); [cbn [fst snd cd_files]; split; auto|].
  destruct (startswith "Author: " (strip raw)); [cbn [fst snd cd_files]; split; auto|].
  destruct (startswith "Date:   " (strip raw)); [cbn [fst snd cd_files]; split; auto|].
  destruct (startswith "Parent: " (strip raw)); [cbn [fst snd cd_files]; split; auto|].
  destruct (startswith "Tree: " (strip raw)); [cbn [fst snd cd_files]; split; auto|].
  destruct (startswith "Type: " (strip raw)); [cbn [fst snd cd_files]; split; auto|].
  destruct (String.eqb_spec (strip raw) "Files:") as [E|_].
  { cbn [fst snd]. rewrite <- E. split; [|auto]. intros f Hin.
    destruct (Old f Hin) as (T' & I1 & _). auto. }
  destruct in_files.
  { cbn [fst snd cd_files]. split; [|auto]. intros f Hin.
    apply in_app_or in Hin as [Hin|[<-|[]]]; [now apply Old|].
    repeat split; auto. }
  destruct (negb (is_some (cd_message d)) && _); cbn [fst snd cd_files]; split; auto.
Qed.

Lemma fold_show_files (l seen : list string) (acc : commit_data * bool) :
  ((forall f, In f (cd_files (fst acc)) ->
              truthy f = true /\ In f (map strip seen)
              /\ In "Files:" (map strip seen))
   /\ (snd acc = true -> In "Files:" (map strip seen))) ->
  forall f, In f (cd_files (fst (fold_left show_line l acc))) ->
            truthy f = true /\ In f (map strip (seen ++ l))
            /\ In "Files:" (map strip (seen ++ l)).
Proof.
  revert seen acc. induction l as [|raw l IH]; intros seen acc H.
  - rewrite app_nil_r. apply H.
  - cbn [fold_left]. replace (seen ++ raw :: l) with ((seen ++ [raw]) ++ l)
      by (rewrite <- app_assoc; reflexivity).
    apply IH. now apply show_line_files.
Qed.

(** X26. Every file [_parse_show_output] lists is a line of the output,
    stripped and not empty, and is listed only when the output has a
    [Files:] line: without that line the list of files stays empty. *)
Theorem show_files_follow_header (output f : string) :
  In f (cd_files (_parse_show_output output)) ->
  truthy f = true
  /\ In f (map strip (lines output))
  /\ In "Files:" (map strip (lines output)).
Proof.
  unfold _parse_show_output.
  apply (fold_show_files (lines output) [] (initial_commit_data, false)).
  cbn [fst snd initial_commit_data cd_files]. split; [intros ? []|discriminate].
Qed.

(** The theorem on a commit of one file. *)
Lemma show_files_follow_header_witness :
  truthy "robot.blend" = true
  /\ In "robot.blend"
        (map strip (lines ("commit abc12345" ++ nl ++ "Files:" ++ nl
                           ++ "  robot.blend" ++ nl)))
  /\ In "Files:"
        (map strip (lines ("commit abc12345" ++ nl ++ "Files:" ++ nl
                           ++ "  robot.blend" ++ nl))).
Proof.
  apply (show_files_follow_header
           ("commit abc12345" ++ nl ++ "Files:" ++ nl ++ "  robot.blend" ++ nl)
           "robot.blend").
  vm_compute. left. reflexivity.
Defined.

End ShowParsing.
